(** * media-kit: batch FLV/TS to MP4 conversion scripts

    A shallow embedding of the three Node.js variants of the batch
    converter and the properties of their collection, validation and
    per-file conversion logic.

    - [Simple]          : src/convert.js (stream copy with progress, no validation)
    - [SpaceAware]      : first script of src/unnamed/part_001
                          (disk-space guard, size-bounded batch, size-delta check)
    - [ValidationAware] : second script of src/unnamed/part_001
                          (ffprobe validation, no batch bound)

    External collaborators (ffmpeg, ffprobe, fsutil, failing system calls)
    are oracles collected in a record [Env]; the file system below BASE_DIR,
    the log, the manual-review ledger and the list of spawned transcoders
    form the explicit state [World]. *)

From Stdlib Require Import List String Ascii Bool ZArith NArith QArith Qabs Lia.
From Stdlib Require Import Sorting.Sorted Sorting.Permutation.
Import ListNotations.

Local Open Scope string_scope.
Local Open Scope list_scope.

(* ================================================================== *)
(** ** JavaScript values and the built-ins the scripts call *)
(* ================================================================== *)

Module Js.

(** A JS number.  Finite values are kept as exact rationals: every
    comparison the scripts make ([>= 2], [> 0], [> MAX_DIFF_SIZE_BYTES],
    [< SPACE_THRESHOLD]) is evaluated on the exact value, which coincides
    with the double for every literal a double represents exactly.  The
    rounding of doubles is not modelled: a literal with more digits than
    a double holds, or beyond 2^53, keeps its exact value here. *)
Inductive num : Type :=
| NaN
| Fin (q : Q)
| PInf
| NInf.

Definition of_Z (z : Z) : num := Fin (inject_Z z).

(** [a > b], [a >= b], [a < b]: false as soon as one side is NaN. *)
Definition gt (a b : num) : bool :=
  match a, b with
  | NaN, _ | _, NaN => false
  | PInf, PInf => false
  | PInf, _ => true
  | _, PInf => false
  | NInf, _ => false
  | Fin _, NInf => true
  | Fin x, Fin y => negb (Qle_bool x y)
  end.

Definition lt (a b : num) : bool := gt b a.

Definition ge (a b : num) : bool :=
  match a, b with
  | NaN, _ | _, NaN => false
  | PInf, _ => true
  | _, NInf => true
  | NInf, _ => false
  | Fin _, PInf => false
  | Fin x, Fin y => Qle_bool y x
  end.

(** [Math.abs(x)]; further arguments of the call are ignored by JS. *)
Definition abs (a : num) : num :=
  match a with
  | NaN => NaN
  | Fin q => Fin (Qabs q)
  | PInf | NInf => PInf
  end.

(** *** Scanning decimal literals *)

Definition is_digit (c : ascii) : bool :=
  let n := nat_of_ascii c in (48 <=? n)%nat && (n <=? 57)%nat.

Definition digit_val (c : ascii) : Z := Z.of_nat (nat_of_ascii c) - 48.

(** The white space the parsers skip, as far as ASCII goes; the other
    white-space characters of ECMAScript (U+00A0 and the like) are not
    treated as such. *)
Definition is_space (c : ascii) : bool :=
  let n := nat_of_ascii c in
  (n =? 32)%nat || ((9 <=? n)%nat && (n <=? 13)%nat).

Fixpoint skip_spaces (s : string) : string :=
  match s with
  | String c r => if is_space c then skip_spaces r else s
  | EmptyString => s
  end.

(** Longest prefix of decimal digits, and what follows it. *)
Fixpoint span_digits (s : string) : string * string :=
  match s with
  | String c r =>
      if is_digit c
      then let '(d, rest) := span_digits r in (String c d, rest)
      else (EmptyString, s)
  | EmptyString => (EmptyString, EmptyString)
  end.

Fixpoint digits_value (acc : Z) (d : string) : Z :=
  match d with
  | String c r => digits_value (10 * acc + digit_val c) r
  | EmptyString => acc
  end.

(** Optional sign: [true] for a leading minus. *)
Definition take_sign (s : string) : bool * string :=
  match s with
  | String "-" r => (true, r)
  | String "+" r => (false, r)
  | _ => (false, s)
  end.

Definition scale10 (q : Q) (e : Z) : Q :=
  match e with
  | Z0 => q
  | Zpos p => q * inject_Z (Z.pow 10 (Zpos p))
  | Zneg p => q / inject_Z (Z.pow 10 (Zpos p))
  end.

(** Exponent part [e[+-]ddd]; ignored when no digit follows. *)
Definition take_exponent (s : string) : Z :=
  match s with
  | String c r =>
      if (Ascii.eqb c "e" || Ascii.eqb c "E")%bool
      then let '(neg, r1) := take_sign r in
           let '(d, _) := span_digits r1 in
           match d with
           | EmptyString => 0%Z
           | _ => if neg then (- digits_value 0 d)%Z else digits_value 0 d
           end
      else 0%Z
  | EmptyString => 0%Z
  end.

(** [parseFloat(string)]: leading white space, sign, [Infinity] or the
    longest prefix that is a decimal literal; NaN when there is none. *)
Definition parseFloat (s : string) : num :=
  let '(neg, r) := take_sign (skip_spaces s) in
  if String.prefix "Infinity" r then (if neg then NInf else PInf)
  else
    let '(ip, r1) := span_digits r in
    let '(fp, r2) :=
      match r1 with
      | String "." r1' => span_digits r1'
      | _ => (EmptyString, r1)
      end in
    match ip, fp with
    | EmptyString, EmptyString => NaN
    | _, _ =>
        let k := String.length fp in
        let m := (digits_value 0 ip * Z.pow 10 (Z.of_nat k) + digits_value 0 fp)%Z in
        let q := (inject_Z m / inject_Z (Z.pow 10 (Z.of_nat k)))%Q in
        let v := scale10 q (take_exponent r2) in
        Fin (if neg then Qopp v else v)
    end.

(** [parseInt(string, 10)]. *)
Definition parseInt (s : string) : num :=
  let '(neg, r) := take_sign (skip_spaces s) in
  let '(d, _) := span_digits r in
  match d with
  | EmptyString => NaN
  | _ => of_Z (if neg then - digits_value 0 d else digits_value 0 d)%Z
  end.

(** [hay.includes(needle)] on strings. *)
Fixpoint includes (needle hay : string) : bool :=
  String.prefix needle hay ||
  match hay with
  | String _ r => includes needle r
  | EmptyString => false
  end.

Definition lower (c : ascii) : ascii :=
  let n := nat_of_ascii c in
  if (65 <=? n)%nat && (n <=? 90)%nat then ascii_of_nat (n + 32) else c.

(** [s.toLowerCase()] on the ASCII letters. *)
Fixpoint toLowerCase (s : string) : string :=
  match s with
  | String c r => String (lower c) (toLowerCase r)
  | EmptyString => EmptyString
  end.

(** [arr.join(sep)]. *)
Definition join (sep : string) (l : list string) : string := String.concat sep l.

(** Scalar values found in the fields of ffprobe's JSON document, plus
    [undefined] for an absent property. *)
Inductive value : Type :=
| VUndefined
| VNull
| VBool (b : bool)
| VNum (n : num)
| VStr (s : string).

Definition truthy (v : value) : bool :=
  match v with
  | VUndefined | VNull => false
  | VBool b => b
  | VNum NaN => false
  | VNum (Fin q) => negb (Qeq_bool q 0)
  | VNum _ => true
  | VStr s => negb (String.eqb s "")
  end.

(** [v || d] *)
Definition or_else (v d : value) : value := if truthy v then v else d.

(** [ToString] of a scalar that is not a number (both callers dispatch
    on numbers before converting, so the last case is never used). *)
Definition to_string (v : value) : string :=
  match v with
  | VUndefined => "undefined"
  | VNull => "null"
  | VBool true => "true"
  | VBool false => "false"
  | VStr s => s
  | VNum _ => ""
  end.

(** [parseFloat(v)]: the argument is converted to a string first; a
    number survives that round trip unchanged. *)
Definition parseFloat_value (v : value) : num :=
  match v with
  | VNum n => n
  | _ => parseFloat (to_string v)
  end.

(** [v === "lit"] *)
Definition strict_eq_str (v : value) (lit : string) : bool :=
  match v with
  | VStr s => String.eqb s lit
  | _ => false
  end.

(** Exceptions the scripts can meet. *)
Inductive Exn : Type :=
| TypeError (msg : string)
| Error (msg : string)
| SystemError (code : string).

(** Result of a synchronous call that may throw. *)
Inductive res (A : Type) : Type :=
| Ret (a : A)
| Thrown (e : Exn).
Arguments Ret {A} a.
Arguments Thrown {A} e.

End Js.

(* ================================================================== *)
(** ** The document printed by ffprobe *)
(* ================================================================== *)

Module Probe.

(** [format] object: the four properties the validators read. *)
Record Format : Type := mkFormat {
  format_name : Js.value;
  nb_streams : Js.value;
  duration : Js.value;
  size : Js.value
}.

Record Stream : Type := mkStream {
  codec_type : Js.value;
  codec_name : Js.value;
  codec_tag_string : Js.value
}.

(** Parsed document.  [None] in a field stands for a missing (or falsy)
    property; the document itself is [None] when runFfprobeJson
    returned null.  The documents covered are those of the shape ffprobe
    prints: [format], when truthy, has scalar properties, and [streams],
    when truthy, is an array of objects with scalar properties.  A
    [streams] that is not an array, or that holds null, on which
    [streams.some] would throw, is not among them. *)
Record MediaInfo : Type := mkMediaInfo {
  format : option Format;
  streams : option (list Stream)
}.

(** [details] of a validation result; [d_size] only exists in the
    space-aware script. *)
Record Details : Type := mkDetails {
  d_a_ok : bool;
  d_video_ok : bool;
  d_audio_ok : bool;
  d_nb_streams : Js.num;
  d_duration : Js.num;
  d_size : option Js.num
}.

(** The object returned by validateMp4ByFfprobe.  A property the
    returned object literal does not have is [None]. *)
Record Validation : Type := mkValidation {
  ok : bool;
  reason : option string;
  reasons : option (list string);
  details : option Details
}.

(** The two [streams.some(...)] predicates. *)
Definition is_codec (ty name tag : string) (s : Stream) : bool :=
  Js.strict_eq_str (codec_type s) ty
  && Js.strict_eq_str (codec_name s) name
  && match codec_tag_string s with
     | Js.VStr t => Js.includes tag t
     | _ => false
     end.

Definition video_ok (ss : list Stream) : bool := existsb (is_codec "video" "h264" "avc1") ss.
Definition audio_ok (ss : list Stream) : bool := existsb (is_codec "audio" "aac" "mp4a") ss.

(** [typeof fmt.nb_streams === 'number' ? fmt.nb_streams
                                        : parseInt(fmt.nb_streams || '0', 10)] *)
Definition nb_streams_num (fmt : Format) : Js.num :=
  match nb_streams fmt with
  | Js.VNum n => n
  | v => Js.parseInt (Js.to_string (Js.or_else v (Js.VStr "0")))
  end.

(** [parseFloat(fmt.duration || 0)] *)
Definition duration_num (fmt : Format) : Js.num :=
  Js.parseFloat_value (Js.or_else (duration fmt) (Js.VNum (Js.of_Z 0))).

(** [parseFloat(fmt.size || 0)] *)
Definition size_num (fmt : Format) : Js.num :=
  Js.parseFloat_value (Js.or_else (size fmt) (Js.VNum (Js.of_Z 0))).

(** [reasons.push(code)] guarded by [if (!flag)]. *)
Definition push_unless (flag : bool) (code : string) (acc : list string) : list string :=
  if flag then acc else acc ++ [code].

End Probe.

(* ================================================================== *)
(** ** The file system below BASE_DIR *)
(* ================================================================== *)

Module Fs.

(** A path is the list of its components below BASE_DIR;
    [path.join(dir, name)] appends one component. *)
Definition path : Type := list string.

Definition join (dir : path) (name : string) : path := dir ++ [name].

(** What [fs.statSync] reports: byte size, and the modification and
    access times in milliseconds since the epoch. *)
Record Stat : Type := mkStat {
  st_size : N;
  st_mtime : Z;
  st_atime : Z
}.

(** Directory trees; the entries of a directory are kept in the order
    [fs.readdirSync] lists them. *)
Inductive node : Type :=
| File (st : Stat)
| Dir (es : entries)
with entries : Type :=
| ENil
| ECons (name : string) (n : node) (rest : entries).

Scheme node_mut := Induction for node Sort Prop
with entries_mut := Induction for entries Sort Prop.

Fixpoint find_entry (name : string) (es : entries) : option node :=
  match es with
  | ENil => None
  | ECons n c rest => if String.eqb n name then Some c else find_entry name rest
  end.

(** Remove every entry called [name]. *)
Fixpoint drop_entry (name : string) (es : entries) : entries :=
  match es with
  | ENil => ENil
  | ECons n c rest =>
      if String.eqb n name then drop_entry name rest
      else ECons n c (drop_entry name rest)
  end.

(** Replace the entry called [name], or add it at the end. *)
Fixpoint set_entry (name : string) (c : node) (es : entries) : entries :=
  match es with
  | ENil => ECons name c ENil
  | ECons n c0 rest =>
      if String.eqb n name then ECons n c (drop_entry name rest)
      else ECons n c0 (set_entry name c rest)
  end.

Fixpoint lookup (p : path) (n : node) : option node :=
  match p with
  | [] => Some n
  | name :: p' =>
      match n with
      | Dir es =>
          match find_entry name es with
          | Some c => lookup p' c
          | None => None
          end
      | File _ => None
      end
  end.

(** [fs.existsSync(p)] in the tree whose root directory holds [root]. *)
Definition existsSync (root : entries) (p : path) : bool :=
  match lookup p (Dir root) with
  | Some _ => true
  | None => false
  end.

(** Removal of the regular file at [p]; [None] when there is no such
    file (ENOENT) or [p] is a directory. *)
Fixpoint remove_file (p : path) (es : entries) : option entries :=
  match p with
  | [] => None
  | name :: p' =>
      match find_entry name es, p' with
      | Some (File _), [] => Some (drop_entry name es)
      | Some (Dir sub), _ :: _ =>
          match remove_file p' sub with
          | Some sub' => Some (set_entry name (Dir sub') es)
          | None => None
          end
      | _, _ => None
      end
  end.

(** Creation (or replacement) of the regular file at [p]; [None] when
    the parent directory is missing or [p] is a directory. *)
Fixpoint write_file (p : path) (st : Stat) (es : entries) : option entries :=
  match p with
  | [] => None
  | name :: p' =>
      match find_entry name es, p' with
      | None, [] | Some (File _), [] => Some (set_entry name (File st) es)
      | Some (Dir sub), _ :: _ =>
          match write_file p' st sub with
          | Some sub' => Some (set_entry name (Dir sub') es)
          | None => None
          end
      | _, _ => None
      end
  end.

(** [path.extname(name)] for a single component: from the last dot on,
    unless that dot is the first character or the name is [".."]. *)
Fixpoint last_dot_suffix (s : string) : option string :=
  match s with
  | EmptyString => None
  | String c r =>
      match last_dot_suffix r with
      | Some e => Some e
      | None => if Ascii.eqb c "." then Some s else None
      end
  end.

Definition extname (name : string) : string :=
  match name with
  | EmptyString => ""
  | String _ r =>
      if String.eqb name ".." then ""
      else match last_dot_suffix r with
           | Some e => e
           | None => ""
           end
  end.

(** Last component of a path. *)
Definition filename (p : path) : string := List.last p "".

Definition dirname (p : path) : path := List.removelast p.

(** [path.basename(p, path.extname(p))]: the last component without
    its extension. *)
Definition stem (p : path) : string :=
  let name := filename p in
  substring 0 (String.length name - String.length (extname name)) name.

End Fs.

(* ================================================================== *)
(** ** Log, ledger, external tools and the state the scripts act on *)
(* ================================================================== *)

Module Rt.

Import Fs.

Inductive Level : Type := DEBUG | INFO | WARNING | ERROR | CRITICAL.

(** The messages handed to writeLog, with the values interpolated
    into their templates. *)
Inductive Msg : Type :=
| MsgBlank
| MsgSkipExists (output : path)
| MsgSourceDeleted (input : path)
| MsgSourceDeleteFailed (input : path) (e : Js.Exn)
| MsgStart (input output : path)
| MsgFfmpegDone (output : path)
| MsgFfprobeFailed (file : path) (err : string)
| MsgValidated (output : path)
| MsgTimestampsCopied (output : path)
| MsgTimestampsFailed (e : Js.Exn)
| MsgOutputDeleted (output : path)
| MsgOutputDeleteFailed (output : path) (e : Js.Exn)
| MsgManualReview (input : path)
| MsgConvertFailed (input : path) (code : Z)
| MsgBrokenOutputDeleted (output : path)
| MsgBrokenOutputDeleteFailed (output : path) (e : Js.Exn)
| MsgFfmpegProcessError (err : string)
| MsgTargetMissing (dir : path)
| MsgDiskQueryError (dir : path) (err : string)
| MsgDiskSpaceLow (dir : path)
| MsgBatchSummary (count : nat) (totalSize : N)
| MsgDone (count : nat)
| MsgStatFailed (e : Js.Exn)
| MsgNoDuration (input : path)
| MsgNoProgress (input : path)
| MsgConverted (input : path)
| MsgFfmpegNotFound
| MsgProcessError (input : path) (err : string)
| MsgInterrupted (e : Js.Exn).

(** One [fs.appendFileSync(MANUAL_REVIEW_FILE, reasonText)]: the source
    path, the joined reason codes, and whether the template ends with
    a line break. *)
Record ReviewLine : Type := mkReviewLine {
  rv_input : path;
  rv_reasons : string;
  rv_newline : bool
}.

(** [spawn(FFMPEG_CMD, args)]: the input and output named in [args]. *)
Record Spawn : Type := mkSpawn {
  sp_input : path;
  sp_output : path
}.

(** LOG_FILE and MANUAL_REVIEW_FILE lie in BASE_DIR too.  What is
    appended to them is kept as two lists.  The log is only ever written
    to; the ledger can also be unlinked, so its directory entry counts:
    the ledger is there when the tree lists it or when lines have been
    appended to it (see [ledger_exists]). *)
Record World : Type := mkWorld {
  fs : entries;               (* content of BASE_DIR *)
  log : list (Level * Msg);   (* entries appended to LOG_FILE, oldest first *)
  review : list ReviewLine;   (* appends to MANUAL_REVIEW_FILE, oldest first *)
  spawned : list Spawn        (* transcoder processes started, oldest first *)
}.

(** How one transcoder process ends: it could not be started (the
    'error' event), or it closed with an exit code, having left a file
    at its output path or not.  (A process ended by a signal closes with
    code null, which the handlers treat like any code other than 0.)
    The promise is settled by the first of the two events; the 'close'
    event Node emits after a failed start, whose handler would add an
    ERROR entry after [resolve()], is not followed. *)
Inductive Transcode : Type :=
| SpawnFailed (enoent : bool) (err : string)
| Closed (code : Z) (wrote : bool).

(** What [execPromise(ffprobe ...)] followed by [JSON.parse] gives. *)
Inductive ProbeRun : Type :=
| ProbeFailed (err : string)
| ProbeParsed (doc : option Probe.MediaInfo).

(** What [ffmpeg -i file] tells getDuration (src/convert.js). *)
Inductive DurationRun : Type :=
| ExecSucceeded
| NoDurationLine
| DurationLine (hundredths : Z).

(** Result of [spawnSync]. *)
Record SpawnSync : Type := mkSpawnSync {
  ss_error : option string;
  ss_stdout : string
}.

(** The environment of one run.  The per-file oracles are indexed by
    the source file being processed when the call is made.  Appending to
    LOG_FILE and MANUAL_REVIEW_FILE is taken to succeed. *)
Record Env : Type := mkEnv {
  platform : string;
  fsutil : SpawnSync;
  ffmpeg : path -> Transcode;
  ffmpeg_stat : path -> Stat;         (* stat of the file ffmpeg leaves behind *)
  ffprobe : path -> ProbeRun;
  ffmpeg_info : path -> DurationRun;
  unlink_error : path -> path -> option string;  (* source, file to unlink *)
  utimes_error : path -> option string
}.

(** *** State and exception monad *)

Definition M (A : Type) : Type := World -> Js.res A * World.

Definition ret {A} (a : A) : M A := fun w => (Js.Ret a, w).

Definition bind {A B} (m : M A) (k : A -> M B) : M B :=
  fun w => match m w with
           | (Js.Ret a, w') => k a w'
           | (Js.Thrown e, w') => (Js.Thrown e, w')
           end.

Definition throw {A} (e : Js.Exn) : M A := fun w => (Js.Thrown e, w).

(** [try { body } catch (e) { handler(e) }] *)
Definition try_catch {A} (body : M A) (handler : Js.Exn -> M A) : M A :=
  fun w => match body w with
           | (Js.Ret a, w') => (Js.Ret a, w')
           | (Js.Thrown e, w') => handler e w'
           end.

Definition when (b : bool) (m : M unit) : M unit := if b then m else ret tt.

Declare Scope js_scope.
Delimit Scope js_scope with js.
Notation "x <- m ;; k" := (bind m (fun x => k))
  (at level 61, m at next level, right associativity) : js_scope.
Notation "m ;;; k" := (bind m (fun _ => k))
  (at level 61, right associativity) : js_scope.

Definition get_fs : M entries := fun w => (Js.Ret (fs w), w).

Definition set_fs (f : entries) : M unit :=
  fun w => (Js.Ret tt, mkWorld f (log w) (review w) (spawned w)).

(** [writeLog(message, level)]: the entry appended to LOG_FILE. *)
Definition writeLog (m : Msg) (l : Level) : M unit :=
  fun w => (Js.Ret tt, mkWorld (fs w) (log w ++ [(l, m)]) (review w) (spawned w)).

(** [fs.writeFileSync(LOG_FILE, header)]: the log starts afresh. *)
Definition reset_log : M unit :=
  fun w => (Js.Ret tt, mkWorld (fs w) [] (review w) (spawned w)).

Definition append_review (r : ReviewLine) : M unit :=
  fun w => (Js.Ret tt, mkWorld (fs w) (log w) (review w ++ [r]) (spawned w)).

(** [path.join(BASE_DIR, "manual_review.txt")] *)
Definition MANUAL_REVIEW_NAME : string := "manual_review.txt".
Definition MANUAL_REVIEW_FILE : path := [MANUAL_REVIEW_NAME].

(** [path.join(BASE_DIR, "conversion.log")] *)
Definition LOG_FILE : path := ["conversion.log"].

(** [fs.existsSync(MANUAL_REVIEW_FILE)] *)
Definition ledger_exists (w : World) : bool :=
  Fs.existsSync (fs w) MANUAL_REVIEW_FILE
  || match review w with
     | [] => false
     | _ :: _ => true
     end.

Definition existsSync (p : path) : M bool :=
  fun w => (Js.Ret (Fs.existsSync (fs w) p), w).

(** [fs.unlinkSync(p)] while the file [src] is being processed. *)
Definition unlinkSync (env : Env) (src p : path) : M unit :=
  fun w =>
    match unlink_error env src p with
    | Some code => (Js.Thrown (Js.SystemError code), w)
    | None =>
        match remove_file p (fs w) with
        | Some f => (Js.Ret tt, mkWorld f (log w) (review w) (spawned w))
        | None => (Js.Thrown (Js.SystemError "ENOENT"), w)
        end
    end.

(** [if (fs.existsSync(MANUAL_REVIEW_FILE)) fs.unlinkSync(MANUAL_REVIEW_FILE)]:
    the unlink can fail like any other (and does on a directory); when
    it succeeds the entry and the lines of the ledger are gone. *)
Definition reset_review (env : Env) : M unit :=
  fun w =>
    if ledger_exists w then
      match unlink_error env MANUAL_REVIEW_FILE MANUAL_REVIEW_FILE with
      | Some code => (Js.Thrown (Js.SystemError code), w)
      | None =>
          match find_entry MANUAL_REVIEW_NAME (fs w) with
          | Some (Dir _) => (Js.Thrown (Js.SystemError "EPERM"), w)
          | _ =>
              (Js.Ret tt,
               mkWorld (drop_entry MANUAL_REVIEW_NAME (fs w)) (log w) [] (spawned w))
          end
      end
    else (Js.Ret tt, w).

(** [fs.utimesSync(p, atime, mtime)] *)
Definition utimesSync (env : Env) (p : path) (a m : Z) : M unit :=
  fun w =>
    match utimes_error env p with
    | Some code => (Js.Thrown (Js.SystemError code), w)
    | None =>
        match lookup p (Dir (fs w)) with
        | Some (File st) =>
            match write_file p (mkStat (st_size st) m a) (fs w) with
            | Some f => (Js.Ret tt, mkWorld f (log w) (review w) (spawned w))
            | None => (Js.Thrown (Js.SystemError "ENOENT"), w)
            end
        | _ => (Js.Thrown (Js.SystemError "ENOENT"), w)
        end
    end.

(** [spawn(FFMPEG_CMD, args)] up to the event that ends the process:
    the process is recorded and, if it wrote its output, the file is
    there when the event handler runs. *)
Definition spawn_ffmpeg (env : Env) (input output : path) : M Transcode :=
  fun w =>
    let r := ffmpeg env input in
    let f := match r with
             | Closed _ true =>
                 match write_file output (ffmpeg_stat env input) (fs w) with
                 | Some f' => f'
                 | None => fs w
                 end
             | _ => fs w
             end in
    (Js.Ret r, mkWorld f (log w) (review w) (spawned w ++ [mkSpawn input output])).

(** An awaited promise: settled with the state it left, or never
    settled because the handler meant to resolve it threw [e] (the
    handlers are async functions, so the exception becomes an unhandled
    rejection and [resolve()] is not reached). *)
Inductive Settled : Type :=
| Resolved (w : World)
| Pending (e : Js.Exn) (w : World).

Definition settled_world (s : Settled) : World :=
  match s with
  | Resolved w | Pending _ w => w
  end.

(** The promise built around an event handler that calls [resolve()]
    as its last statement. *)
Definition await_handler (h : M unit) (w : World) : Settled :=
  match h w with
  | (Js.Ret _, w') => Resolved w'
  | (Js.Thrown e, w') => Pending e w'
  end.

(** How the promise returned by [main()] ends. *)
Inductive Run : Type :=
| Returned (w : World)
| Rejected (e : Js.Exn) (w : World)
| Stalled (e : Js.Exn) (w : World).

Definition final (r : Run) : World :=
  match r with
  | Returned w | Rejected _ w | Stalled _ w => w
  end.

(** [for (const t of tasks) await worker(t)] *)
Fixpoint for_await {T} (worker : T -> World -> Settled) (tasks : list T) (w : World)
  : Settled :=
  match tasks with
  | [] => Resolved w
  | t :: rest =>
      match worker t w with
      | Resolved w' => for_await worker rest w'
      | Pending e w' => Pending e w'
      end
  end.

End Rt.

(* ================================================================== *)
(** ** The space-aware script (first script of src/unnamed/part_001) *)
(* ================================================================== *)

Module SpaceAware.

Import Fs Rt.
Local Open Scope js_scope.

(** *** Configuration *)

Definition isDel : bool := true.
Definition TARGET_DIR : path := ["快手直播"].
Definition OUTPUT_DIR : path := [].
Definition extensionsToConvert : list string := [".ts"; ".flv"].
Definition SPACE_THRESHOLD : Z := 5 * 1024 * 1024 * 1024.
Definition MAX_BATCH_SIZE_BYTES : N := 70 * 1024 * 1024 * 1024.
Definition MAX_DIFF_SIZE_BYTES : Z := 2 * 1024 * 1024.

(** *** getAvailableDiskSpace *)

Definition in_number_class (c : ascii) : bool := Js.is_digit c || Ascii.eqb c ",".

Fixpoint take_number_class (s : string) : string :=
  match s with
  | String c r => if in_number_class c then String c (take_number_class r) else EmptyString
  | EmptyString => EmptyString
  end.

(** [output.match(/([\d,]+)/)]: the first maximal run of digits and
    commas, if there is one. *)
Fixpoint match_number (s : string) : option string :=
  match s with
  | String c r => if in_number_class c then Some (take_number_class s) else match_number r
  | EmptyString => None
  end.

(** [.replace(/,/g, '')] *)
Fixpoint remove_commas (s : string) : string :=
  match s with
  | String c r => if Ascii.eqb c "," then remove_commas r else String c (remove_commas r)
  | EmptyString => EmptyString
  end.

Definition getAvailableDiskSpace (env : Env) (directory : path) : M Js.num :=
  if String.eqb (platform env) "win32" then
    let result := fsutil env in
    match ss_error result with
    | Some err =>
        writeLog (MsgDiskQueryError directory err) ERROR ;;;
        ret (Js.of_Z 0)
    | None =>
        match match_number (ss_stdout result) with
        | Some m => ret (Js.parseInt (remove_commas m))
        | None => ret (Js.of_Z 0)
        end
    end
  else throw (Js.Error "Unsupported platform").

(** *** collectFiles *)

(** The objects pushed on [fileList]. *)
Record FileTask : Type := mkFileTask {
  fullPath : path;
  size : N;
  mtime : Z;
  atime : Z
}.

(** [extensionsToConvert.includes(path.extname(file).toLowerCase())] *)
Definition is_candidate (file : string) : bool :=
  existsb (String.eqb (Js.toLowerCase (extname file))) extensionsToConvert.

Definition task_of (fullPath : path) (stat : Stat) : FileTask :=
  mkFileTask fullPath (st_size stat) (st_mtime stat) (st_atime stat).

(** The inner function [walk]: [files] is what readdirSync lists for
    [currentDir]; the captured variables [fileList] and [totalSize] are
    threaded through.  The boolean is the stop signal. *)
Fixpoint walk (currentDir : path) (files : entries) (fileList : list FileTask)
         (totalSize : N) : bool * list FileTask * N :=
  match files with
  | ENil => (false, fileList, totalSize)
  | ECons file n rest =>
      let fullPath := join currentDir file in
      match n with
      | Dir sub =>
          let '(stop, fileList', totalSize') := walk fullPath sub fileList totalSize in
          if stop then (true, fileList', totalSize')
          else walk currentDir rest fileList' totalSize'
      | File stat =>
          if negb (is_candidate file) then walk currentDir rest fileList totalSize
          else if (MAX_BATCH_SIZE_BYTES <? totalSize + st_size stat)%N
               then (true, fileList, totalSize)
               else walk currentDir rest (fileList ++ [task_of fullPath stat])
                         (totalSize + st_size stat)%N
      end
  end.

(** [arr.sort(cmp)]: the stable sort the language prescribes, written
    as insertion from the right; [cmp a b <= 0] keeps [a] before [b]. *)
Fixpoint insert_by {A} (cmp : A -> A -> Z) (x : A) (l : list A) : list A :=
  match l with
  | [] => [x]
  | y :: l' => if (cmp x y <=? 0)%Z then x :: l else y :: insert_by cmp x l'
  end.

Fixpoint sort_by {A} (cmp : A -> A -> Z) (l : list A) : list A :=
  match l with
  | [] => []
  | x :: l' => insert_by cmp x (sort_by cmp l')
  end.

(** [(a, b) => a.mtime - b.mtime] *)
Definition by_mtime (a b : FileTask) : Z := (mtime a - mtime b)%Z.

Definition collectFiles (dir : path) : M (list FileTask) :=
  root <- get_fs ;;
  match lookup dir (Dir root) with
  | Some (Dir files) =>
      let '(_, fileList, totalSize) := walk dir files [] 0%N in
      writeLog (MsgBatchSummary (List.length fileList) totalSize) INFO ;;;
      writeLog MsgBlank INFO ;;;
      ret (sort_by by_mtime fileList)
  | Some (File _) => throw (Js.SystemError "ENOTDIR")
  | None => throw (Js.SystemError "ENOENT")
  end.

(** *** validateMp4ByFfprobe *)

(** [fmt.format_name.includes('mp4')]: a property access on a value
    that is not a string throws. *)
Definition a_ok (fmt : Probe.Format) : Js.res bool :=
  match Probe.format_name fmt with
  | Js.VStr s => Js.Ret (Js.includes "mp4" s)
  | Js.VUndefined | Js.VNull =>
      Js.Thrown (Js.TypeError "Cannot read properties of undefined (reading 'includes')")
  | _ => Js.Thrown (Js.TypeError "fmt.format_name.includes is not a function")
  end.

(** [Math.abs(size, originSize) > MAX_DIFF_SIZE_BYTES]: Math.abs reads
    its first argument only. *)
Definition f_ok (fmt : Probe.Format) (originSize : N) : bool :=
  Js.gt (Js.abs (Probe.size_num fmt)) (Js.of_Z MAX_DIFF_SIZE_BYTES).

Definition validateMp4ByFfprobe (ffinfo : option Probe.MediaInfo) (originSize : N)
  : Js.res Probe.Validation :=
  match ffinfo with
  | Some (Probe.mkMediaInfo (Some fmt) (Some streams)) =>
      match a_ok fmt with
      | Js.Thrown e => Js.Thrown e
      | Js.Ret a_ok =>
          let video_ok := Probe.video_ok streams in
          let audio_ok := Probe.audio_ok streams in
          let nb_streams := Probe.nb_streams_num fmt in
          let d_ok := Js.ge nb_streams (Js.of_Z 2) in
          let duration := Probe.duration_num fmt in
          let e_ok := Js.gt duration (Js.of_Z 0) in
          let size := Probe.size_num fmt in
          let f_ok := f_ok fmt originSize in
          let ok := a_ok && video_ok && audio_ok && d_ok && e_ok && f_ok in
          let reasons :=
            Probe.push_unless f_ok "size_invalid"
            (Probe.push_unless e_ok "duration_invalid"
            (Probe.push_unless d_ok "nb_streams_lt_2"
            (Probe.push_unless audio_ok "audio_stream_not_aac_mp4a"
            (Probe.push_unless video_ok "video_stream_not_h264_avc1"
            (Probe.push_unless a_ok "container_not_mp4" []))))) in
          Js.Ret (Probe.mkValidation ok None (Some reasons)
                    (Some (Probe.mkDetails a_ok video_ok audio_ok nb_streams duration
                                           (Some size))))
      end
  | _ => Js.Ret (Probe.mkValidation false (Some "missing format or streams") None None)
  end.

(** *** convertFlvToMp4 *)

(** [path.join(OUTPUT_DIR, path.basename(inputPath, path.extname(inputPath)) + '.mp4')] *)
Definition outputPath (inputPath : path) : path :=
  join OUTPUT_DIR (stem inputPath ++ ".mp4").

Definition lift {A} (r : Js.res A) : M A :=
  match r with
  | Js.Ret a => ret a
  | Js.Thrown e => throw e
  end.

Definition runFfprobeJson (env : Env) (src filePath : path) : M (option Probe.MediaInfo) :=
  match ffprobe env src with
  | ProbeParsed doc => ret doc
  | ProbeFailed err => writeLog (MsgFfprobeFailed filePath err) ERROR ;;; ret None
  end.

(** [try { if (isDel) { unlinkSync(inputPath); writeLog(...) } } catch ...] *)
Definition delete_source (env : Env) (inputPath : path) : M unit :=
  try_catch
    (when isDel (unlinkSync env inputPath inputPath ;;;
                 writeLog (MsgSourceDeleted inputPath) INFO))
    (fun delErr => writeLog (MsgSourceDeleteFailed inputPath delErr) WARNING).

(** [validation.reasons.join(', ')] *)
Definition join_reasons (validation : Probe.Validation) : M string :=
  match Probe.reasons validation with
  | Some l => ret (Js.join ", " l)
  | None => throw (Js.TypeError "Cannot read properties of undefined (reading 'join')")
  end.

(** The branches of the 'close' handler.  [mtime] and [atime] are Date
    objects, hence truthy: the guard [if (mtime && atime)] always passes. *)
Definition on_valid (env : Env) (t : FileTask) (outputPath : path) : M unit :=
  let inputPath := fullPath t in
  writeLog (MsgValidated outputPath) INFO ;;;
  try_catch
    (utimesSync env outputPath (atime t) (mtime t) ;;;
     writeLog (MsgTimestampsCopied outputPath) INFO)
    (fun utimesError => writeLog (MsgTimestampsFailed utimesError) WARNING) ;;;
  delete_source env inputPath.

Definition on_invalid (env : Env) (t : FileTask) (outputPath : path)
           (validation : Probe.Validation) : M unit :=
  let inputPath := fullPath t in
  try_catch
    (present <- existsSync outputPath ;;
     when present (unlinkSync env inputPath outputPath ;;;
                   writeLog (MsgOutputDeleted outputPath) WARNING))
    (fun e => writeLog (MsgOutputDeleteFailed outputPath e) WARNING) ;;;
  reasonText <- join_reasons validation ;;
  append_review (mkReviewLine inputPath reasonText false) ;;;
  writeLog (MsgManualReview inputPath) WARNING.

Definition on_exit_zero (env : Env) (t : FileTask) (outputPath : path) : M unit :=
  let inputPath := fullPath t in
  writeLog (MsgFfmpegDone outputPath) INFO ;;;
  ffinfo <- runFfprobeJson env inputPath outputPath ;;
  validation <- lift (validateMp4ByFfprobe ffinfo (size t)) ;;
  if Probe.ok validation then on_valid env t outputPath
  else on_invalid env t outputPath validation.

Definition on_exit_failure (env : Env) (t : FileTask) (outputPath : path) (code : Z)
  : M unit :=
  let inputPath := fullPath t in
  writeLog (MsgConvertFailed inputPath code) ERROR ;;;
  present <- existsSync outputPath ;;
  when present
    (try_catch
       (unlinkSync env inputPath outputPath ;;;
        writeLog (MsgBrokenOutputDeleted outputPath) INFO)
       (fun e => writeLog (MsgBrokenOutputDeleteFailed outputPath e) WARNING)).

(** The handler of the 'close' event, up to its [resolve()]. *)
Definition on_close (env : Env) (t : FileTask) (outputPath : path) (code : Z) : M unit :=
  (if (code =? 0)%Z then on_exit_zero env t outputPath
   else on_exit_failure env t outputPath code) ;;;
  writeLog MsgBlank INFO.

Definition on_error (err : string) : M unit :=
  writeLog (MsgFfmpegProcessError err) CRITICAL ;;;
  writeLog MsgBlank INFO.

Definition skip_existing (env : Env) (t : FileTask) (outputPath : path) : M unit :=
  writeLog (MsgSkipExists outputPath) WARNING ;;;
  delete_source env (fullPath t) ;;;
  writeLog MsgBlank INFO.

Definition convert_new (env : Env) (t : FileTask) (outputPath : path) : M unit :=
  writeLog (MsgStart (fullPath t) outputPath) INFO ;;;
  r <- spawn_ffmpeg env (fullPath t) outputPath ;;
  match r with
  | Closed code _ => on_close env t outputPath code
  | SpawnFailed _ err => on_error err
  end.

Definition convertFlvToMp4 (env : Env) (t : FileTask) (w : World) : Settled :=
  let outputPath := outputPath (fullPath t) in
  if Fs.existsSync (fs w) outputPath
  then await_handler (skip_existing env t outputPath) w
  else await_handler (convert_new env t outputPath) w.

(** *** main *)

(** Everything [main] does before its loop; [None] is an early return. *)
Definition prepare (env : Env) : M (option (list FileTask)) :=
  reset_log ;;;
  target <- existsSync TARGET_DIR ;;
  if negb target then
    writeLog (MsgTargetMissing TARGET_DIR) CRITICAL ;;; ret None
  else
    reset_review env ;;;
    availableSpace <- getAvailableDiskSpace env OUTPUT_DIR ;;
    if Js.lt availableSpace (Js.of_Z SPACE_THRESHOLD) then
      writeLog (MsgDiskSpaceLow OUTPUT_DIR) CRITICAL ;;; ret None
    else
      filesToConvert <- collectFiles TARGET_DIR ;;
      ret (Some filesToConvert).

Definition main (env : Env) (w : World) : Run :=
  match prepare env w with
  | (Js.Thrown e, w1) => Rejected e w1
  | (Js.Ret None, w1) => Returned w1
  | (Js.Ret (Some filesToConvert), w1) =>
      match for_await (convertFlvToMp4 env) filesToConvert w1 with
      | Pending e w2 => Stalled e w2
      | Resolved w2 =>
          Returned (snd (writeLog (MsgDone (List.length filesToConvert)) INFO w2))
      end
  end.

End SpaceAware.

(* ================================================================== *)
(** ** The validation-aware script (second script of src/unnamed/part_001) *)
(* ================================================================== *)

Module ValidationAware.

Import Fs Rt.
Local Open Scope js_scope.

Definition isDel : bool := true.
Definition TARGET_DIR : path := ["抖音直播"].
Definition OUTPUT_DIR : path := [].

(** [typeof fmt.format_name === 'string' && fmt.format_name.includes('mp4')] *)
Definition a_ok (fmt : Probe.Format) : bool :=
  match Probe.format_name fmt with
  | Js.VStr s => Js.includes "mp4" s
  | _ => false
  end.

Definition is_nan (n : Js.num) : bool :=
  match n with
  | Js.NaN => true
  | _ => false
  end.

Definition validateMp4ByFfprobe (ffinfo : option Probe.MediaInfo) : Probe.Validation :=
  match ffinfo with
  | Some (Probe.mkMediaInfo (Some fmt) (Some streams)) =>
      let a_ok := a_ok fmt in
      let video_ok := Probe.video_ok streams in
      let audio_ok := Probe.audio_ok streams in
      let nb_streams := Probe.nb_streams_num fmt in
      let d_ok := negb (is_nan nb_streams) && Js.ge nb_streams (Js.of_Z 2) in
      let duration := Probe.duration_num fmt in
      let e_ok := negb (is_nan duration) && Js.gt duration (Js.of_Z 0) in
      let ok := a_ok && video_ok && audio_ok && d_ok && e_ok in
      let reasons :=
        Probe.push_unless e_ok "duration_invalid"
        (Probe.push_unless d_ok "nb_streams_lt_2"
        (Probe.push_unless audio_ok "audio_stream_not_aac_mp4a"
        (Probe.push_unless video_ok "video_stream_not_h264_avc1"
        (Probe.push_unless a_ok "container_not_mp4" [])))) in
      Probe.mkValidation ok None (Some reasons)
        (Some (Probe.mkDetails a_ok video_ok audio_ok nb_streams duration None))
  | _ => Probe.mkValidation false (Some "missing_format_or_streams") None None
  end.

Definition outputPath (inputPath : path) : path :=
  join OUTPUT_DIR (stem inputPath ++ ".mp4").

(** [fs.statSync(inputPath)] *)
Definition statSync (p : path) : M Stat :=
  root <- get_fs ;;
  match lookup p (Dir root) with
  | Some (File st) => ret st
  | _ => throw (Js.SystemError "ENOENT")
  end.

Definition runFfprobeJson (env : Env) (src filePath : path) : M (option Probe.MediaInfo) :=
  match ffprobe env src with
  | ProbeParsed doc => ret doc
  | ProbeFailed err => writeLog (MsgFfprobeFailed filePath err) ERROR ;;; ret None
  end.

Definition delete_source (env : Env) (inputPath : path) : M unit :=
  try_catch
    (when isDel (unlinkSync env inputPath inputPath ;;;
                 writeLog (MsgSourceDeleted inputPath) INFO))
    (fun delErr => writeLog (MsgSourceDeleteFailed inputPath delErr) WARNING).

Definition join_reasons (validation : Probe.Validation) : M string :=
  match Probe.reasons validation with
  | Some l => ret (Js.join ", " l)
  | None => throw (Js.TypeError "Cannot read properties of undefined (reading 'join')")
  end.

(** The branches of the 'close' handler; [times] holds originalMtime
    and originalAtime when statSync succeeded. *)
Definition on_valid (env : Env) (inputPath outputPath : path) (times : option Stat)
  : M unit :=
  writeLog (MsgValidated outputPath) INFO ;;;
  match times with
  | Some st =>
      try_catch
        (utimesSync env outputPath (st_atime st) (st_mtime st) ;;;
         writeLog (MsgTimestampsCopied outputPath) INFO)
        (fun utimesError => writeLog (MsgTimestampsFailed utimesError) WARNING)
  | None => ret tt
  end ;;;
  delete_source env inputPath.

Definition on_invalid (env : Env) (inputPath outputPath : path)
           (validation : Probe.Validation) : M unit :=
  try_catch
    (present <- existsSync outputPath ;;
     when present (unlinkSync env inputPath outputPath ;;;
                   writeLog (MsgOutputDeleted outputPath) WARNING))
    (fun e => writeLog (MsgOutputDeleteFailed outputPath e) WARNING) ;;;
  reasonText <- join_reasons validation ;;
  append_review (mkReviewLine inputPath reasonText true) ;;;
  writeLog (MsgManualReview inputPath) WARNING.

Definition on_exit_zero (env : Env) (inputPath outputPath : path) (times : option Stat)
  : M unit :=
  writeLog (MsgFfmpegDone outputPath) INFO ;;;
  ffinfo <- runFfprobeJson env inputPath outputPath ;;
  let validation := validateMp4ByFfprobe ffinfo in
  if Probe.ok validation then on_valid env inputPath outputPath times
  else on_invalid env inputPath outputPath validation.

Definition on_exit_failure (env : Env) (inputPath outputPath : path) (code : Z) : M unit :=
  writeLog (MsgConvertFailed inputPath code) ERROR ;;;
  present <- existsSync outputPath ;;
  when present
    (try_catch
       (unlinkSync env inputPath outputPath ;;;
        writeLog (MsgBrokenOutputDeleted outputPath) INFO)
       (fun _ => ret tt)).

Definition on_close (env : Env) (inputPath outputPath : path) (times : option Stat)
           (code : Z) : M unit :=
  if (code =? 0)%Z then on_exit_zero env inputPath outputPath times
  else on_exit_failure env inputPath outputPath code.

Definition convert_new (env : Env) (inputPath outputPath : path) : M unit :=
  times <- try_catch
             (st <- statSync inputPath ;; ret (Some st))
             (fun e => writeLog (MsgStatFailed e) WARNING ;;; ret None) ;;
  writeLog (MsgStart inputPath outputPath) INFO ;;;
  r <- spawn_ffmpeg env inputPath outputPath ;;
  match r with
  | Closed code _ => on_close env inputPath outputPath times code
  | SpawnFailed _ err => writeLog (MsgFfmpegProcessError err) CRITICAL
  end.

Definition convertFlvToMp4 (env : Env) (inputPath : path) (w : World) : Settled :=
  let outputPath := outputPath inputPath in
  if Fs.existsSync (fs w) outputPath
  then await_handler (writeLog (MsgSkipExists outputPath) WARNING) w
  else await_handler (convert_new env inputPath outputPath) w.

End ValidationAware.

(* ================================================================== *)
(** ** The plain script (src/convert.js) *)
(* ================================================================== *)

Module Simple.

Import Fs Rt.
Local Open Scope js_scope.

(** [inputPath.substring(0, inputPath.lastIndexOf(path.extname(inputPath))) + '.mp4']:
    the output lies next to the input. *)
Definition outputPath (inputPath : path) : path :=
  join (dirname inputPath) (stem inputPath ++ ".mp4").

Definition statSync (p : path) : M Stat :=
  root <- get_fs ;;
  match lookup p (Dir root) with
  | Some (File st) => ret st
  | _ => throw (Js.SystemError "ENOENT")
  end.

(** getDuration: seconds in hundredths, 0 when unknown. *)
Definition getDuration (env : Env) (inputPath : path) : M Z :=
  match ffmpeg_info env inputPath with
  | ExecSucceeded => ret 0%Z
  | DurationLine h => ret h
  | NoDurationLine => writeLog (MsgNoDuration inputPath) WARNING ;;; ret 0%Z
  end.

Definition on_close (env : Env) (inputPath outputPath : path) (times : option Stat)
           (code : Z) : M unit :=
  if (code =? 0)%Z then
    match times with
    | Some st =>
        try_catch
          (utimesSync env outputPath (st_atime st) (st_mtime st) ;;;
           writeLog (MsgTimestampsCopied outputPath) INFO)
          (fun utimesError => writeLog (MsgTimestampsFailed utimesError) WARNING)
    | None => ret tt
    end ;;;
    writeLog (MsgConverted inputPath) INFO
  else
    writeLog (MsgConvertFailed inputPath code) ERROR.

Definition on_error (inputPath : path) (enoent : bool) (err : string) : M unit :=
  if enoent then writeLog MsgFfmpegNotFound CRITICAL
  else writeLog (MsgProcessError inputPath err) ERROR.

Definition convert_new (env : Env) (inputPath outputPath : path) : M unit :=
  times <- try_catch
             (st <- statSync inputPath ;; ret (Some st))
             (fun e => writeLog (MsgStatFailed e) WARNING ;;; ret None) ;;
  totalDurationSeconds <- getDuration env inputPath ;;
  when (totalDurationSeconds =? 0)%Z (writeLog (MsgNoProgress inputPath) WARNING) ;;;
  writeLog (MsgStart inputPath outputPath) INFO ;;;
  r <- spawn_ffmpeg env inputPath outputPath ;;
  match r with
  | Closed code _ => on_close env inputPath outputPath times code
  | SpawnFailed enoent err => on_error inputPath enoent err
  end.

Definition convertVideoStreamCopy (env : Env) (inputPath : path) (w : World) : Settled :=
  let outputPath := outputPath inputPath in
  if Fs.existsSync (fs w) outputPath
  then await_handler (writeLog (MsgSkipExists outputPath) WARNING) w
  else await_handler (convert_new env inputPath outputPath) w.

End Simple.

(* ================================================================== *)
(** ** Specification-level notions the properties are stated with *)
(* ================================================================== *)

Module Spec.

Import Fs Rt.

(** The size-delta rule as the documentation words it:
    [|outputSize - originalSize| <= maxDiffBytes]. *)
Definition size_ok (outputSize : Js.num) (originalSize : N) (maxDiffBytes : Z) : bool :=
  match outputSize with
  | Js.Fin q =>
      Qle_bool (Qabs (q - inject_Z (Z.of_N originalSize))) (inject_Z maxDiffBytes)
  | _ => false
  end.

(** A probe document that is null or lacks [format] or [streams]. *)
Definition lacks_format_or_streams (ffinfo : option Probe.MediaInfo) : bool :=
  match ffinfo with
  | Some (Probe.mkMediaInfo (Some _) (Some _)) => false
  | _ => true
  end.

(** A validation result that names [code] among its failure reasons. *)
Definition names_reason (code : string) (v : Probe.Validation) : Prop :=
  exists l, Probe.reasons v = Some l /\ In code l.

Definition sum_sizes (l : list SpaceAware.FileTask) : N :=
  fold_right (fun t acc => (SpaceAware.size t + acc)%N) 0%N l.

Definition mtime_le (a b : SpaceAware.FileTask) : Prop :=
  (SpaceAware.mtime a <= SpaceAware.mtime b)%Z.

(** The matching files below a directory, in the order the traversal
    meets them. *)
Fixpoint candidates (currentDir : path) (files : entries) : list SpaceAware.FileTask :=
  match files with
  | ENil => []
  | ECons file n rest =>
      match n with
      | Dir sub => candidates (join currentDir file) sub ++ candidates currentDir rest
      | File stat =>
          if SpaceAware.is_candidate file
          then SpaceAware.task_of (join currentDir file) stat :: candidates currentDir rest
          else candidates currentDir rest
      end
  end.

(** Accept candidates in order until one would push the running total
    over [limit]; nothing after that one is looked at. *)
Fixpoint take_fitting (limit : N) (cands : list SpaceAware.FileTask) (total : N)
  : bool * list SpaceAware.FileTask * N :=
  match cands with
  | [] => (false, [], total)
  | c :: rest =>
      if (limit <? total + SpaceAware.size c)%N then (true, [], total)
      else let '(stop, l, t) := take_fitting limit rest (total + SpaceAware.size c)%N in
           (stop, c :: l, t)
  end.

(** Stat of the regular file at [p], if there is one. *)
Definition stat (root : entries) (p : path) : option Stat :=
  match lookup p (Dir root) with
  | Some (File st) => Some st
  | _ => None
  end.

(** The free-space query fails: unsupported platform, or the command
    reported an error. *)
Definition query_fails (env : Env) : Prop :=
  platform env <> "win32" \/ ss_error (fsutil env) <> None.

Definition logged (l : Level) (m : Msg) (w : World) : Prop := In (l, m) (log w).

Definition spawned_for (input : path) (w : World) : Prop :=
  exists s, In s (spawned w) /\ sp_input s = input.

(** A transcoder that exits with code 0 has written its output file. *)
Definition exit0_writes (env : Env) : Prop :=
  forall input wrote, ffmpeg env input = Closed 0 wrote -> wrote = true.

(** The document a probe run hands to the validator. *)
Definition probe_doc (r : ProbeRun) : option Probe.MediaInfo :=
  match r with
  | ProbeParsed doc => doc
  | ProbeFailed _ => None
  end.

(** What [validation.reasons.join(', ')] throws when the validation
    result has no [reasons]. *)
Definition join_type_error : Js.Exn :=
  Js.TypeError "Cannot read properties of undefined (reading 'join')".

(** [I] survives the action [m], however [m] ends. *)
Definition keeps {A} (I : World -> Prop) (m : M A) : Prop :=
  forall w, I w -> I (snd (m w)).

(** The top-level file [n] of BASE_DIR is there. *)
Definition present (n : string) (w : World) : Prop := Fs.existsSync (fs w) [n] = true.

(** No validation of output [o] is on record in the log. *)
Definition not_validated (o : path) (w : World) : Prop := ~ logged INFO (MsgValidated o) w.

(** No transcoder was started whose output would be [o]. *)
Definition no_spawn_to (o : path) (w : World) : Prop :=
  forall s, In s (spawned w) -> SpaceAware.outputPath (sp_input s) <> o.

(** A file whose validation is on record is there. *)
Definition validated_present (n : string) (w : World) : Prop :=
  logged INFO (MsgValidated [n]) w -> present n w.

(** The paths handed out by collectFiles lie strictly below the
    directory that was walked. *)
Definition below (dir p : path) : Prop := exists rest, rest <> [] /\ p = dir ++ rest.

(** Removing the ledger at the start of a run does not fail. *)
Definition ledger_reset_succeeds (env : Env) (w : World) : bool :=
  match fst (reset_review env w) with
  | Js.Ret _ => true
  | Js.Thrown _ => false
  end.

(** What is logged about the partial output after the ERROR entry of a
    non-zero exit: by the space-aware script, which reports a failed
    unlink, and by the validation-aware one, which ignores it. *)
Definition partial_output_entries_space (env : Env) (input output : path) (wrote : bool)
  : list (Level * Msg) :=
  if wrote then
    match unlink_error env input output with
    | None => [(INFO, MsgBrokenOutputDeleted output)]
    | Some code => [(WARNING, MsgBrokenOutputDeleteFailed output (Js.SystemError code))]
    end
  else [].

Definition partial_output_entries_aware (env : Env) (input output : path) (wrote : bool)
  : list (Level * Msg) :=
  if wrote then
    match unlink_error env input output with
    | None => [(INFO, MsgBrokenOutputDeleted output)]
    | Some _ => []
    end
  else [].

(** The partial output is still there: it was written and its unlink
    failed. *)
Definition partial_output_stays (env : Env) (input output : path) (wrote : bool) : bool :=
  wrote && match unlink_error env input output with
           | Some _ => true
           | None => false
           end.

(** The same tree at the start of another run: nothing spawned yet. *)
Definition restart (w : World) : World := mkWorld (fs w) (log w) (review w) [].

End Spec.

(* ================================================================== *)
(** ** Concrete trees, documents and environments *)
(* ================================================================== *)

Module Demo.

Import Fs Rt.

Definition str (s : string) : Js.value := Js.VStr s.

Definition streams_ok : list Probe.Stream :=
  [ Probe.mkStream (str "video") (str "h264") (str "avc1");
    Probe.mkStream (str "audio") (str "aac") (str "mp4a") ].

(** What ffprobe prints for a sound MP4 of [bytes] bytes. *)
Definition doc (bytes : string) : Probe.MediaInfo :=
  Probe.mkMediaInfo
    (Some (Probe.mkFormat (str "mov,mp4,m4a,3gp,3g2,mj2") (Js.VNum (Js.of_Z 2))
                          (str "300.000000") (str bytes)))
    (Some streams_ok).

Definition one_stream (bytes : string) : Probe.MediaInfo :=
  Probe.mkMediaInfo
    (Some (Probe.mkFormat (str "mov,mp4,m4a,3gp,3g2,mj2") (Js.VNum (Js.of_Z 1))
                          (str "300.000000") (str bytes)))
    (Some [Probe.mkStream (str "video") (str "h264") (str "avc1")]).

Definition GB : N := 1024 * 1024 * 1024.

Definition file (bytes : N) (mtime : Z) : node := File (mkStat bytes mtime mtime).

(** BASE_DIR with two recordings in the target directory. *)
Definition two_files : entries :=
  ECons "快手直播"
    (Dir (ECons "a.flv" (file 5000000 200)
         (ECons "b.flv" (file 6000000 100) ENil)))
    ENil.

(** Two recordings with the same name in different rooms, plus the
    same name with the other extension. *)
Definition same_names : entries :=
  ECons "快手直播"
    (Dir (ECons "room1" (Dir (ECons "x.flv" (file 5000000 100) ENil))
         (ECons "room2" (Dir (ECons "x.flv" (file 6000000 200) ENil))
         ENil)))
    ENil.

(** A 40 GB and a 50 GB recording, then small ones here and in a
    sibling directory. *)
Definition big_tree : entries :=
  ECons "快手直播"
    (Dir (ECons "d1" (Dir (ECons "a.flv" (file (40 * GB) 300)
                          (ECons "b.flv" (file (50 * GB) 100)
                          (ECons "c.ts" (file 1000 50) ENil))))
         (ECons "d2" (Dir (ECons "e.FLV" (file 2000 10) ENil))
         (ECons "notes.txt" (file 10 5) ENil))))
    ENil.

Definition world (root : entries) : World := mkWorld root [] [] [].

Definition fsutil_ok : SpawnSync :=
  mkSpawnSync None "Total free bytes        :  123,456,789,012 (115.0 GB)".

(** An environment in which every system call succeeds; the transcoder
    and the probe are given per source file. *)
Definition env_of (plat : string) (disk : SpawnSync) (tr : path -> Transcode)
           (pr : path -> ProbeRun) : Env :=
  mkEnv plat disk tr (fun _ => mkStat 4000000 0 0) pr (fun _ => NoDurationLine)
        (fun _ _ => None) (fun _ => None).

Definition all_fine : Env :=
  env_of "win32" fsutil_ok (fun _ => Closed 0 true) (fun _ => ProbeParsed (Some (doc "4000000"))).

(** ffprobe fails on the output of the first file. *)
Definition probe_fails : Env :=
  env_of "win32" fsutil_ok (fun _ => Closed 0 true) (fun _ => ProbeFailed "Command failed").

(** The transcoder exits with code 1 after writing part of its output. *)
Definition exit_one : Env :=
  env_of "win32" fsutil_ok (fun _ => Closed 1 true) (fun _ => ProbeFailed "Command failed").

Definition on_linux : Env :=
  env_of "linux" fsutil_ok (fun _ => Closed 0 true) (fun _ => ProbeParsed (Some (doc "4000000"))).

Definition fsutil_broken : Env :=
  env_of "win32" (mkSpawnSync (Some "spawnSync fsutil ENOENT") "")
         (fun _ => Closed 0 true) (fun _ => ProbeParsed (Some (doc "4000000"))).

(** Every unlink fails (the files are held open elsewhere). *)
Definition unlink_busy : Env :=
  mkEnv "win32" fsutil_ok (fun _ => Closed 0 true) (fun _ => mkStat 4000000 0 0)
        (fun _ => ProbeParsed (Some (doc "4000000"))) (fun _ => NoDurationLine)
        (fun _ _ => Some "EBUSY") (fun _ => None).

(** The output has a video stream only. *)
Definition audio_lost : Env :=
  env_of "win32" fsutil_ok (fun _ => Closed 0 true)
         (fun _ => ProbeParsed (Some (one_stream "4000000"))).

Definition a_flv : path := ["快手直播"; "a.flv"].
Definition b_flv : path := ["快手直播"; "b.flv"].
Definition room1_x : path := ["快手直播"; "room1"; "x.flv"].
Definition room2_x : path := ["快手直播"; "room2"; "x.flv"].

Definition task_room1 : SpaceAware.FileTask :=
  SpaceAware.mkFileTask room1_x 5000000 100 100.
Definition task_room2 : SpaceAware.FileTask :=
  SpaceAware.mkFileTask room2_x 6000000 200 200.

Definition task_a : SpaceAware.FileTask :=
  SpaceAware.mkFileTask ["快手直播"; "a.flv"] 5000000 200 200.

End Demo.

(* ================================================================== *)
(** ** The runs of the other two scripts, and notions about trees *)
(* ================================================================== *)

(** The validation-aware script: collectFiles and main. *)
Module ValidationAwareRun.

Import Fs Rt.
Local Open Scope js_scope.

Definition extensionsToConvert : list string := [".ts"; ".flv"].

Definition is_candidate (file : string) : bool :=
  existsb (String.eqb (Js.toLowerCase (extname file))) extensionsToConvert.

(** [collectFiles(dir, fileList)]: [files] is what readdirSync lists for
    [dir].  The array [fileList] is shared by all the recursive calls,
    which push on it; it is threaded through here. *)
Fixpoint collectFiles (dir : path) (files : entries) (fileList : list path) : list path :=
  match files with
  | ENil => fileList
  | ECons file n rest =>
      let fullPath := join dir file in
      match n with
      | Dir sub => collectFiles dir rest (collectFiles fullPath sub fileList)
      | File _ =>
          if is_candidate file then collectFiles dir rest (fileList ++ [fullPath])
          else collectFiles dir rest fileList
      end
  end.

(** The top-level call [collectFiles(TARGET_DIR)] on the current tree. *)
Definition collect (dir : path) : M (list path) :=
  root <- get_fs ;;
  match lookup dir (Dir root) with
  | Some (Dir files) => ret (collectFiles dir files [])
  | Some (File _) => throw (Js.SystemError "ENOTDIR")
  | None => throw (Js.SystemError "ENOENT")
  end.

Definition prepare : M (option (list path)) :=
  reset_log ;;;
  target <- existsSync ValidationAware.TARGET_DIR ;;
  if negb target then
    writeLog (MsgTargetMissing ValidationAware.TARGET_DIR) CRITICAL ;;; ret None
  else
    filesToConvert <- collect ValidationAware.TARGET_DIR ;;
    ret (Some filesToConvert).

Definition main (env : Env) (w : World) : Run :=
  match prepare w with
  | (Js.Thrown e, w1) => Rejected e w1
  | (Js.Ret None, w1) => Returned w1
  | (Js.Ret (Some filesToConvert), w1) =>
      match for_await (ValidationAware.convertFlvToMp4 env) filesToConvert w1 with
      | Pending e w2 => Stalled e w2
      | Resolved w2 =>
          Returned (snd (writeLog (MsgDone (List.length filesToConvert)) INFO w2))
      end
  end.

End ValidationAwareRun.

(** src/convert.js: collectFiles and main.  The outputs are written
    next to the sources. *)
Module SimpleRun.

Import Fs Rt.
Local Open Scope js_scope.

(** [D:\04_Temp\直播]: for this script the tree of the state is read as
    the content of [D:\04_Temp]. *)
Definition TARGET_DIR : path := ["直播"].
Definition extensionsToConvert : list string := [".ts"; ".flv"].

Definition is_candidate (file : string) : bool :=
  existsb (String.eqb (Js.toLowerCase (extname file))) extensionsToConvert.

(** [files.forEach(...)] over the listing of [dir], pushing on the
    shared [fileList]. *)
Fixpoint collectFiles (dir : path) (files : entries) (fileList : list path) : list path :=
  match files with
  | ENil => fileList
  | ECons file n rest =>
      let fullPath := join dir file in
      match n with
      | Dir sub => collectFiles dir rest (collectFiles fullPath sub fileList)
      | File _ =>
          if is_candidate file then collectFiles dir rest (fileList ++ [fullPath])
          else collectFiles dir rest fileList
      end
  end.

Definition collect (dir : path) : M (list path) :=
  root <- get_fs ;;
  match lookup dir (Dir root) with
  | Some (Dir files) => ret (collectFiles dir files [])
  | Some (File _) => throw (Js.SystemError "ENOTDIR")
  | None => throw (Js.SystemError "ENOENT")
  end.

Definition prepare : M (option (list path)) :=
  reset_log ;;;
  target <- existsSync TARGET_DIR ;;
  if negb target then
    writeLog (MsgTargetMissing TARGET_DIR) CRITICAL ;;; ret None
  else
    filesToConvert <- collect TARGET_DIR ;;
    ret (Some filesToConvert).

(** The body of [main]. *)
Definition run (env : Env) (w : World) : Run :=
  match prepare w with
  | (Js.Thrown e, w1) => Rejected e w1
  | (Js.Ret None, w1) => Returned w1
  | (Js.Ret (Some filesToConvert), w1) =>
      match for_await (Simple.convertVideoStreamCopy env) filesToConvert w1 with
      | Pending e w2 => Stalled e w2
      | Resolved w2 =>
          Returned (snd (writeLog (MsgDone (List.length filesToConvert)) INFO w2))
      end
  end.

(** [main().catch(err => writeLog(..., 'CRITICAL'))] *)
Definition main (env : Env) (w : World) : Run :=
  match run env w with
  | Rejected err w1 => Returned (snd (writeLog (MsgInterrupted err) CRITICAL w1))
  | r => r
  end.

End SimpleRun.

(** Notions the further properties are stated with. *)
Module Tree.

Import Fs Rt.

Fixpoint names (es : entries) : list string :=
  match es with
  | ENil => []
  | ECons n _ rest => n :: names rest
  end.

(** No directory of the tree lists a name twice. *)
Fixpoint distinct_names (es : entries) : bool :=
  match es with
  | ENil => true
  | ECons n c rest =>
      negb (existsb (String.eqb n) (names rest))
      && match c with
         | Dir sub => distinct_names sub
         | File _ => true
         end
      && distinct_names rest
  end.


(** The validation result carries an empty list of reasons. *)
Definition no_reasons (v : Probe.Validation) : bool :=
  match Probe.reasons v with
  | Some [] => true
  | _ => false
  end.

(** [m] returns, whatever the state. *)
Definition returns_always {A} (m : M A) : Prop :=
  forall w, exists a, fst (m w) = Js.Ret a.


(** A task of the space-aware batch: a file strictly below TARGET_DIR
    whose name has a convertible extension. *)
Definition collected (t : SpaceAware.FileTask) : Prop :=
  Spec.below SpaceAware.TARGET_DIR (SpaceAware.fullPath t)
  /\ SpaceAware.is_candidate (filename (SpaceAware.fullPath t)) = true.


(** Characters of the class [[\d,]]. *)
Fixpoint all_number_class (s : string) : bool :=
  match s with
  | String c r => SpaceAware.in_number_class c && all_number_class r
  | EmptyString => true
  end.

Fixpoint no_number_class (s : string) : bool :=
  match s with
  | String c r => negb (SpaceAware.in_number_class c) && no_number_class r
  | EmptyString => true
  end.

(** Empty, or starting with a character outside the class. *)
Definition ends_number (s : string) : bool :=
  match s with
  | String c _ => negb (SpaceAware.in_number_class c)
  | EmptyString => true
  end.

(** The tasks with a given modification time, in list order. *)
Definition with_mtime (k : Z) (l : list SpaceAware.FileTask) : list SpaceAware.FileTask :=
  filter (fun t => Z.eqb (SpaceAware.mtime t) k) l.

End Tree.

(** Further concrete environments and trees. *)
Module Demo2.

Import Fs Rt.

(** fsutil reports a little more than one megabyte free. *)
Definition low_disk : Env :=
  Demo.env_of "win32"
              (mkSpawnSync None "Total free bytes        :  1,234,567 (1.2 MB)")
              (fun _ => Closed 0 true)
              (fun _ => ProbeParsed (Some (Demo.doc "4000000"))).

(** The tree of the validation-aware script after a run: both
    recordings and their outputs. *)
Definition converted_tree : entries :=
  ECons "抖音直播"
    (Dir (ECons "a.flv" (Demo.file 5000000 200)
         (ECons "b.flv" (Demo.file 6000000 100) ENil)))
    (ECons "a.mp4" (Demo.file 4000000 200)
    (ECons "b.mp4" (Demo.file 4000000 100) ENil)).

(** The transcoder exits with code 1 after writing part of its output,
    and every unlink fails. *)
Definition exit_one_busy : Env :=
  mkEnv "win32" Demo.fsutil_ok (fun _ => Closed 1 true) (fun _ => mkStat 4000000 0 0)
        (fun _ => ProbeFailed "Command failed") (fun _ => NoDurationLine)
        (fun _ _ => Some "EBUSY") (fun _ => None).

(** The tree of the space-aware script with the ledger of an earlier
    run in BASE_DIR. *)
Definition with_ledger : entries :=
  ECons "manual_review.txt" (Demo.file 120 300)
    (ECons "快手直播"
       (Dir (ECons "a.flv" (Demo.file 5000000 200)
            (ECons "b.flv" (Demo.file 6000000 100) ENil)))
       ENil).


End Demo2.

(* ================================================================== *)
(** ** Properties *)
(* ================================================================== *)

(** *** Validation *)

Section Validation.

Import Probe.

Lemma f_ok_ignores_origin (fmt : Format) (o1 o2 : N) :
  SpaceAware.f_ok fmt o1 = SpaceAware.f_ok fmt o2.
Proof. reflexivity. Qed.

Lemma validate_space_missing (ffinfo : option MediaInfo) (originSize : N) :
  Spec.lacks_format_or_streams ffinfo = true ->
  SpaceAware.validateMp4ByFfprobe ffinfo originSize
  = Js.Ret (mkValidation false (Some "missing format or streams") None None).
Proof.
  destruct ffinfo as [[[fmt|] [ss|]]|]; simpl; intros H; try discriminate; reflexivity.
Qed.

Lemma validate_aware_missing (ffinfo : option MediaInfo) :
  Spec.lacks_format_or_streams ffinfo = true ->
  ValidationAware.validateMp4ByFfprobe ffinfo
  = mkValidation false (Some "missing_format_or_streams") None None.
Proof.
  destruct ffinfo as [[[fmt|] [ss|]]|]; simpl; intros H; try discriminate; reflexivity.
Qed.

End Validation.

(** *** Collection *)

Section Collection.

Import Fs Rt SpaceAware Spec.

Let LIMIT := MAX_BATCH_SIZE_BYTES.

Lemma take_fitting_app (a b : list FileTask) (total : N) :
  take_fitting LIMIT (a ++ b) total =
  let '(stop, l, t) := take_fitting LIMIT a total in
  if stop then (true, l, t)
  else let '(stop', l', t') := take_fitting LIMIT b t in (stop', l ++ l', t').
Proof.
  revert total; induction a as [|c a IH]; intros total; simpl.
  - destruct (take_fitting LIMIT b total) as [[s l] t]; reflexivity.
  - destruct (LIMIT <? total + size c)%N; [reflexivity|].
    rewrite IH.
    destruct (take_fitting LIMIT a (total + size c)) as [[s l] t].
    destruct s; [reflexivity|].
    destruct (take_fitting LIMIT b t) as [[s' l'] t']; reflexivity.
Qed.

(** The traversal accepts exactly what [take_fitting] accepts from the
    candidates in traversal order, and raises its stop signal exactly
    when [take_fitting] stops. *)
Lemma walk_spec (files : entries) :
  forall currentDir fileList totalSize,
    walk currentDir files fileList totalSize =
    let '(stop, l, t) := take_fitting LIMIT (candidates currentDir files) totalSize in
    (stop, fileList ++ l, t).
Proof.
  induction files using entries_mut with
    (P := fun n => match n with
                   | Dir sub => forall currentDir fileList totalSize,
                       walk currentDir sub fileList totalSize =
                       let '(stop, l, t) :=
                         take_fitting LIMIT (candidates currentDir sub) totalSize in
                       (stop, fileList ++ l, t)
                   | File _ => True
                   end).
  - exact I.
  - exact IHfiles.
  - intros; simpl; rewrite app_nil_r; reflexivity.
  - intros currentDir fileList totalSize.
    destruct n as [stat|sub]; simpl.
    + destruct (is_candidate name); simpl.
      * fold LIMIT.
        destruct (LIMIT <? totalSize + st_size stat)%N eqn:E.
        -- rewrite app_nil_r; reflexivity.
        -- rewrite IHfiles0.
           destruct (take_fitting LIMIT (candidates currentDir files)
                       (totalSize + st_size stat)) as [[s l] t].
           rewrite <- app_assoc; reflexivity.
      * apply IHfiles0.
    + rewrite take_fitting_app, IHfiles.
      destruct (take_fitting LIMIT (candidates (join currentDir name) sub) totalSize)
        as [[s l] t].
      destruct s; [reflexivity|].
      rewrite IHfiles0.
      destruct (take_fitting LIMIT (candidates currentDir files) t) as [[s' l'] t'].
      rewrite app_assoc; reflexivity.
Qed.

Lemma take_fitting_total (cands : list FileTask) :
  forall total stop l t,
    take_fitting LIMIT cands total = (stop, l, t) ->
    t = (total + sum_sizes l)%N /\ ((total <= LIMIT)%N -> (t <= LIMIT)%N).
Proof.
  induction cands as [|c cands IH]; intros total stop l t; simpl.
  - intros H; inversion H; subst; simpl; split; [lia | auto].
  - destruct (LIMIT <? total + size c)%N eqn:E.
    + intros H; inversion H; subst; simpl; split; [lia | auto].
    + destruct (take_fitting LIMIT cands (total + size c)) as [[s' l'] t'] eqn:T.
      intros H; inversion H; subst.
      destruct (IH _ _ _ _ T) as [Ht Hle].
      apply N.ltb_ge in E.
      split; [simpl; lia | auto].
Qed.

(** Once a candidate does not fit, the accepted list is the part
    before it, whatever follows. *)
Lemma take_fitting_stops (pre : list FileTask) :
  forall c post total,
    (total + sum_sizes pre <= LIMIT)%N ->
    (LIMIT < total + sum_sizes pre + size c)%N ->
    take_fitting LIMIT (pre ++ c :: post) total = (true, pre, (total + sum_sizes pre)%N).
Proof.
  induction pre as [|x pre IH]; intros c post total Hle Hlt; simpl in *.
  - rewrite N.add_0_r in *.
    apply N.ltb_lt in Hlt; rewrite Hlt; reflexivity.
  - assert (E : (LIMIT <? total + size x)%N = false) by (apply N.ltb_ge; lia).
    rewrite E.
    rewrite (IH c post (total + size x)%N) by lia.
    f_equal; lia.
Qed.

Lemma sum_sizes_insert (x : FileTask) (l : list FileTask) :
  sum_sizes (insert_by by_mtime x l) = (size x + sum_sizes l)%N.
Proof.
  induction l as [|y l IH]; simpl; [reflexivity|].
  destruct (by_mtime x y <=? 0)%Z; simpl; [reflexivity|].
  rewrite IH; lia.
Qed.

Lemma sum_sizes_sort (l : list FileTask) :
  sum_sizes (sort_by by_mtime l) = sum_sizes l.
Proof.
  induction l as [|x l IH]; simpl; [reflexivity|].
  rewrite sum_sizes_insert, IH; reflexivity.
Qed.

Lemma insert_by_perm (x : FileTask) (l : list FileTask) :
  Permutation (x :: l) (insert_by by_mtime x l).
Proof.
  induction l as [|y l IH]; simpl; [apply Permutation_refl|].
  destruct (by_mtime x y <=? 0)%Z; [apply Permutation_refl|].
  eapply perm_trans; [apply perm_swap | apply perm_skip, IH].
Qed.

Lemma sort_by_perm (l : list FileTask) : Permutation l (sort_by by_mtime l).
Proof.
  induction l as [|x l IH]; simpl; [apply perm_nil|].
  eapply perm_trans; [apply perm_skip, IH | apply insert_by_perm].
Qed.

Lemma insert_by_sorted (x : FileTask) (l : list FileTask) :
  StronglySorted mtime_le l -> StronglySorted mtime_le (insert_by by_mtime x l).
Proof.
  induction l as [|y l IH]; intros Hs; simpl.
  - constructor; [constructor | constructor].
  - destruct (by_mtime x y <=? 0)%Z eqn:E.
    + apply Z.leb_le in E. unfold by_mtime in E.
      inversion Hs as [|? ? Hs' Hall]; subst.
      constructor; [exact Hs|].
      constructor; [unfold mtime_le; lia|].
      eapply Forall_impl; [|exact Hall].
      unfold mtime_le; intros a Ha; lia.
    + apply Z.leb_gt in E. unfold by_mtime in E.
      inversion Hs as [|? ? Hs' Hall]; subst.
      constructor; [apply IH; exact Hs'|].
      eapply Permutation_Forall; [apply insert_by_perm|].
      constructor; [unfold mtime_le; lia | exact Hall].
Qed.

Lemma sort_by_sorted (l : list FileTask) : StronglySorted mtime_le (sort_by by_mtime l).
Proof.
  induction l as [|x l IH]; simpl; [constructor | apply insert_by_sorted, IH].
Qed.

(** What collectFiles returns, in terms of the traversal. *)
Lemma collectFiles_returns (dir : path) (w : World) (files : entries) :
  lookup dir (Dir (fs w)) = Some (Dir files) ->
  exists w', collectFiles dir w
             = (Js.Ret (sort_by by_mtime (snd (fst (walk dir files [] 0%N)))), w')
             /\ fs w' = fs w /\ spawned w' = spawned w /\ review w' = review w.
Proof.
  intros H. unfold collectFiles, bind, get_fs. rewrite H.
  destruct (walk dir files [] 0%N) as [[stop fileList] totalSize]; simpl.
  eexists; split; [reflexivity|]. simpl. auto.
Qed.

(** C4. For every state of the file system and every directory,
    collectFiles either throws because the directory cannot be listed or
    returns a batch whose sizes add up to at most MAX_BATCH_SIZE_BYTES and
    which is sorted non-decreasing by mtime. *)
Theorem C4_batch_bounded_and_sorted (dir : path) (w : World) :
  match fst (collectFiles dir w) with
  | Js.Ret batch =>
      (sum_sizes batch <= MAX_BATCH_SIZE_BYTES)%N /\ StronglySorted mtime_le batch
  | Js.Thrown _ => forall files, lookup dir (Dir (fs w)) <> Some (Dir files)
  end.
Proof.
  destruct (lookup dir (Dir (fs w))) as [[st|files]|] eqn:L.
  - unfold collectFiles, bind, get_fs; rewrite L; simpl. intros files; discriminate.
  - destruct (collectFiles_returns dir w files L) as [w' [E _]]; rewrite E; simpl.
    rewrite sum_sizes_sort, walk_spec.
    destruct (take_fitting LIMIT (candidates dir files) 0) as [[s l] t] eqn:T; simpl.
    destruct (take_fitting_total _ _ _ _ _ T) as [Ht Hle].
    split; [|apply sort_by_sorted].
    assert ((0 <= LIMIT)%N) by apply N.le_0_l.
    specialize (Hle H). subst t. exact Hle.
  - unfold collectFiles, bind, get_fs; rewrite L; simpl. intros files; discriminate.
Qed.

(** C5. When the candidates of the tree, in traversal order, are
    [pre ++ c :: post], everything in [pre] fits and [c] is the first
    candidate that would push the total over MAX_BATCH_SIZE_BYTES, the
    traversal stops with exactly [pre] accepted: the batch is [pre] sorted,
    and nothing of [post], however small and wherever it lies, is in it. *)
Theorem C5_first_overflow_halts_traversal
        (w : World) (files : entries) (pre post : list FileTask) (c : FileTask) :
  lookup TARGET_DIR (Dir (fs w)) = Some (Dir files) ->
  candidates TARGET_DIR files = pre ++ c :: post ->
  (sum_sizes pre <= MAX_BATCH_SIZE_BYTES)%N ->
  (MAX_BATCH_SIZE_BYTES < sum_sizes pre + size c)%N ->
  walk TARGET_DIR files [] 0%N = (true, pre, sum_sizes pre)
  /\ fst (collectFiles TARGET_DIR w) = Js.Ret (sort_by by_mtime pre).
Proof.
  intros L C Hle Hlt.
  assert (W : walk TARGET_DIR files [] 0%N = (true, pre, sum_sizes pre)).
  { rewrite walk_spec, C.
    rewrite (take_fitting_stops pre c post 0%N) by (rewrite ?N.add_0_l; assumption).
    rewrite N.add_0_l; reflexivity. }
  split; [exact W|].
  destruct (collectFiles_returns TARGET_DIR w files L) as [w' [E _]].
  rewrite E, W; reflexivity.
Qed.

Lemma C5_witness :
  walk TARGET_DIR
       (ECons "d1" (Dir (ECons "a.flv" (Demo.file (40 * Demo.GB) 300)
                        (ECons "b.flv" (Demo.file (50 * Demo.GB) 100)
                        (ECons "c.ts" (Demo.file 1000 50) ENil))))
       (ECons "d2" (Dir (ECons "e.FLV" (Demo.file 2000 10) ENil))
       (ECons "notes.txt" (Demo.file 10 5) ENil)))
       [] 0%N
  = (true,
     [mkFileTask ["快手直播"; "d1"; "a.flv"] (40 * Demo.GB) 300 300],
     sum_sizes [mkFileTask ["快手直播"; "d1"; "a.flv"] (40 * Demo.GB) 300 300])
  /\ fst (collectFiles TARGET_DIR (Demo.world Demo.big_tree))
     = Js.Ret (sort_by by_mtime [mkFileTask ["快手直播"; "d1"; "a.flv"] (40 * Demo.GB) 300 300]).
Proof.
  apply (C5_first_overflow_halts_traversal
           (Demo.world Demo.big_tree) _
           [mkFileTask ["快手直播"; "d1"; "a.flv"] (40 * Demo.GB) 300 300]
           [mkFileTask ["快手直播"; "d1"; "c.ts"] 1000 50 50;
            mkFileTask ["快手直播"; "d2"; "e.FLV"] 2000 10 10]
           (mkFileTask ["快手直播"; "d1"; "b.flv"] (50 * Demo.GB) 100 100)).
  - reflexivity.
  - vm_compute; reflexivity.
  - vm_compute; discriminate.
  - vm_compute; reflexivity.
Defined.

End Collection.

(** *** File-system facts *)

Section FsFacts.

Import Fs.

Lemma existsSync_top (es : entries) (n : string) :
  existsSync es [n] = match find_entry n es with Some _ => true | None => false end.
Proof. unfold existsSync; simpl. destruct (find_entry n es); reflexivity. Qed.

Lemma find_drop_same (n : string) (es : entries) : find_entry n (drop_entry n es) = None.
Proof.
  induction es as [|m c rest IH]; simpl; [reflexivity|].
  destruct (String.eqb m n) eqn:E; [exact IH|].
  simpl; rewrite E; exact IH.
Qed.

Lemma find_drop_other (n m : string) (es : entries) :
  n <> m -> find_entry n (drop_entry m es) = find_entry n es.
Proof.
  intros Hne. induction es as [|k c rest IH]; simpl; [reflexivity|].
  destruct (String.eqb k m) eqn:E.
  - apply String.eqb_eq in E; subst k.
    destruct (String.eqb m n) eqn:E'; [apply String.eqb_eq in E'; congruence | exact IH].
  - simpl. destruct (String.eqb k n); [reflexivity | exact IH].
Qed.

Lemma find_set_same (n : string) (c : node) (es : entries) :
  find_entry n (set_entry n c es) = Some c.
Proof.
  induction es as [|m c0 rest IH]; simpl.
  - rewrite String.eqb_refl; reflexivity.
  - destruct (String.eqb m n) eqn:E; simpl; rewrite E; [reflexivity | exact IH].
Qed.

Lemma find_set_other (n m : string) (c : node) (es : entries) :
  n <> m -> find_entry n (set_entry m c es) = find_entry n es.
Proof.
  intros Hne. induction es as [|k c0 rest IH]; simpl.
  - destruct (String.eqb m n) eqn:E; [apply String.eqb_eq in E; congruence | reflexivity].
  - destruct (String.eqb k m) eqn:E; simpl.
    + apply String.eqb_eq in E; subst k.
      destruct (String.eqb m n) eqn:E'; [apply String.eqb_eq in E'; congruence|].
      apply find_drop_other; exact Hne.
    + destruct (String.eqb k n); [reflexivity | exact IH].
Qed.

(** Unlinking some other file leaves a top-level name as it was. *)
Lemma remove_top_frame (q : path) (es es' : entries) (n : string) :
  remove_file q es = Some es' -> q <> [n] -> existsSync es' [n] = existsSync es [n].
Proof.
  intros R Hne. rewrite !existsSync_top.
  destruct q as [|m q']; simpl in R; [discriminate|].
  destruct (find_entry m es) as [[st|sub]|] eqn:F; destruct q' as [|k q'']; try discriminate.
  - inversion R; subst es'.
    assert (n <> m) by congruence.
    rewrite find_drop_other by assumption; reflexivity.
  - destruct (remove_file (k :: q'') sub) as [sub'|]; [|discriminate].
    inversion R; subst es'.
    destruct (string_dec n m) as [->|Hnm].
    + rewrite find_set_same, F; reflexivity.
    + rewrite find_set_other by assumption; reflexivity.
Qed.

(** Writing a file never makes a top-level name disappear. *)
Lemma write_top_keeps (q : path) (st : Stat) (es es' : entries) (n : string) :
  write_file q st es = Some es' -> existsSync es [n] = true -> existsSync es' [n] = true.
Proof.
  intros W. rewrite !existsSync_top.
  destruct q as [|m q']; simpl in W; [discriminate|].
  assert (S : forall c, es' = set_entry m c es ->
              match find_entry n es with Some _ => true | None => false end = true ->
              match find_entry n es' with Some _ => true | None => false end = true).
  { intros c -> H. destruct (string_dec n m) as [->|Hnm].
    - rewrite find_set_same; reflexivity.
    - rewrite find_set_other by assumption; exact H. }
  destruct (find_entry m es) as [[st0|sub]|] eqn:F; destruct q' as [|k q'']; try discriminate.
  - inversion W as [W']; rewrite W'; apply (S _ (eq_sym W')).
  - destruct (write_file (k :: q'') st sub) as [sub'|]; [|discriminate].
    inversion W as [W']; rewrite W'; apply (S _ (eq_sym W')).
  - inversion W as [W']; rewrite W'; apply (S _ (eq_sym W')).
Qed.

Lemma write_top_frame (q : path) (st : Stat) (es es' : entries) (n : string) :
  write_file q st es = Some es' -> q <> [n] -> existsSync es' [n] = existsSync es [n].
Proof.
  intros W Hne. rewrite !existsSync_top.
  destruct q as [|m q']; simpl in W; [discriminate|].
  destruct (find_entry m es) as [[st0|sub]|] eqn:F; destruct q' as [|k q'']; try discriminate.
  - inversion W; subst es'. assert (n <> m) by congruence.
    rewrite find_set_other by assumption; reflexivity.
  - destruct (write_file (k :: q'') st sub) as [sub'|]; [|discriminate].
    inversion W; subst es'.
    destruct (string_dec n m) as [->|Hnm].
    + rewrite find_set_same, F; reflexivity.
    + rewrite find_set_other by assumption; reflexivity.
  - inversion W; subst es'. assert (n <> m) by congruence.
    rewrite find_set_other by assumption; reflexivity.
Qed.

Lemma write_top_present (n : string) (st : Stat) (es es' : entries) :
  write_file [n] st es = Some es' -> existsSync es' [n] = true.
Proof.
  simpl. rewrite existsSync_top.
  destruct (find_entry n es) as [[st0|sub]|]; intros W; inversion W; subst;
    rewrite find_set_same; reflexivity.
Qed.

Lemma write_top_succeeds (n : string) (st : Stat) (es : entries) :
  existsSync es [n] = false -> write_file [n] st es = Some (set_entry n (File st) es).
Proof.
  rewrite existsSync_top; simpl.
  destruct (find_entry n es); [discriminate | reflexivity].
Qed.

Lemma remove_top_gone (n : string) (es es' : entries) :
  remove_file [n] es = Some es' -> existsSync es' [n] = false.
Proof.
  simpl. rewrite existsSync_top.
  destruct (find_entry n es) as [[st0|sub]|]; intros R; inversion R; subst.
  rewrite find_drop_same; reflexivity.
Qed.

(** The stat of a file is not affected by writing or unlinking a
    different top-level file. *)
Lemma write_top_stat (n : string) (st : Stat) (es es' : entries) (p : path) :
  write_file [n] st es = Some es' -> p <> [n] -> Spec.stat es' p = Spec.stat es p.
Proof.
  unfold Spec.stat; simpl. intros W Hne.
  destruct p as [|m p']; [reflexivity|]. simpl.
  assert (E : es' = set_entry n (File st) es
              /\ (find_entry n es = None \/ exists s, find_entry n es = Some (File s))).
  { destruct (find_entry n es) as [[s|sub]|]; inversion W; eauto. }
  destruct E as [-> Hn].
  destruct (string_dec m n) as [->|Hmn].
  - rewrite find_set_same.
    destruct p' as [|k p'']; [congruence|]. simpl.
    destruct Hn as [-> | [s ->]]; reflexivity.
  - rewrite find_set_other by assumption; reflexivity.
Qed.

Lemma remove_top_stat (n : string) (es es' : entries) (p : path) :
  remove_file [n] es = Some es' -> p <> [n] -> Spec.stat es' p = Spec.stat es p.
Proof.
  unfold Spec.stat; simpl. intros R Hne.
  destruct p as [|m p']; [reflexivity|]. simpl.
  destruct (find_entry n es) as [[s|sub]|] eqn:F; inversion R; subst es'.
  destruct (string_dec m n) as [->|Hmn].
  - rewrite find_drop_same, F.
    destruct p' as [|k p'']; [congruence | reflexivity].
  - rewrite find_drop_other by assumption; reflexivity.
Qed.

(** Dropping a top-level file leaves the other top-level names and the
    stat of every other path as they were. *)
Lemma drop_top_frame (m n : string) (es : entries) :
  n <> m -> existsSync (drop_entry m es) [n] = existsSync es [n].
Proof. intros Hne. rewrite !existsSync_top, find_drop_other by assumption. reflexivity. Qed.

Lemma drop_top_stat (m : string) (es : entries) (p : path) :
  (forall sub, find_entry m es <> Some (Dir sub)) -> p <> [m] ->
  Spec.stat (drop_entry m es) p = Spec.stat es p.
Proof.
  intros Hm Hne. unfold Spec.stat. destruct p as [|k p']; [reflexivity|]. simpl.
  destruct (string_dec k m) as [->|Hkm].
  - rewrite find_drop_same.
    destruct (find_entry m es) as [[st|sub]|]; [|destruct (Hm sub eq_refl)|reflexivity].
    destruct p' as [|i p'']; [congruence | reflexivity].
  - rewrite find_drop_other by assumption. reflexivity.
Qed.

Lemma drop_absent (m : string) (es : entries) :
  find_entry m es = None -> drop_entry m es = es.
Proof.
  induction es as [|k c rest IH]; simpl; [reflexivity|].
  destruct (String.eqb k m); [discriminate|].
  intros F. rewrite (IH F). reflexivity.
Qed.

Lemma drop_top_gone (m : string) (es : entries) : existsSync (drop_entry m es) [m] = false.
Proof. rewrite existsSync_top, find_drop_same. reflexivity. Qed.

(** Strings that end differently differ. *)
Lemma string_length_app (a b : string) :
  String.length (a ++ b) = (String.length a + String.length b)%nat.
Proof. induction a as [|c a IH]; simpl; [reflexivity | rewrite IH; reflexivity]. Qed.

Lemma same_length_suffix (a : string) :
  forall b u v : string,
    String.length u = String.length v -> (a ++ u)%string = (b ++ v)%string -> u = v.
Proof.
  induction a as [|c a IH]; intros b u v Hl E; destruct b as [|d b]; simpl in E.
  - exact E.
  - exfalso. rewrite E in Hl. simpl in Hl. rewrite string_length_app in Hl. lia.
  - exfalso. rewrite <- E in Hl. simpl in Hl. rewrite string_length_app in Hl. lia.
  - inversion E. eapply IH; eauto.
Qed.

(** The name of an output is not the name of the ledger. *)
Lemma mp4_name_not_ledger (s : string) : (s ++ ".mp4")%string <> Rt.MANUAL_REVIEW_NAME.
Proof.
  intros E.
  assert (K : ".mp4" = ".txt").
  { apply (same_length_suffix s "manual_review"); [reflexivity | exact E]. }
  discriminate K.
Qed.

End FsFacts.

(** *** What the primitive actions change *)

Section Primitives.

Import Fs Rt Spec.

Lemma keeps_ret {A} (I : World -> Prop) (a : A) : keeps I (ret a).
Proof. intros w H; exact H. Qed.

Lemma keeps_throw {A} (I : World -> Prop) (e : Js.Exn) : keeps I (@throw A e).
Proof. intros w H; exact H. Qed.

Lemma keeps_bind {A B} (I : World -> Prop) (m : M A) (k : A -> M B) :
  keeps I m -> (forall a, keeps I (k a)) -> keeps I (bind m k).
Proof.
  intros Hm Hk w H. unfold bind. specialize (Hm w H).
  destruct (m w) as [[a|e] w1]; simpl in *; [apply Hk; exact Hm | exact Hm].
Qed.

Lemma keeps_try {A} (I : World -> Prop) (body : M A) (handler : Js.Exn -> M A) :
  keeps I body -> (forall e, keeps I (handler e)) -> keeps I (try_catch body handler).
Proof.
  intros Hm Hk w H. unfold try_catch. specialize (Hm w H).
  destruct (body w) as [[a|e] w1]; simpl in *; [exact Hm | apply Hk; exact Hm].
Qed.

Lemma keeps_when (I : World -> Prop) (b : bool) (m : M unit) :
  keeps I m -> keeps I (when b m).
Proof. destruct b; simpl; [auto | intros _; apply keeps_ret]. Qed.

Lemma keeps_existsSync (I : World -> Prop) (p : path) : keeps I (Rt.existsSync p).
Proof. intros w H; exact H. Qed.

Lemma keeps_get_fs (I : World -> Prop) : keeps I get_fs.
Proof. intros w H; exact H. Qed.

Lemma snd_bind {A B} (m : M A) (k : A -> M B) (w : World) :
  snd (bind m k w) = match fst (m w) with
                     | Js.Ret a => snd (k a (snd (m w)))
                     | Js.Thrown _ => snd (m w)
                     end.
Proof. unfold bind. destruct (m w) as [[a|e] w']; reflexivity. Qed.

Lemma writeLog_world (m : Msg) (l : Level) (w : World) :
  snd (writeLog m l w) = mkWorld (fs w) (log w ++ [(l, m)]) (review w) (spawned w).
Proof. reflexivity. Qed.

(** unlinkSync changes nothing but, when it succeeds, the file system. *)
Lemma unlinkSync_world (env : Env) (src p : path) (w : World) :
  let w' := snd (unlinkSync env src p w) in
  log w' = log w /\ review w' = review w /\ spawned w' = spawned w
  /\ (fs w' = fs w \/ remove_file p (fs w) = Some (fs w')).
Proof.
  unfold unlinkSync. destruct (unlink_error env src p); simpl; [auto|].
  destruct (remove_file p (fs w)) eqn:R; simpl; auto.
Qed.

Lemma utimesSync_world (env : Env) (p : path) (a m : Z) (w : World) :
  let w' := snd (utimesSync env p a m w) in
  log w' = log w /\ review w' = review w /\ spawned w' = spawned w
  /\ (fs w' = fs w \/ exists st, write_file p st (fs w) = Some (fs w')).
Proof.
  unfold utimesSync. destruct (utimes_error env p); simpl; [auto|].
  destruct (lookup p (Dir (fs w))) as [[st|sub]|]; simpl; auto.
  destruct (write_file p _ (fs w)) eqn:W; simpl; eauto 6.
Qed.

Lemma spawn_world (env : Env) (input output : path) (w : World) :
  let w' := snd (spawn_ffmpeg env input output w) in
  fst (spawn_ffmpeg env input output w) = Js.Ret (ffmpeg env input)
  /\ log w' = log w /\ review w' = review w
  /\ spawned w' = spawned w ++ [mkSpawn input output]
  /\ (fs w' = fs w \/ exists st, write_file output st (fs w) = Some (fs w')).
Proof.
  unfold spawn_ffmpeg; simpl. repeat split.
  destruct (ffmpeg env input) as [? ?|code [|]]; auto.
  destruct (write_file output (ffmpeg_stat env input) (fs w)) eqn:W; eauto.
Qed.

(** Removing the ledger changes neither the log nor the list of
    processes; it either leaves the state alone or drops the entry of
    the ledger, a regular file if it is listed, and its lines. *)
Lemma reset_review_world (env : Env) (w : World) :
  let w' := snd (reset_review env w) in
  log w' = log w /\ spawned w' = spawned w
  /\ (w' = w
      \/ ((forall sub, find_entry MANUAL_REVIEW_NAME (fs w) <> Some (Dir sub))
          /\ fs w' = drop_entry MANUAL_REVIEW_NAME (fs w) /\ review w' = [])).
Proof.
  unfold reset_review. destruct (ledger_exists w); [|simpl; auto].
  destruct (unlink_error env MANUAL_REVIEW_FILE MANUAL_REVIEW_FILE); [simpl; auto|].
  destruct (find_entry MANUAL_REVIEW_NAME (fs w)) as [[st|sub]|] eqn:F; simpl;
    try (split; [reflexivity|]; split; [reflexivity|]; right;
         split; [intros sub0; discriminate | split; reflexivity]).
  auto.
Qed.

(** When it does not fail, the entry and the lines of the ledger are
    gone and nothing else has changed; the log plays no part. *)
Lemma reset_review_value (env : Env) (w : World) (l : list (Level * Msg)) :
  ledger_reset_succeeds env w = true ->
  reset_review env (mkWorld (fs w) l (review w) (spawned w))
  = (Js.Ret tt, mkWorld (drop_entry MANUAL_REVIEW_NAME (fs w)) l [] (spawned w)).
Proof.
  unfold ledger_reset_succeeds, reset_review, ledger_exists, Fs.existsSync.
  cbn [fs log review spawned]. simpl lookup.
  destruct (find_entry MANUAL_REVIEW_NAME (fs w)) as [[st|sub]|] eqn:F; simpl.
  - destruct (unlink_error env MANUAL_REVIEW_FILE MANUAL_REVIEW_FILE); simpl;
      [discriminate | reflexivity].
  - destruct (unlink_error env MANUAL_REVIEW_FILE MANUAL_REVIEW_FILE); discriminate.
  - destruct (review w) as [|r rest]; simpl.
    + intros _. rewrite (drop_absent _ _ F). reflexivity.
    + destruct (unlink_error env MANUAL_REVIEW_FILE MANUAL_REVIEW_FILE); simpl;
        [discriminate | reflexivity].
Qed.

Lemma ledger_reset_not_dir (env : Env) (w : World) :
  ledger_reset_succeeds env w = true ->
  forall sub, find_entry MANUAL_REVIEW_NAME (fs w) <> Some (Dir sub).
Proof.
  unfold ledger_reset_succeeds, reset_review, ledger_exists, Fs.existsSync. simpl lookup.
  intros L sub F. rewrite F in L. simpl in L.
  destruct (unlink_error env MANUAL_REVIEW_FILE MANUAL_REVIEW_FILE); discriminate.
Qed.

Lemma stat_keeps_log p s m l : keeps (fun w => stat (fs w) p = s) (writeLog m l).
Proof. intros w H; exact H. Qed.

Lemma present_reset_review n env : n <> MANUAL_REVIEW_NAME -> keeps (present n) (reset_review env).
Proof.
  intros Hne w H. unfold present in *.
  destruct (reset_review_world env w) as (_ & _ & [E | (_ & E & _)]).
  - rewrite E; exact H.
  - rewrite E, drop_top_frame by exact Hne. exact H.
Qed.

Lemma stat_reset_review p s env :
  p <> MANUAL_REVIEW_FILE -> keeps (fun w => stat (fs w) p = s) (reset_review env).
Proof.
  intros Hne w H.
  destruct (reset_review_world env w) as (_ & _ & [E | (Hd & E & _)]).
  - rewrite E; exact H.
  - rewrite E, drop_top_stat by assumption. exact H.
Qed.

(** **** A top-level file stays *)

Lemma present_writeLog n m l : keeps (present n) (writeLog m l).
Proof. intros w H; exact H. Qed.

Lemma present_review n r : keeps (present n) (append_review r).
Proof. intros w H; exact H. Qed.

Lemma present_unlink n env src p : p <> [n] -> keeps (present n) (unlinkSync env src p).
Proof.
  intros Hne w H. unfold present in *.
  destruct (unlinkSync_world env src p w) as (_ & _ & _ & [E | R]).
  - rewrite E; exact H.
  - rewrite (remove_top_frame _ _ _ _ R Hne); exact H.
Qed.

Lemma present_utimes n env p a m : keeps (present n) (utimesSync env p a m).
Proof.
  intros w H. unfold present in *.
  destruct (utimesSync_world env p a m w) as (_ & _ & _ & [E | [st W]]).
  - rewrite E; exact H.
  - exact (write_top_keeps _ _ _ _ _ W H).
Qed.

Lemma present_spawn n env i o : keeps (present n) (spawn_ffmpeg env i o).
Proof.
  intros w H. unfold present in *.
  destruct (spawn_world env i o w) as (_ & _ & _ & _ & [E | [st W]]).
  - rewrite E; exact H.
  - exact (write_top_keeps _ _ _ _ _ W H).
Qed.

(** **** No validation of [o] gets on record *)

Lemma not_validated_writeLog o m l : m <> MsgValidated o -> keeps (not_validated o) (writeLog m l).
Proof.
  intros Hne w H. unfold not_validated, logged in *. rewrite writeLog_world; simpl.
  intros Hin. apply in_app_or in Hin. destruct Hin as [Hin | [Heq | []]]; [auto|].
  inversion Heq; congruence.
Qed.

Lemma not_validated_review o r : keeps (not_validated o) (append_review r).
Proof. intros w H; exact H. Qed.

Lemma not_validated_unlink o env src p : keeps (not_validated o) (unlinkSync env src p).
Proof.
  intros w H. unfold not_validated, logged in *.
  destruct (unlinkSync_world env src p w) as (E & _). rewrite E; exact H.
Qed.

Lemma not_validated_utimes o env p a m : keeps (not_validated o) (utimesSync env p a m).
Proof.
  intros w H. unfold not_validated, logged in *.
  destruct (utimesSync_world env p a m w) as (E & _). rewrite E; exact H.
Qed.

Lemma not_validated_spawn o env i o' : keeps (not_validated o) (spawn_ffmpeg env i o').
Proof. intros w H; exact H. Qed.

(** **** No transcoder is started towards [o] *)

Lemma no_spawn_writeLog o m l : keeps (no_spawn_to o) (writeLog m l).
Proof. intros w H; exact H. Qed.

Lemma no_spawn_review o r : keeps (no_spawn_to o) (append_review r).
Proof. intros w H; exact H. Qed.

Lemma no_spawn_unlink o env src p : keeps (no_spawn_to o) (unlinkSync env src p).
Proof.
  intros w H. unfold no_spawn_to in *.
  destruct (unlinkSync_world env src p w) as (_ & _ & E & _). rewrite E; exact H.
Qed.

Lemma no_spawn_utimes o env p a m : keeps (no_spawn_to o) (utimesSync env p a m).
Proof.
  intros w H. unfold no_spawn_to in *.
  destruct (utimesSync_world env p a m w) as (_ & _ & E & _). rewrite E; exact H.
Qed.

Lemma no_spawn_spawn o env i :
  SpaceAware.outputPath i <> o ->
  keeps (no_spawn_to o) (spawn_ffmpeg env i (SpaceAware.outputPath i)).
Proof.
  intros Hne w H. unfold no_spawn_to in *.
  destruct (spawn_world env i (SpaceAware.outputPath i) w) as (_ & _ & _ & E & _).
  rewrite E. intros s Hin. apply in_app_or in Hin.
  destruct Hin as [Hin | [<- | []]]; [auto | exact Hne].
Qed.

End Primitives.

(** *** Invariants of the space-aware worker, block by block *)

Section WorkerBlocks.

Import Fs Rt Spec SpaceAware.

Variable I : World -> Prop.
Variable env : Env.
Variable t : FileTask.
Variable output : path.

Hypothesis I_log : forall m l, (forall o, m <> MsgValidated o) -> keeps I (writeLog m l).
Hypothesis I_review : forall r, keeps I (append_review r).
Hypothesis I_unlink_source : keeps I (unlinkSync env (fullPath t) (fullPath t)).
Hypothesis I_utimes : forall a m, keeps I (utimesSync env output a m).

Ltac log_ok := apply I_log; intros ?; discriminate.

Lemma keeps_delete_source : keeps I (delete_source env (fullPath t)).
Proof.
  unfold delete_source. apply keeps_try.
  - apply keeps_when, keeps_bind; [exact I_unlink_source | intros _; log_ok].
  - intros e; log_ok.
Qed.

Lemma keeps_skip_existing : keeps I (skip_existing env t output).
Proof.
  unfold skip_existing.
  apply keeps_bind; [log_ok | intros _].
  apply keeps_bind; [apply keeps_delete_source | intros _; log_ok].
Qed.

Lemma keeps_on_error (err : string) : keeps I (on_error err).
Proof.
  unfold on_error. apply keeps_bind; [log_ok | intros _; log_ok].
Qed.

Lemma keeps_runFfprobeJson : keeps I (runFfprobeJson env (fullPath t) output).
Proof.
  unfold runFfprobeJson. destruct (ffprobe env (fullPath t)).
  - apply keeps_bind; [log_ok | intros _; apply keeps_ret].
  - apply keeps_ret.
Qed.

Lemma keeps_lift {A} (r : Js.res A) : keeps I (lift r).
Proof. destruct r; [apply keeps_ret | apply keeps_throw]. Qed.

(** The branch taken after a successful validation needs [I] to
    survive the log entry that records it. *)
Lemma keeps_on_valid :
  keeps I (writeLog (MsgValidated output) INFO) -> keeps I (on_valid env t output).
Proof.
  intros I_validated. unfold on_valid.
  apply keeps_bind; [exact I_validated | intros _].
  apply keeps_bind; [|intros _; apply keeps_delete_source].
  apply keeps_try.
  - apply keeps_bind; [apply I_utimes | intros _; log_ok].
  - intros e; log_ok.
Qed.

(** The branches that discard the output need [I] to survive its
    removal. *)
Lemma keeps_on_invalid (validation : Probe.Validation) :
  keeps I (unlinkSync env (fullPath t) output) ->
  keeps I (on_invalid env t output validation).
Proof.
  intros I_unlink_output. unfold on_invalid.
  apply keeps_bind; [|intros _].
  - apply keeps_try; [|intros e; log_ok].
    apply keeps_bind; [apply keeps_existsSync | intros b].
    apply keeps_when, keeps_bind; [exact I_unlink_output | intros _; log_ok].
  - apply keeps_bind; [|intros reasonText].
    + unfold join_reasons. destruct (Probe.reasons validation);
        [apply keeps_ret | apply keeps_throw].
    + apply keeps_bind; [apply I_review | intros _; log_ok].
Qed.

Lemma keeps_on_exit_failure (code : Z) :
  keeps I (unlinkSync env (fullPath t) output) ->
  keeps I (on_exit_failure env t output code).
Proof.
  intros I_unlink_output. unfold on_exit_failure.
  apply keeps_bind; [log_ok | intros _].
  apply keeps_bind; [apply keeps_existsSync | intros b].
  apply keeps_when, keeps_try; [|intros e; log_ok].
  apply keeps_bind; [exact I_unlink_output | intros _; log_ok].
Qed.

(** Up to the branch on [validation.ok], the 'close' handler for exit
    code 0 only writes log entries. *)
Lemma keeps_on_exit_zero :
  keeps I (writeLog (MsgValidated output) INFO) ->
  keeps I (unlinkSync env (fullPath t) output) ->
  keeps I (on_exit_zero env t output).
Proof.
  intros I_validated I_unlink_output. unfold on_exit_zero.
  apply keeps_bind; [log_ok | intros _].
  apply keeps_bind; [apply keeps_runFfprobeJson | intros ffinfo].
  apply keeps_bind; [apply keeps_lift | intros validation].
  destruct (Probe.ok validation);
    [apply keeps_on_valid | apply keeps_on_invalid]; assumption.
Qed.

Lemma keeps_on_close (code : Z) :
  keeps I (writeLog (MsgValidated output) INFO) ->
  keeps I (unlinkSync env (fullPath t) output) ->
  keeps I (on_close env t output code).
Proof.
  intros I_validated I_unlink_output. unfold on_close.
  apply keeps_bind; [|intros _; log_ok].
  destruct (code =? 0)%Z;
    [apply keeps_on_exit_zero | apply keeps_on_exit_failure]; assumption.
Qed.

Lemma keeps_convert_new :
  keeps I (writeLog (MsgValidated output) INFO) ->
  keeps I (unlinkSync env (fullPath t) output) ->
  keeps I (spawn_ffmpeg env (fullPath t) output) ->
  keeps I (convert_new env t output).
Proof.
  intros I_validated I_unlink_output I_spawn. unfold convert_new.
  apply keeps_bind; [log_ok | intros _].
  apply keeps_bind; [exact I_spawn | intros r].
  destruct r; [apply keeps_on_error | apply keeps_on_close; assumption].
Qed.

End WorkerBlocks.

Section TwoInvariants.

Import Fs Rt Spec SpaceAware.

Variables I1 I2 : World -> Prop.
Variable env : Env.
Variable t : FileTask.
Variable output : path.

Hypothesis I1_log : forall m l, (forall o, m <> MsgValidated o) -> keeps I1 (writeLog m l).
Hypothesis I1_validated : keeps I1 (writeLog (MsgValidated output) INFO).
Hypothesis I1_unlink_source : keeps I1 (unlinkSync env (fullPath t) (fullPath t)).
Hypothesis I1_utimes : forall a m, keeps I1 (utimesSync env output a m).

Hypothesis I2_log : forall m l, (forall o, m <> MsgValidated o) -> keeps I2 (writeLog m l).
Hypothesis I2_review : forall r, keeps I2 (append_review r).
Hypothesis I2_unlink_output : keeps I2 (unlinkSync env (fullPath t) output).

(** After exit code 0 the handler either reaches the validated branch,
    which [I1] survives, or one of the others, which [I2] survives. *)
Lemma on_exit_zero_either (w : World) :
  I1 w -> I2 w ->
  I1 (snd (on_exit_zero env t output w)) \/ I2 (snd (on_exit_zero env t output w)).
Proof.
  intros H1 H2. unfold on_exit_zero.
  rewrite snd_bind. simpl fst. cbv iota.
  set (w1 := snd (writeLog (MsgFfmpegDone output) INFO w)).
  assert (H1a : I1 w1) by (apply I1_log; [intros ?; discriminate | exact H1]).
  assert (H2a : I2 w1) by (apply I2_log; [intros ?; discriminate | exact H2]).
  pose proof (keeps_runFfprobeJson I1 env t output I1_log w1 H1a) as H1b.
  pose proof (keeps_runFfprobeJson I2 env t output I2_log w1 H2a) as H2b.
  rewrite snd_bind.
  destruct (runFfprobeJson env (fullPath t) output w1) as [[ffinfo|e] w2];
    simpl in H1b, H2b; simpl fst; simpl snd; cbv iota; [|right; exact H2b].
  rewrite snd_bind.
  destruct (validateMp4ByFfprobe ffinfo (size t)) as [validation|e]; simpl;
    [|right; exact H2b].
  destruct (Probe.ok validation).
  - left. apply (keeps_on_valid I1 env t output I1_log I1_unlink_source I1_utimes);
      assumption.
  - right. apply (keeps_on_invalid I2 env t output I2_log I2_review); assumption.
Qed.

End TwoInvariants.

(** *** One file through the space-aware worker *)

Section Worker.

Import Fs Rt Spec SpaceAware.

Lemma settled_await (h : M unit) (w : World) : settled_world (await_handler h w) = snd (h w).
Proof. unfold await_handler. destruct (h w) as [[u|e] w']; reflexivity. Qed.

Lemma outputPath_top (p : path) : outputPath p = [(stem p ++ ".mp4")%string].
Proof. reflexivity. Qed.

(** The state a worker leaves, through the branch it takes. *)
Lemma worker_world (env : Env) (t : FileTask) (w : World) :
  settled_world (convertFlvToMp4 env t w) =
  if Fs.existsSync (fs w) (outputPath (fullPath t))
  then snd (skip_existing env t (outputPath (fullPath t)) w)
  else snd (convert_new env t (outputPath (fullPath t)) w).
Proof.
  unfold convertFlvToMp4.
  destruct (Fs.existsSync (fs w) (outputPath (fullPath t))); apply settled_await.
Qed.

(** A worker never removes a top-level file other than its own source:
    an output that is there stays there. *)
Lemma worker_keeps_present (env : Env) (t : FileTask) (n : string) (w : World) :
  fullPath t <> [n] ->
  present n w -> present n (settled_world (convertFlvToMp4 env t w)).
Proof.
  intros Hsrc H. rewrite worker_world.
  destruct (Fs.existsSync (fs w) (outputPath (fullPath t))) eqn:Ex.
  - apply keeps_skip_existing; auto using present_writeLog, present_unlink.
  - assert (Hout : outputPath (fullPath t) <> [n]).
    { intros E. rewrite E in Ex. unfold present in H. congruence. }
    apply keeps_convert_new;
      auto using present_writeLog, present_review, present_unlink, present_utimes,
                 present_spawn.
Qed.

(** While output [n] is there, no worker starts a transcoder towards it. *)
Lemma worker_keeps_no_spawn (env : Env) (t : FileTask) (n : string) (w : World) :
  present n w -> no_spawn_to [n] w ->
  no_spawn_to [n] (settled_world (convertFlvToMp4 env t w)).
Proof.
  intros Hp H. rewrite worker_world.
  destruct (Fs.existsSync (fs w) (outputPath (fullPath t))) eqn:Ex.
  - apply keeps_skip_existing; auto using no_spawn_writeLog, no_spawn_unlink.
  - assert (Hout : outputPath (fullPath t) <> [n]).
    { intros E. rewrite E in Ex. unfold present in Hp. congruence. }
    apply keeps_convert_new;
      auto using no_spawn_writeLog, no_spawn_review, no_spawn_unlink, no_spawn_utimes,
                 no_spawn_spawn.
Qed.

(** A validation that gets on record belongs to a file that is there
    when the worker has finished. *)
Lemma worker_validated_present (env : Env) (t : FileTask) (n : string) (w : World) :
  exit0_writes env ->
  fullPath t <> [n] ->
  validated_present n w -> validated_present n (settled_world (convertFlvToMp4 env t w)).
Proof.
  intros Hex Hsrc Hvp.
  destruct (Fs.existsSync (fs w) [n]) eqn:P.
  { intros _. apply worker_keeps_present; assumption. }
  assert (Hnv : not_validated [n] w).
  { intros L. specialize (Hvp L). unfold present in Hvp. congruence. }
  assert (NV_log : forall m l, (forall o, m <> MsgValidated o) ->
                               keeps (not_validated [n]) (writeLog m l)).
  { intros m l Hm. apply not_validated_writeLog, Hm. }
  rewrite worker_world.
  destruct (Fs.existsSync (fs w) (outputPath (fullPath t))) eqn:Ex.
  { intros L. exfalso. revert L.
    apply (keeps_skip_existing (not_validated [n]));
      auto using not_validated_unlink. }
  destruct (list_eq_dec string_dec (outputPath (fullPath t)) [n]) as [Eo | Hout].
  2:{ intros L. exfalso. revert L.
      apply (keeps_convert_new (not_validated [n]));
        auto using not_validated_review, not_validated_unlink, not_validated_utimes,
                   not_validated_spawn.
      apply not_validated_writeLog. congruence. }
  rewrite Eo in *. clear Ex.
  unfold convert_new. rewrite snd_bind. simpl fst. cbv iota.
  set (w1 := snd (writeLog (MsgStart (fullPath t) [n]) INFO w)).
  assert (Hnv1 : not_validated [n] w1) by (apply NV_log; [intros ?; discriminate | exact Hnv]).
  assert (P1 : Fs.existsSync (fs w1) [n] = false) by exact P.
  rewrite snd_bind.
  destruct (spawn_world env (fullPath t) [n] w1) as (Er & _ & _ & _ & _).
  rewrite Er.
  pose proof (not_validated_spawn [n] env (fullPath t) [n] w1 Hnv1) as Hnv2.
  assert (P2 : forall wrote, ffmpeg env (fullPath t) = Closed 0 wrote ->
                             present n (snd (spawn_ffmpeg env (fullPath t) [n] w1))).
  { intros wrote F. rewrite (Hex _ _ F) in F.
    unfold present, spawn_ffmpeg. rewrite F. cbn [snd fs].
    rewrite (write_top_succeeds n _ _ P1).
    rewrite existsSync_top, find_set_same; reflexivity. }
  set (w2 := snd (spawn_ffmpeg env (fullPath t) [n] w1)) in *.
  destruct (ffmpeg env (fullPath t)) as [enoent err | code wrote] eqn:F.
  { intros L. exfalso. revert L.
    apply (keeps_on_error (not_validated [n])); auto. }
  unfold on_close. rewrite snd_bind.
  assert (Hblank : forall (J : World -> Prop) w0,
             (forall m l, (forall o, m <> MsgValidated o) -> keeps J (writeLog m l)) ->
             J w0 -> J (snd (writeLog MsgBlank INFO w0))).
  { intros J w0 HJ H0. apply HJ; [intros ?; discriminate | exact H0]. }
  destruct (code =? 0)%Z eqn:C.
  - apply Z.eqb_eq in C; subst code.
    specialize (P2 wrote eq_refl).
    assert (Hor : present n (snd (on_exit_zero env t [n] w2))
                  \/ not_validated [n] (snd (on_exit_zero env t [n] w2))).
    { apply on_exit_zero_either.
      - intros m l _; apply present_writeLog.
      - apply present_writeLog.
      - apply present_unlink; exact Hsrc.
      - intros; apply present_utimes.
      - exact NV_log.
      - apply not_validated_review.
      - apply not_validated_unlink.
      - exact P2.
      - exact Hnv2. }
    destruct Hor as [Hp | Hn].
    + intros _.
      destruct (fst (on_exit_zero env t [n] w2)); [|exact Hp].
      apply (Hblank (present n)); [intros m l _; apply present_writeLog | exact Hp].
    + intros L. exfalso. revert L.
      destruct (fst (on_exit_zero env t [n] w2)); [|exact Hn].
      apply (Hblank (not_validated [n])); assumption.
  - intros L. exfalso. revert L.
    assert (Hn : not_validated [n] (snd (on_exit_failure env t [n] code w2))).
    { apply (keeps_on_exit_failure (not_validated [n])); auto using not_validated_unlink. }
    destruct (fst (on_exit_failure env t [n] code w2)); [|exact Hn].
    apply (Hblank (not_validated [n])); assumption.
Qed.

End Worker.

(** *** A whole run of the space-aware script *)

Section Batch.

Import Fs Rt Spec SpaceAware.

Lemma below_extend (dir : path) (name : string) (p : path) :
  below (join dir name) p -> below dir p.
Proof.
  intros [rest [Hne ->]]. exists (name :: rest). split; [discriminate|].
  unfold join. rewrite <- app_assoc. reflexivity.
Qed.

Lemma candidates_below (files : entries) :
  forall dir, Forall (fun t => below dir (fullPath t)) (candidates dir files).
Proof.
  induction files using entries_mut with
    (P := fun n => match n with
                   | Dir sub => forall dir,
                       Forall (fun t => below dir (fullPath t)) (candidates dir sub)
                   | File _ => True
                   end).
  - exact I.
  - exact IHfiles.
  - intros dir; constructor.
  - intros dir. destruct n as [stat|sub]; simpl.
    + destruct (is_candidate name); [constructor|]; auto.
      exists [name]; split; [discriminate | reflexivity].
    + apply Forall_app; split; [|apply IHfiles0].
      eapply Forall_impl; [|apply IHfiles].
      intros a; apply below_extend.
  Qed.

Lemma take_fitting_incl (limit : N) (cands : list FileTask) :
  forall total stop l t,
    take_fitting limit cands total = (stop, l, t) -> incl l cands.
Proof.
  induction cands as [|c cands IH]; intros total stop l t; simpl.
  - intros H; inversion H; apply incl_refl.
  - destruct (limit <? total + size c)%N.
    + intros H; inversion H; apply incl_nil_l.
    + destruct (take_fitting limit cands (total + size c)) as [[s' l'] t'] eqn:T.
      intros H; inversion H; subst.
      apply incl_cons; [left; reflexivity | apply incl_tl; eapply IH; eauto].
Qed.

(** Every task of a batch names a file strictly below the directory
    that was walked. *)
Lemma batch_below (dir : path) (files : entries) :
  Forall (fun t => below dir (fullPath t))
         (sort_by by_mtime (snd (fst (walk dir files [] 0%N)))).
Proof.
  eapply Permutation_Forall; [apply sort_by_perm|].
  rewrite walk_spec.
  destruct (take_fitting MAX_BATCH_SIZE_BYTES (candidates dir files) 0) as [[s l] t] eqn:T.
  simpl. apply Forall_forall. intros x Hx.
  pose proof (candidates_below files dir) as Hc.
  rewrite Forall_forall in Hc. apply Hc.
  eapply take_fitting_incl; eauto.
Qed.

Lemma below_target_not_top (p : path) (n : string) : below TARGET_DIR p -> p <> [n].
Proof.
  intros [rest [Hne ->]] E. destruct rest; [congruence | discriminate E].
Qed.

(** [m] can only return values that satisfy [Q]. *)
Lemma returns_bind {A B} (m : M A) (k : A -> M B) (P : A -> Prop) (Q : B -> Prop) :
  (forall w a, fst (m w) = Js.Ret a -> P a) ->
  (forall a, P a -> forall w b, fst (k a w) = Js.Ret b -> Q b) ->
  forall w b, fst (bind m k w) = Js.Ret b -> Q b.
Proof.
  intros Hm Hk w b. unfold bind. specialize (Hm w).
  destruct (m w) as [[a|e] w1]; simpl in *; [|discriminate].
  apply (Hk a (Hm a eq_refl)).
Qed.

Lemma collectFiles_below (dir : path) (w : World) (batch : list FileTask) :
  fst (collectFiles dir w) = Js.Ret batch ->
  Forall (fun t => below dir (fullPath t)) batch.
Proof.
  unfold collectFiles, bind, get_fs; simpl.
  destruct (lookup dir (Dir (fs w))) as [[st|files]|]; try discriminate.
  pose proof (batch_below dir files) as Hb.
  destruct (walk dir files [] 0%N) as [[stop fileList] totalSize]; simpl in *.
  intros E; inversion E; subst; exact Hb.
Qed.

Section PrepareInvariant.

Variable I : World -> Prop.
Hypothesis I_log : forall m l, (forall o, m <> MsgValidated o) -> keeps I (writeLog m l).
Hypothesis I_reset_review : forall env, keeps I (reset_review env).

Ltac log_ok := apply I_log; intros ?; discriminate.

Lemma keeps_getAvailableDiskSpace (env : Env) (dir : path) :
  keeps I (getAvailableDiskSpace env dir).
Proof.
  unfold getAvailableDiskSpace.
  destruct (String.eqb (platform env) "win32"); [|apply keeps_throw].
  destruct (ss_error (fsutil env)).
  - apply keeps_bind; [log_ok | intros _; apply keeps_ret].
  - destruct (match_number (ss_stdout (fsutil env))); apply keeps_ret.
Qed.

Lemma keeps_collectFiles (dir : path) : keeps I (collectFiles dir).
Proof.
  unfold collectFiles. apply keeps_bind; [apply keeps_get_fs | intros root].
  destruct (lookup dir (Dir root)) as [[st|files]|]; try apply keeps_throw.
  destruct (walk dir files [] 0%N) as [[stop fileList] totalSize].
  apply keeps_bind; [log_ok | intros _].
  apply keeps_bind; [log_ok | intros _; apply keeps_ret].
Qed.

(** Everything [main] does between truncating the log and its loop. *)
Lemma keeps_prepare_after_reset (env : Env) (w : World) :
  I (snd (reset_log w)) -> I (snd (prepare env w)).
Proof.
  intros H. unfold prepare. rewrite snd_bind. simpl fst. cbv iota.
  revert H. generalize (snd (reset_log w)).
  apply (@keeps_bind bool (option (list FileTask)) I);
    [apply keeps_existsSync | intros target].
  destruct (negb target).
  - apply keeps_bind; [log_ok | intros _; apply keeps_ret].
  - apply keeps_bind; [apply I_reset_review | intros _].
    apply keeps_bind; [apply keeps_getAvailableDiskSpace | intros availableSpace].
    destruct (Js.lt availableSpace (Js.of_Z SPACE_THRESHOLD)).
    + apply keeps_bind; [log_ok | intros _; apply keeps_ret].
    + apply keeps_bind; [apply keeps_collectFiles | intros files; apply keeps_ret].
Qed.

End PrepareInvariant.

(** What [main] has done when its loop starts (or when it gives up
    before): apart from the ledger the tree is untouched, nothing was
    spawned, no validation is on record, and the batch is what
    collectFiles gathered. *)
Lemma prepare_world (env : Env) (w : World) :
  let r := prepare env w in
  ((forall n, n <> MANUAL_REVIEW_NAME -> present n w -> present n (snd r))
   /\ (forall p, p <> MANUAL_REVIEW_FILE -> stat (fs (snd r)) p = stat (fs w) p))
  /\ spawned (snd r) = spawned w
  /\ (forall o, not_validated o (snd r))
  /\ (forall batch, fst r = Js.Ret (Some batch) ->
        Forall (fun t => below TARGET_DIR (fullPath t)) batch).
Proof.
  cbv zeta. split; [split|split; [|split]].
  - intros n Hn Hp. apply (keeps_prepare_after_reset (present n)).
    + intros m l _. apply present_writeLog.
    + intros env0. apply present_reset_review; exact Hn.
    + exact Hp.
  - intros p Hp.
    apply (keeps_prepare_after_reset (fun w' => stat (fs w') p = stat (fs w) p)).
    + intros m l _. apply stat_keeps_log.
    + intros env0. apply stat_reset_review; exact Hp.
    + reflexivity.
  - apply (keeps_prepare_after_reset (fun w' => spawned w' = spawned w)).
    + intros m l _ w0 H0; exact H0.
    + intros env0 w0 H0. destruct (reset_review_world env0 w0) as (_ & E & _).
      rewrite E; exact H0.
    + reflexivity.
  - intros o. apply (keeps_prepare_after_reset (not_validated o)).
    + intros m l Hm. apply not_validated_writeLog, Hm.
    + intros env0 w0 H0. unfold not_validated, logged in *.
      destruct (reset_review_world env0 w0) as (E & _). rewrite E; exact H0.
    + intros [].
  - set (Q := fun r : option (list FileTask) =>
                match r with
                | Some batch => Forall (fun t => below TARGET_DIR (fullPath t)) batch
                | None => True
                end).
    assert (R : forall w0 r, fst (prepare env w0) = Js.Ret r -> Q r).
    { unfold prepare.
      apply (returns_bind _ _ (fun _ => True)); [auto | intros _ _].
      apply (returns_bind _ _ (fun _ => True)); [auto | intros target _].
      destruct (negb target).
      { apply (returns_bind _ _ (fun _ => True)); [auto | intros _ _].
        intros w0 b E; inversion E; exact I. }
      apply (returns_bind _ _ (fun _ => True)); [auto | intros _ _].
      apply (returns_bind _ _ (fun _ => True)); [auto | intros availableSpace _].
      destruct (Js.lt availableSpace (Js.of_Z SPACE_THRESHOLD)).
      { apply (returns_bind _ _ (fun _ => True)); [auto | intros _ _].
        intros w0 b E; inversion E; exact I. }
      apply (returns_bind _ _ (fun l => Forall (fun t => below TARGET_DIR (fullPath t)) l)).
      + intros w0 a. apply collectFiles_below.
      + intros a Ha w0 b E; inversion E; subst; exact Ha. }
    intros batch E. exact (R w (Some batch) E).
Qed.

Lemma for_await_keeps (P : World -> Prop) (env : Env) (tasks : list FileTask) :
  (forall t w, In t tasks -> P w -> P (settled_world (convertFlvToMp4 env t w))) ->
  forall w, P w -> P (settled_world (for_await (convertFlvToMp4 env) tasks w)).
Proof.
  induction tasks as [|t rest IH]; intros Hstep w H; simpl; [exact H|].
  pose proof (Hstep t w (or_introl eq_refl) H) as H1.
  destruct (convertFlvToMp4 env t w) as [w1 | e w1]; simpl in *; [|exact H1].
  apply IH; [|exact H1].
  intros t' w' Hin. apply Hstep. right; exact Hin.
Qed.

(** An invariant of the workers that holds when the loop starts and does
    not depend on the closing log entry holds when [main] ends, however
    it ends. *)
Lemma main_keeps (P : World -> Prop) (env : Env) (w : World) :
  P (snd (prepare env w)) ->
  (forall t w', below TARGET_DIR (fullPath t) -> P w' ->
                P (settled_world (convertFlvToMp4 env t w'))) ->
  (forall k, keeps P (writeLog (MsgDone k) INFO)) ->
  P (final (main env w)).
Proof.
  intros Hprep Hstep Hdone. unfold main.
  destruct (prepare_world env w) as (_ & _ & _ & Hbelow).
  destruct (prepare env w) as [[[batch|]|e] w1]; simpl in *; try exact Hprep.
  specialize (Hbelow batch eq_refl). rewrite Forall_forall in Hbelow.
  pose proof (for_await_keeps P env batch) as Hloop.
  specialize (Hloop (fun t w' Hin => Hstep t w' (Hbelow t Hin)) w1 Hprep).
  destruct (for_await (convertFlvToMp4 env) batch w1) as [w2 | e w2]; simpl in *.
  - apply Hdone; exact Hloop.
  - exact Hloop.
Qed.

(** At the end of a run, every output whose validation is in the log
    exists. *)
Lemma main_validated_present (env : Env) (w : World) (n : string) :
  exit0_writes env -> validated_present n (final (main env w)).
Proof.
  intros Hex. apply main_keeps.
  - destruct (prepare_world env w) as (_ & _ & Hnv & _).
    intros L. destruct (Hnv _ L).
  - intros t w' Hb. apply worker_validated_present; [exact Hex|].
    apply below_target_not_top; exact Hb.
  - intros k w' H L. apply H.
    unfold logged in *. rewrite writeLog_world in L; simpl in L.
    apply in_app_or in L. destruct L as [L | [L | []]]; [exact L | discriminate].
Qed.

(** A run that starts with output [n] in place starts no transcoder
    towards it. *)
Lemma main_no_respawn (env : Env) (w : World) (n : string) :
  n <> MANUAL_REVIEW_NAME ->
  present n w -> no_spawn_to [n] w -> no_spawn_to [n] (final (main env w)).
Proof.
  intros Hled Hp Hn.
  apply (main_keeps (fun w' => present n w' /\ no_spawn_to [n] w')).
  - destruct (prepare_world env w) as ((Hpres & _) & Hsp & _ & _).
    split; [apply Hpres; assumption|].
    unfold no_spawn_to. rewrite Hsp. exact Hn.
  - intros t w' Hb [Hp' Hn']. split.
    + apply worker_keeps_present; [apply below_target_not_top; exact Hb | exact Hp'].
    + apply worker_keeps_no_spawn; assumption.
  - intros k w' H; exact H.
Qed.

(** C9, as the code has it.  Let a first run have recorded the
    validation of the output of [src], with a transcoder that writes its
    output whenever it exits with code 0.  Then that output exists when
    the run is over, and a second run on the tree the first one left
    starts no transcoder for [src]: a task for [src], if the file is
    still there to be collected, finds its destination and takes the
    skip path. *)
Theorem C9_second_run_starts_no_transcoder
        (env1 env2 : Env) (w0 : World) (src : path) :
  exit0_writes env1 ->
  logged INFO (MsgValidated (outputPath src)) (final (main env1 w0)) ->
  Fs.existsSync (fs (final (main env1 w0))) (outputPath src) = true
  /\ ~ spawned_for src (final (main env2 (restart (final (main env1 w0))))).
Proof.
  intros Hex L. rewrite outputPath_top in *.
  set (n := (stem src ++ ".mp4")%string) in *.
  pose proof (main_validated_present env1 w0 n Hex L) as Hp.
  split; [exact Hp|].
  intros [s [Hin Hs]].
  assert (Hn : no_spawn_to [n] (final (main env2 (restart (final (main env1 w0)))))).
  { apply main_no_respawn; [apply mp4_name_not_ledger | exact Hp | intros s' []]. }
  apply (Hn s Hin). rewrite Hs. apply outputPath_top.
Qed.

Lemma C9_witness :
  Fs.existsSync (fs (final (main Demo.unlink_busy (Demo.world Demo.two_files))))
                (outputPath ["快手直播"; "a.flv"]) = true
  /\ ~ spawned_for ["快手直播"; "a.flv"]
         (final (main Demo.all_fine
                      (restart (final (main Demo.unlink_busy (Demo.world Demo.two_files)))))).
Proof.
  apply (C9_second_run_starts_no_transcoder Demo.unlink_busy Demo.all_fine
           (Demo.world Demo.two_files) ["快手直播"; "a.flv"]).
  - intros input wrote H. vm_compute in H. inversion H; reflexivity.
  - vm_compute. tauto.
Defined.

(** The claim as it was worded fails for a file whose first conversion
    does not end in a validated output.  The probe reports a single
    stream, so in the first run both outputs are rejected and removed
    and both sources stay: the tree is as it was, and the second run
    starts a transcoder for each of the two files again. *)
Lemma C9_counterexample :
  spawned (final (main Demo.audio_lost (Demo.world Demo.two_files)))
  = [mkSpawn Demo.b_flv ["b.mp4"]; mkSpawn Demo.a_flv ["a.mp4"]]
  /\ fs (final (main Demo.audio_lost (Demo.world Demo.two_files)))
     = fs (Demo.world Demo.two_files)
  /\ spawned (final (main Demo.audio_lost
                        (restart (final (main Demo.audio_lost (Demo.world Demo.two_files))))))
     = [mkSpawn Demo.b_flv ["b.mp4"]; mkSpawn Demo.a_flv ["a.mp4"]]
  /\ spawned_for Demo.a_flv
       (final (main Demo.audio_lost
                    (restart (final (main Demo.audio_lost (Demo.world Demo.two_files)))))).
Proof.
  split; [vm_compute; reflexivity|].
  split; [vm_compute; reflexivity|].
  split; [vm_compute; reflexivity|].
  exists (mkSpawn Demo.a_flv ["a.mp4"]).
  split; [vm_compute; right; left; reflexivity | reflexivity].
Qed.

End Batch.

(** *** Two sources with one destination *)

Section SameBasename.

Import Fs Rt Spec SpaceAware.

Lemma remove_file_spec (p : path) :
  forall es st, lookup p (Dir es) = Some (File st) ->
                exists es', remove_file p es = Some es' /\ lookup p (Dir es') = None.
Proof.
  induction p as [|name p' IH]; intros es st L; simpl in L; [discriminate|].
  simpl remove_file.
  destruct (find_entry name es) as [c|] eqn:F; [|discriminate].
  destruct p' as [|k p''].
  - simpl in L. inversion L; subst c.
    eexists; split; [reflexivity|].
    simpl. rewrite find_drop_same; reflexivity.
  - destruct c as [st0|sub]; [simpl in L; discriminate|].
    destruct (IH sub st L) as [sub' [R L']].
    rewrite R. eexists; split; [reflexivity|].
    change (lookup (name :: k :: p'') (Dir (set_entry name (Dir sub') es)))
      with (match find_entry name (set_entry name (Dir sub') es) with
            | Some c => lookup (k :: p'') c
            | None => None
            end).
    rewrite find_set_same. exact L'.
Qed.

(** The skip path: no transcoder, a WARNING, and the source unlinked. *)
Lemma skip_path (env : Env) (t : FileTask) (w : World) :
  Fs.existsSync (fs w) (outputPath (fullPath t)) = true ->
  exists w', convertFlvToMp4 env t w = Resolved w'
             /\ spawned w' = spawned w
             /\ review w' = review w
             /\ logged WARNING (MsgSkipExists (outputPath (fullPath t))) w'
             /\ (unlink_error env (fullPath t) (fullPath t) = None ->
                 forall st, stat (fs w) (fullPath t) = Some st ->
                            stat (fs w') (fullPath t) = None
                            /\ logged INFO (MsgSourceDeleted (fullPath t)) w').
Proof.
  intros Ex. unfold convertFlvToMp4. rewrite Ex.
  unfold await_handler, skip_existing, delete_source, bind, try_catch, when, isDel,
    unlinkSync, writeLog, logged, stat.
  cbn [fs log review spawned].
  assert (Hskip : forall l1 l2 : list (Level * Msg),
             In (WARNING, MsgSkipExists (outputPath (fullPath t)))
                (((log w ++ [(WARNING, MsgSkipExists (outputPath (fullPath t)))]) ++ l1)
                   ++ l2)).
  { intros l1 l2. apply in_or_app; left. apply in_or_app; left.
    apply in_or_app; right. left; reflexivity. }
  destruct (unlink_error env (fullPath t) (fullPath t)) as [code|].
  - eexists; split; [reflexivity|]. cbn [fs log review spawned].
    split; [reflexivity|]. split; [reflexivity|]. split; [apply Hskip|].
    discriminate.
  - destruct (remove_file (fullPath t) (fs w)) as [es'|] eqn:R.
    + eexists; split; [reflexivity|]. cbn [fs log review spawned].
      split; [reflexivity|]. split; [reflexivity|]. split; [apply Hskip|].
      intros _ st Hst.
      destruct (lookup (fullPath t) (Dir (fs w))) as [[st0|sub]|] eqn:L; try discriminate.
      destruct (remove_file_spec _ _ _ L) as [es'' [R' L']].
      rewrite R in R'; inversion R'; subst es''. rewrite L'.
      split; [reflexivity|].
      apply in_or_app; left. apply in_or_app; right. left; reflexivity.
    + eexists; split; [reflexivity|]. cbn [fs log review spawned].
      split; [reflexivity|]. split; [reflexivity|]. split; [apply Hskip|].
      intros _ st Hst.
      destruct (lookup (fullPath t) (Dir (fs w))) as [[st0|sub]|] eqn:L; try discriminate.
      destruct (remove_file_spec _ _ _ L) as [es'' [R' L']]. congruence.
Qed.

(** C10, as the code has it.  Let the workers have gone through the tasks
    in [earlier] and let the log hold the validation of the destination
    of [t2], the output of an earlier task with the same basename.  Then
    processing [t2] takes the skip path: the promise resolves, no
    transcoder is started, a WARNING is logged, and, isDel being true,
    the source of [t2] is unlinked: it is gone unless the unlink itself
    fails, though no output was produced from it. *)
Theorem C10_same_basename_skipped_after_validation
        (env : Env) (earlier : list FileTask) (t2 : FileTask) (w w1 : World) :
  exit0_writes env ->
  (forall t, In t earlier -> below TARGET_DIR (fullPath t)) ->
  (forall o, not_validated o w) ->
  for_await (convertFlvToMp4 env) earlier w = Resolved w1 ->
  logged INFO (MsgValidated (outputPath (fullPath t2))) w1 ->
  exists w2, convertFlvToMp4 env t2 w1 = Resolved w2
             /\ spawned w2 = spawned w1
             /\ logged WARNING (MsgSkipExists (outputPath (fullPath t2))) w2
             /\ (unlink_error env (fullPath t2) (fullPath t2) = None ->
                 forall st, stat (fs w1) (fullPath t2) = Some st ->
                            stat (fs w2) (fullPath t2) = None
                            /\ logged INFO (MsgSourceDeleted (fullPath t2)) w2).
Proof.
  intros Hex Hbelow Hnv Hrun L.
  rewrite outputPath_top in *.
  set (n := (stem (fullPath t2) ++ ".mp4")%string) in *.
  assert (Hp : validated_present n w1).
  { assert (K : validated_present n
                  (settled_world (for_await (convertFlvToMp4 env) earlier w))).
    { apply for_await_keeps.
      - intros t w' Hin. apply worker_validated_present; [exact Hex|].
        apply below_target_not_top, Hbelow, Hin.
      - intros L0. destruct (Hnv _ L0). }
    rewrite Hrun in K. exact K. }
  destruct (skip_path env t2 w1 (Hp L)) as (w2 & E & Hs & _ & Hl & Hd).
  exists w2. auto.
Qed.

Lemma C10_witness :
  exists w2,
    convertFlvToMp4 Demo.all_fine Demo.task_room2
      (settled_world (for_await (convertFlvToMp4 Demo.all_fine) [Demo.task_room1]
                                (Demo.world Demo.same_names)))
    = Resolved w2
    /\ spawned w2
       = spawned (settled_world (for_await (convertFlvToMp4 Demo.all_fine) [Demo.task_room1]
                                           (Demo.world Demo.same_names)))
    /\ logged WARNING (MsgSkipExists (outputPath (fullPath Demo.task_room2))) w2
    /\ (unlink_error Demo.all_fine (fullPath Demo.task_room2) (fullPath Demo.task_room2)
        = None ->
        forall st,
          stat (fs (settled_world (for_await (convertFlvToMp4 Demo.all_fine)
                                             [Demo.task_room1] (Demo.world Demo.same_names))))
               (fullPath Demo.task_room2) = Some st ->
          stat (fs w2) (fullPath Demo.task_room2) = None
          /\ logged INFO (MsgSourceDeleted (fullPath Demo.task_room2)) w2).
Proof.
  apply (C10_same_basename_skipped_after_validation Demo.all_fine [Demo.task_room1]
           Demo.task_room2 (Demo.world Demo.same_names)).
  - intros input wrote H. vm_compute in H. inversion H; reflexivity.
  - intros t [<- | []]. exists ["room1"; "x.flv"]. split; [discriminate | reflexivity].
  - intros o [].
  - vm_compute; reflexivity.
  - vm_compute. tauto.
Defined.

(** The claim as it was worded fails when the first of the two
    conversions fails: with a transcoder that exits with code 1, the
    second source with the same basename gets its own transcoder and is
    not deleted. *)
Lemma C10_counterexample :
  Demo.room1_x <> Demo.room2_x
  /\ outputPath Demo.room1_x = outputPath Demo.room2_x
  /\ spawned_for Demo.room1_x (final (main Demo.exit_one (Demo.world Demo.same_names)))
  /\ spawned_for Demo.room2_x (final (main Demo.exit_one (Demo.world Demo.same_names)))
  /\ ~ logged WARNING (MsgSkipExists (outputPath Demo.room2_x))
              (final (main Demo.exit_one (Demo.world Demo.same_names)))
  /\ stat (fs (final (main Demo.exit_one (Demo.world Demo.same_names)))) Demo.room2_x
     = Some (mkStat 6000000 200 200).
Proof.
  split; [discriminate|]. split; [reflexivity|].
  split; [|split; [|split]].
  - exists (mkSpawn Demo.room1_x ["x.mp4"]).
    split; [vm_compute; left; reflexivity | reflexivity].
  - exists (mkSpawn Demo.room2_x ["x.mp4"]).
    split; [vm_compute; right; left; reflexivity | reflexivity].
  - vm_compute. intuition discriminate.
  - vm_compute; reflexivity.
Qed.

End SameBasename.

(** *** A transcoder that exits with a non-zero code *)

Section NonZeroExit.

Import Fs Rt Spec.

Ltac find_logged :=
  solve [ repeat first [ apply in_or_app; right; left; reflexivity
                       | apply in_or_app; left ] ].

(** A file written at a free top-level name and unlinked again. *)
Lemma written_then_removed (n : string) (st : Stat) (es : entries) :
  Fs.existsSync es [n] = false ->
  write_file [n] st es = Some (set_entry n (File st) es)
  /\ Fs.existsSync (set_entry n (File st) es) [n] = true
  /\ remove_file [n] (set_entry n (File st) es)
     = Some (drop_entry n (set_entry n (File st) es))
  /\ Fs.existsSync (drop_entry n (set_entry n (File st) es)) [n] = false
  /\ forall p, p <> [n] ->
       stat (set_entry n (File st) es) p = stat es p
       /\ stat (drop_entry n (set_entry n (File st) es)) p = stat es p.
Proof.
  intros Ex.
  assert (W := write_top_succeeds n st es Ex).
  assert (R : remove_file [n] (set_entry n (File st) es)
              = Some (drop_entry n (set_entry n (File st) es))).
  { simpl. rewrite find_set_same. reflexivity. }
  split; [exact W|]. split; [exact (write_top_present _ _ _ _ W)|].
  split; [exact R|]. split; [exact (remove_top_gone _ _ _ R)|].
  intros p Hp.
  assert (S1 := write_top_stat _ _ _ _ p W Hp).
  split; [exact S1|].
  rewrite (remove_top_stat _ _ _ p R Hp). exact S1.
Qed.

Ltac same_log := cbn [app]; rewrite <- ?app_assoc; reflexivity.

Lemma space_aware_nonzero_exit
      (env : Env) (t : SpaceAware.FileTask) (w : World) (code : Z) (wrote : bool) :
  ffmpeg env (SpaceAware.fullPath t) = Closed code wrote -> code <> 0%Z ->
  let input := SpaceAware.fullPath t in
  let output := SpaceAware.outputPath input in
  Fs.existsSync (fs w) output = false -> input <> output ->
  exists w', SpaceAware.convertFlvToMp4 env t w = Resolved w'
             /\ log w' = log w
                         ++ [(INFO, MsgStart input output);
                             (ERROR, MsgConvertFailed input code)]
                         ++ partial_output_entries_space env input output wrote
                         ++ [(INFO, MsgBlank)]
             /\ review w' = review w
             /\ stat (fs w') input = stat (fs w) input
             /\ Fs.existsSync (fs w') output = partial_output_stays env input output wrote.
Proof.
  intros F Hc input output. subst input output.
  rewrite outputPath_top. set (n := (stem (SpaceAware.fullPath t) ++ ".mp4")%string).
  intros Ex Hne.
  destruct (written_then_removed n (ffmpeg_stat env (SpaceAware.fullPath t)) (fs w) Ex)
    as (W & P1 & R & P2 & S).
  destruct (S _ Hne) as [S1 S2].
  unfold SpaceAware.convertFlvToMp4. rewrite outputPath_top. fold n. rewrite Ex.
  unfold await_handler, SpaceAware.convert_new, SpaceAware.on_close,
    SpaceAware.on_exit_failure, bind, writeLog, spawn_ffmpeg, Rt.existsSync, when,
    try_catch, unlinkSync, partial_output_entries_space, partial_output_stays.
  rewrite F. apply Z.eqb_neq in Hc. rewrite Hc.
  cbn [fs log review spawned fst snd].
  destruct wrote.
  - rewrite W, P1. cbn [fs log review spawned fst snd].
    destruct (unlink_error env (SpaceAware.fullPath t) [n]) as [err|].
    + eexists; split; [reflexivity|]. cbn [fs log review spawned].
      split; [same_log|]. split; [reflexivity|]. split; [exact S1 | exact P1].
    + rewrite R. eexists; split; [reflexivity|]. cbn [fs log review spawned].
      split; [same_log|]. split; [reflexivity|]. split; [exact S2 | exact P2].
  - rewrite Ex. eexists; split; [reflexivity|]. cbn [fs log review spawned].
    split; [same_log|]. split; [reflexivity|]. split; [reflexivity | exact Ex].
Qed.

Lemma validation_aware_nonzero_exit
      (env : Env) (input : path) (w : World) (code : Z) (wrote : bool) :
  ffmpeg env input = Closed code wrote -> code <> 0%Z ->
  let output := ValidationAware.outputPath input in
  Fs.existsSync (fs w) output = false -> input <> output ->
  exists w', ValidationAware.convertFlvToMp4 env input w = Resolved w'
             /\ log w' = log w
                         ++ match stat (fs w) input with
                            | Some _ => []
                            | None => [(WARNING, MsgStatFailed (Js.SystemError "ENOENT"))]
                            end
                         ++ [(INFO, MsgStart input output);
                             (ERROR, MsgConvertFailed input code)]
                         ++ partial_output_entries_aware env input output wrote
             /\ review w' = review w
             /\ stat (fs w') input = stat (fs w) input
             /\ Fs.existsSync (fs w') output = partial_output_stays env input output wrote.
Proof.
  intros F Hc output. subst output.
  change (ValidationAware.outputPath input) with [(stem input ++ ".mp4")%string].
  set (n := (stem input ++ ".mp4")%string).
  intros Ex Hne.
  destruct (written_then_removed n (ffmpeg_stat env input) (fs w) Ex)
    as (W & P1 & R & P2 & S).
  destruct (S _ Hne) as [S1 S2].
  unfold ValidationAware.convertFlvToMp4.
  change (ValidationAware.outputPath input) with [n]. rewrite Ex.
  unfold await_handler, ValidationAware.convert_new, ValidationAware.on_close,
    ValidationAware.on_exit_failure, ValidationAware.statSync, bind, writeLog,
    spawn_ffmpeg, Rt.existsSync, when, try_catch, unlinkSync, get_fs, ret, throw,
    partial_output_entries_aware, partial_output_stays.
  rewrite F. apply Z.eqb_neq in Hc. rewrite Hc.
  cbn [fs log review spawned fst snd].
  unfold stat at 1.
  destruct (lookup input (Dir (fs w))) as [[st|sub]|]; cbn [fs log review spawned fst snd];
    (destruct wrote;
     [ rewrite W, P1; cbn [fs log review spawned fst snd];
       destruct (unlink_error env input [n]) as [err|];
       [ eexists; split; [reflexivity|]; cbn [fs log review spawned];
         split; [same_log|]; split; [reflexivity|]; split; [exact S1 | exact P1]
       | rewrite R; eexists; split; [reflexivity|]; cbn [fs log review spawned];
         split; [same_log|]; split; [reflexivity|];
         split; [exact S2 | exact P2] ]
     | rewrite Ex; eexists; split; [reflexivity|]; cbn [fs log review spawned];
       split; [same_log|]; split; [reflexivity|];
       split; [reflexivity | exact Ex] ]).
Qed.

(** src/convert.js only logs: the tree stays as the transcoder left it. *)
Lemma simple_nonzero_exit
      (env : Env) (input : path) (w : World) (code : Z) (wrote : bool) :
  ffmpeg env input = Closed code wrote -> code <> 0%Z ->
  let output := Simple.outputPath input in
  Fs.existsSync (fs w) output = false ->
  exists w', Simple.convertVideoStreamCopy env input w = Resolved w'
             /\ logged ERROR (MsgConvertFailed input code) w'
             /\ review w' = review w
             /\ fs w' = fs (snd (spawn_ffmpeg env input output w)).
Proof.
  intros F Hc output Ex. subst output.
  unfold Simple.convertVideoStreamCopy. rewrite Ex.
  unfold await_handler, Simple.convert_new, Simple.on_close, Simple.getDuration,
    Simple.statSync, bind, writeLog, spawn_ffmpeg, when, try_catch, get_fs, ret, throw,
    logged.
  rewrite F. apply Z.eqb_neq in Hc. rewrite Hc.
  cbn [fs log review spawned fst snd].
  destruct (lookup input (Dir (fs w))) as [[st|sub]|]; cbn [fs log review spawned fst snd];
    (destruct (ffmpeg_info env input) as [| |h]; cbn [fs log review spawned fst snd];
     [ | | destruct (h =? 0)%Z; cbn [fs log review spawned fst snd] ];
     (eexists; split; [reflexivity|]; cbn [fs log review spawned];
      split; [find_logged|]; split; reflexivity)).
Qed.

End NonZeroExit.

Section NonZeroExitClaim.

Import Fs Rt Spec.

(** C6, as the code has it.  When the transcoder of a file not yet
    converted closes with a non-zero code, every variant logs an ERROR for
    the file, writes nothing to the manual-review ledger and resolves the
    promise of that file.  The space-aware and the validation-aware
    scripts leave the source as it was and unlink whatever the transcoder
    left at the destination: the partial output is still there exactly
    when it was written and its unlink failed.  After the ERROR the
    space-aware script logs an INFO for the removal or a WARNING with
    the error of the failed unlink, the validation-aware script logs the
    INFO for the removal and nothing for a failed unlink.
    src/convert.js unlinks nothing: the tree stays as the transcoder left
    it, partial output included. *)
Theorem C6_nonzero_exit_by_variant
        (env : Env) (t : SpaceAware.FileTask) (w : World) (code : Z) (wrote : bool) :
  ffmpeg env (SpaceAware.fullPath t) = Closed code wrote -> code <> 0%Z ->
  Fs.existsSync (fs w) (SpaceAware.outputPath (SpaceAware.fullPath t)) = false ->
  SpaceAware.fullPath t <> SpaceAware.outputPath (SpaceAware.fullPath t) ->
  Fs.existsSync (fs w) (Simple.outputPath (SpaceAware.fullPath t)) = false ->
  (exists w', SpaceAware.convertFlvToMp4 env t w = Resolved w'
              /\ log w'
                 = log w
                   ++ [(INFO, MsgStart (SpaceAware.fullPath t)
                                (SpaceAware.outputPath (SpaceAware.fullPath t)));
                       (ERROR, MsgConvertFailed (SpaceAware.fullPath t) code)]
                   ++ partial_output_entries_space env (SpaceAware.fullPath t)
                        (SpaceAware.outputPath (SpaceAware.fullPath t)) wrote
                   ++ [(INFO, MsgBlank)]
              /\ review w' = review w
              /\ stat (fs w') (SpaceAware.fullPath t) = stat (fs w) (SpaceAware.fullPath t)
              /\ Fs.existsSync (fs w') (SpaceAware.outputPath (SpaceAware.fullPath t))
                 = partial_output_stays env (SpaceAware.fullPath t)
                     (SpaceAware.outputPath (SpaceAware.fullPath t)) wrote)
  /\ (exists w', ValidationAware.convertFlvToMp4 env (SpaceAware.fullPath t) w = Resolved w'
                 /\ log w'
                    = log w
                      ++ match stat (fs w) (SpaceAware.fullPath t) with
                         | Some _ => []
                         | None => [(WARNING, MsgStatFailed (Js.SystemError "ENOENT"))]
                         end
                      ++ [(INFO, MsgStart (SpaceAware.fullPath t)
                                   (ValidationAware.outputPath (SpaceAware.fullPath t)));
                          (ERROR, MsgConvertFailed (SpaceAware.fullPath t) code)]
                      ++ partial_output_entries_aware env (SpaceAware.fullPath t)
                           (ValidationAware.outputPath (SpaceAware.fullPath t)) wrote
                 /\ review w' = review w
                 /\ stat (fs w') (SpaceAware.fullPath t) = stat (fs w) (SpaceAware.fullPath t)
                 /\ Fs.existsSync (fs w') (ValidationAware.outputPath (SpaceAware.fullPath t))
                    = partial_output_stays env (SpaceAware.fullPath t)
                        (ValidationAware.outputPath (SpaceAware.fullPath t)) wrote)
  /\ (exists w', Simple.convertVideoStreamCopy env (SpaceAware.fullPath t) w = Resolved w'
                 /\ logged ERROR (MsgConvertFailed (SpaceAware.fullPath t) code) w'
                 /\ review w' = review w
                 /\ fs w' = fs (snd (spawn_ffmpeg env (SpaceAware.fullPath t)
                                       (Simple.outputPath (SpaceAware.fullPath t)) w))).
Proof.
  intros F Hc Ex Hne ExS. split; [|split].
  - apply (space_aware_nonzero_exit env t w code wrote F Hc Ex Hne).
  - apply (validation_aware_nonzero_exit env _ w code wrote F Hc Ex Hne).
  - apply (simple_nonzero_exit env _ w code wrote F Hc ExS).
Qed.

(** The transcoder exits with code 1 after writing part of [a.mp4], and
    the unlink of [a.mp4] fails with EBUSY: the space-aware script logs
    the WARNING, the validation-aware one logs nothing more, and in both
    the partial output stays. *)
Lemma C6_witness :
  (exists w', SpaceAware.convertFlvToMp4 Demo2.exit_one_busy Demo.task_a
                (Demo.world Demo.two_files) = Resolved w'
              /\ log w'
                 = log (Demo.world Demo.two_files)
                   ++ [(INFO, MsgStart (SpaceAware.fullPath Demo.task_a)
                                (SpaceAware.outputPath (SpaceAware.fullPath Demo.task_a)));
                       (ERROR, MsgConvertFailed (SpaceAware.fullPath Demo.task_a) 1)]
                   ++ [(WARNING,
                        MsgBrokenOutputDeleteFailed
                          (SpaceAware.outputPath (SpaceAware.fullPath Demo.task_a))
                          (Js.SystemError "EBUSY"))]
                   ++ [(INFO, MsgBlank)]
              /\ review w' = review (Demo.world Demo.two_files)
              /\ stat (fs w') (SpaceAware.fullPath Demo.task_a)
                 = stat (fs (Demo.world Demo.two_files)) (SpaceAware.fullPath Demo.task_a)
              /\ Fs.existsSync (fs w') (SpaceAware.outputPath (SpaceAware.fullPath Demo.task_a))
                 = true)
  /\ (exists w', ValidationAware.convertFlvToMp4 Demo2.exit_one_busy
                   (SpaceAware.fullPath Demo.task_a) (Demo.world Demo.two_files) = Resolved w'
                 /\ log w'
                    = log (Demo.world Demo.two_files)
                      ++ []
                      ++ [(INFO, MsgStart (SpaceAware.fullPath Demo.task_a)
                                   (ValidationAware.outputPath
                                      (SpaceAware.fullPath Demo.task_a)));
                          (ERROR, MsgConvertFailed (SpaceAware.fullPath Demo.task_a) 1)]
                      ++ []
                 /\ review w' = review (Demo.world Demo.two_files)
                 /\ stat (fs w') (SpaceAware.fullPath Demo.task_a)
                    = stat (fs (Demo.world Demo.two_files)) (SpaceAware.fullPath Demo.task_a)
                 /\ Fs.existsSync (fs w')
                      (ValidationAware.outputPath (SpaceAware.fullPath Demo.task_a))
                    = true)
  /\ (exists w', Simple.convertVideoStreamCopy Demo2.exit_one_busy
                   (SpaceAware.fullPath Demo.task_a) (Demo.world Demo.two_files) = Resolved w'
                 /\ logged ERROR (MsgConvertFailed (SpaceAware.fullPath Demo.task_a) 1) w'
                 /\ review w' = review (Demo.world Demo.two_files)
                 /\ fs w' = fs (snd (spawn_ffmpeg Demo2.exit_one_busy
                                       (SpaceAware.fullPath Demo.task_a)
                                       (Simple.outputPath (SpaceAware.fullPath Demo.task_a))
                                       (Demo.world Demo.two_files)))).
Proof.
  apply (C6_nonzero_exit_by_variant Demo2.exit_one_busy Demo.task_a
           (Demo.world Demo.two_files) 1%Z true).
  - reflexivity.
  - discriminate.
  - vm_compute; reflexivity.
  - vm_compute; discriminate.
  - vm_compute; reflexivity.
Defined.

(** The claim as worded also covers src/convert.js, where it fails: the
    transcoder exits with code 1 after writing part of [a.mp4], and the
    file is still there when the worker has finished. *)
Lemma C6_counterexample :
  ffmpeg Demo.exit_one Demo.a_flv = Closed 1 true
  /\ Fs.existsSync (fs (Demo.world Demo.two_files)) (Simple.outputPath Demo.a_flv) = false
  /\ Fs.existsSync
       (fs (settled_world (Simple.convertVideoStreamCopy Demo.exit_one Demo.a_flv
                             (Demo.world Demo.two_files))))
       (Simple.outputPath Demo.a_flv) = true.
Proof. repeat split; vm_compute; reflexivity. Qed.

End NonZeroExitClaim.

(** *** The size-delta check and the missing-document result *)

Section ValidationClaims.

Import Fs Rt Spec.

(** C1 (the script departs from its own documentation).  The
    documentation of validateMp4ByFfprobe asks for the size difference
    to stay within MAX_DIFF_SIZE_BYTES; the script computes
    [Math.abs(size, originSize) > MAX_DIFF_SIZE_BYTES].  For an output of
    1000 bytes made from a source of 1000 bytes the documented rule holds
    and the script's check fails, so a sound file is reported as
    [size_invalid]; for an output of 1 GB made from a source of one byte
    the documented rule fails and the script's check passes. *)
Theorem C1_size_check_departs_from_documented_rule :
  size_ok (Js.of_Z 1000) 1000 SpaceAware.MAX_DIFF_SIZE_BYTES = true
  /\ SpaceAware.validateMp4ByFfprobe (Some (Demo.doc "1000")) 1000
     = Js.Ret (Probe.mkValidation false None (Some ["size_invalid"])
                 (Some (Probe.mkDetails true true true (Js.of_Z 2)
                          (Js.parseFloat "300.000000") (Some (Js.of_Z 1000)))))
  /\ size_ok (Js.of_Z 1000000000) 1 SpaceAware.MAX_DIFF_SIZE_BYTES = false
  /\ (exists v, SpaceAware.validateMp4ByFfprobe (Some (Demo.doc "1000000000")) 1 = Js.Ret v
                /\ Probe.ok v = true).
Proof.
  split; [vm_compute; reflexivity|].
  split; [vm_compute; reflexivity|].
  split; [vm_compute; reflexivity|].
  eexists; split; [vm_compute; reflexivity | reflexivity].
Qed.

(** C3 (the script departs from its own documentation).  For a null
    document both scripts return [ok = false], but the returned object
    has no [reasons] list at all: the text is stored in a property
    called [reason], and in the space-aware script it is spelled with
    blanks.  No failure-reason set contains [missing_format_or_streams]. *)
Theorem C3_missing_document_result_has_no_reasons :
  SpaceAware.validateMp4ByFfprobe None 0
  = Js.Ret (Probe.mkValidation false (Some "missing format or streams") None None)
  /\ ValidationAware.validateMp4ByFfprobe None
     = Probe.mkValidation false (Some "missing_format_or_streams") None None
  /\ ~ names_reason "missing_format_or_streams" (ValidationAware.validateMp4ByFfprobe None)
  /\ (forall v, SpaceAware.validateMp4ByFfprobe None 0 = Js.Ret v ->
                ~ names_reason "missing_format_or_streams" v).
Proof.
  split; [reflexivity|]. split; [reflexivity|]. split.
  - intros [l [H _]]; discriminate.
  - intros v E [l [H _]]. inversion E; subst v. discriminate.
Qed.

End ValidationClaims.

(** *** A probe that yields no usable document *)

Section FailedProbe.

Import Fs Rt Spec.

(** Whenever the transcoder exits with code 0 and the probe yields no
    document, or one without [format] or [streams], the 'close' handler
    throws before it reaches [resolve()]: the promise of the file stays
    pending, nothing is written to the ledger, and no later file of the
    batch is processed. *)
Lemma failed_probe_never_resolves
      (env : Env) (t : SpaceAware.FileTask) (rest : list SpaceAware.FileTask)
      (w : World) (wrote : bool) :
  Fs.existsSync (fs w) (SpaceAware.outputPath (SpaceAware.fullPath t)) = false ->
  ffmpeg env (SpaceAware.fullPath t) = Closed 0 wrote ->
  lacks_format_or_streams (probe_doc (ffprobe env (SpaceAware.fullPath t))) = true ->
  exists w', SpaceAware.convertFlvToMp4 env t w = Pending join_type_error w'
             /\ for_await (SpaceAware.convertFlvToMp4 env) (t :: rest) w
                = Pending join_type_error w'
             /\ review w' = review w
             /\ spawned w' = spawned w ++ [mkSpawn (SpaceAware.fullPath t)
                                             (SpaceAware.outputPath (SpaceAware.fullPath t))].
Proof.
  intros Ex F Hl.
  assert (K : exists w', SpaceAware.convertFlvToMp4 env t w = Pending join_type_error w'
                         /\ review w' = review w
                         /\ spawned w' = spawned w ++ [mkSpawn (SpaceAware.fullPath t)
                              (SpaceAware.outputPath (SpaceAware.fullPath t))]).
  { unfold SpaceAware.convertFlvToMp4. rewrite Ex.
    unfold await_handler, SpaceAware.convert_new, SpaceAware.on_close,
      SpaceAware.on_exit_zero, SpaceAware.on_invalid, SpaceAware.runFfprobeJson,
      SpaceAware.join_reasons, SpaceAware.lift, bind, writeLog, spawn_ffmpeg, Rt.existsSync,
      when, try_catch, unlinkSync, ret, throw.
    rewrite F. cbn [Z.eqb fs log review spawned fst snd].
    pose proof (validate_space_missing _ (SpaceAware.size t) Hl) as V.
    destruct (ffprobe env (SpaceAware.fullPath t)) as [err|doc]; cbn [probe_doc] in V;
      rewrite V;
      cbn [Probe.ok Probe.reasons fs log review spawned fst snd];
      match goal with
      | |- context [Fs.existsSync ?f ?o] => destruct (Fs.existsSync f o)
      end;
      cbn [fs log review spawned fst snd];
      try (destruct (unlink_error env (SpaceAware.fullPath t)
                      (SpaceAware.outputPath (SpaceAware.fullPath t)));
           cbn [fs log review spawned fst snd];
           try match goal with
               | |- context [remove_file ?o ?f] => destruct (remove_file o f)
               end;
           cbn [fs log review spawned fst snd]);
      (eexists; split; [reflexivity | split; reflexivity]). }
  destruct K as (w' & E & Hr & Hs). exists w'.
  split; [exact E|]. split; [|split; assumption].
  simpl. rewrite E. reflexivity.
Qed.

(** C2 (defect of the script).  The probe of the first file of the
    batch fails, so runFfprobeJson returns null and the validator
    answers without a [reasons] list; [validation.reasons.join] then
    throws inside the 'close' handler, [resolve()] is never reached, and
    [main] stays at its first [await]: the second file is never
    started and the closing summary is never written. *)
Theorem C2_failed_probe_stalls_the_batch :
  (exists w', SpaceAware.main Demo.probe_fails (Demo.world Demo.two_files)
              = Stalled join_type_error w')
  /\ spawned (final (SpaceAware.main Demo.probe_fails (Demo.world Demo.two_files)))
     = [mkSpawn Demo.b_flv ["b.mp4"]]
  /\ ~ spawned_for Demo.a_flv
         (final (SpaceAware.main Demo.probe_fails (Demo.world Demo.two_files)))
  /\ stat (fs (final (SpaceAware.main Demo.probe_fails (Demo.world Demo.two_files))))
          Demo.a_flv = Some (mkStat 5000000 200 200)
  /\ ~ logged INFO (MsgDone 2)
         (final (SpaceAware.main Demo.probe_fails (Demo.world Demo.two_files))).
Proof.
  split; [eexists; vm_compute; reflexivity|].
  split; [vm_compute; reflexivity|].
  split.
  - intros [s [Hin Hs]]. vm_compute in Hin. destruct Hin as [<- | []]. discriminate Hs.
  - split; [vm_compute; reflexivity|].
    vm_compute. intuition discriminate.
Qed.

(** C8 (defect of the script).  The transcoder exits with code 0 and
    the probe fails, so validation fails with [ok = false]; in both
    scripts of part_001 the output is removed, but the handler throws on
    [validation.reasons.join] before [appendFileSync]: the ledger gets no
    line for the source and the WARNING that announces the ledger entry
    is never logged.  The source is still there. *)
Theorem C8_failed_probe_writes_no_ledger_line :
  SpaceAware.validateMp4ByFfprobe (probe_doc (ffprobe Demo.probe_fails Demo.a_flv)) 5000000
  = Js.Ret (Probe.mkValidation false (Some "missing format or streams") None None)
  /\ (exists w', SpaceAware.convertFlvToMp4 Demo.probe_fails Demo.task_a
                   (Demo.world Demo.two_files) = Pending join_type_error w'
                 /\ review w' = []
                 /\ ~ logged WARNING (MsgManualReview Demo.a_flv) w'
                 /\ Fs.existsSync (fs w') ["a.mp4"] = false
                 /\ stat (fs w') Demo.a_flv = Some (mkStat 5000000 200 200))
  /\ (exists w', ValidationAware.convertFlvToMp4 Demo.probe_fails Demo.a_flv
                   (Demo.world Demo.two_files) = Pending join_type_error w'
                 /\ review w' = []
                 /\ ~ logged WARNING (MsgManualReview Demo.a_flv) w'
                 /\ Fs.existsSync (fs w') ["a.mp4"] = false
                 /\ stat (fs w') Demo.a_flv = Some (mkStat 5000000 200 200)).
Proof.
  split; [reflexivity|]. split.
  - eexists. split; [vm_compute; reflexivity|].
    split; [reflexivity|]. split; [|split; vm_compute; reflexivity].
    vm_compute. intuition discriminate.
  - eexists. split; [vm_compute; reflexivity|].
    split; [reflexivity|]. split; [|split; vm_compute; reflexivity].
    vm_compute. intuition discriminate.
Qed.

End FailedProbe.

(** *** The free-space guard *)

Section DiskGuard.

Import Fs Rt Spec SpaceAware.

Lemma zero_below_threshold : Js.lt (Js.of_Z 0) (Js.of_Z SPACE_THRESHOLD) = true.
Proof. vm_compute; reflexivity. Qed.

(** [prepare] once the target directory is found and the ledger is out
    of the way: the guard and the collection, on the state they start
    from. *)
Lemma prepare_after_ledger (env : Env) (w : World) :
  Fs.existsSync (fs w) TARGET_DIR = true ->
  ledger_reset_succeeds env w = true ->
  prepare env w
  = match getAvailableDiskSpace env OUTPUT_DIR
            (mkWorld (drop_entry MANUAL_REVIEW_NAME (fs w)) [] [] (spawned w)) with
    | (Js.Thrown e, w2) => (Js.Thrown e, w2)
    | (Js.Ret v, w2) =>
        if Js.lt v (Js.of_Z SPACE_THRESHOLD)
        then (Js.Ret None, snd (writeLog (MsgDiskSpaceLow OUTPUT_DIR) CRITICAL w2))
        else match collectFiles TARGET_DIR w2 with
             | (Js.Ret files, w3) => (Js.Ret (Some files), w3)
             | (Js.Thrown e, w3) => (Js.Thrown e, w3)
             end
    end.
Proof.
  intros T L. unfold prepare.
  unfold bind at 1. unfold reset_log at 1. cbv iota beta.
  unfold bind at 1. unfold Rt.existsSync at 1. cbn [fs fst snd]. rewrite T. cbn [negb].
  unfold bind at 1. rewrite (reset_review_value env w [] L).
  unfold bind at 1.
  destruct (getAvailableDiskSpace env OUTPUT_DIR
              (mkWorld (drop_entry MANUAL_REVIEW_NAME (fs w)) [] [] (spawned w)))
    as [[v|e] w2]; [|reflexivity].
  destruct (Js.lt v (Js.of_Z SPACE_THRESHOLD)).
  - reflexivity.
  - unfold bind, ret. destruct (collectFiles TARGET_DIR w2) as [[files|e] w3]; reflexivity.
Qed.

(** The query touches nothing but the log. *)
Lemma getAvailableDiskSpace_world (env : Env) (dir : path) (w : World) :
  fs (snd (getAvailableDiskSpace env dir w)) = fs w
  /\ review (snd (getAvailableDiskSpace env dir w)) = review w
  /\ spawned (snd (getAvailableDiskSpace env dir w)) = spawned w.
Proof.
  unfold getAvailableDiskSpace.
  destruct (String.eqb (platform env) "win32"); [|simpl; auto].
  destruct (ss_error (fsutil env)); [simpl; auto|].
  destruct (match_number (ss_stdout (fsutil env))); simpl; auto.
Qed.

(** C7 (defect of the script).  The documentation of
    getAvailableDiskSpace promises the value 0 when the query fails, and
    so it is where the query command reports an error.  On a platform
    other than win32 the function returns nothing: it throws
    [Error('Unsupported platform')] without logging anything, [main]
    does not catch it, and the promise of [main] is rejected with that
    exception.  (The target directory is there and the ledger is out of
    the way, so [main] gets as far as the query; no transcoder is
    started.) *)
Theorem C7_unsupported_platform_escapes_as_exception (env : Env) (w : World) :
  platform env <> "win32" ->
  Fs.existsSync (fs w) TARGET_DIR = true ->
  ledger_reset_succeeds env w = true ->
  query_fails env
  /\ (forall dir w0,
         getAvailableDiskSpace env dir w0 = (Js.Thrown (Js.Error "Unsupported platform"), w0))
  /\ main env w
     = Rejected (Js.Error "Unsupported platform")
                (mkWorld (drop_entry MANUAL_REVIEW_NAME (fs w)) [] [] (spawned w)).
Proof.
  intros P T L.
  assert (E : String.eqb (platform env) "win32" = false) by (apply String.eqb_neq; exact P).
  assert (G : forall dir w0,
             getAvailableDiskSpace env dir w0
             = (Js.Thrown (Js.Error "Unsupported platform"), w0)).
  { intros dir w0. unfold getAvailableDiskSpace. rewrite E. reflexivity. }
  split; [left; exact P|]. split; [exact G|].
  unfold main. rewrite (prepare_after_ledger env w T L), G. reflexivity.
Qed.

Lemma C7_witness :
  query_fails Demo.on_linux
  /\ (forall dir w0,
         getAvailableDiskSpace Demo.on_linux dir w0
         = (Js.Thrown (Js.Error "Unsupported platform"), w0))
  /\ main Demo.on_linux (Demo.world Demo.two_files)
     = Rejected (Js.Error "Unsupported platform")
                (mkWorld (drop_entry MANUAL_REVIEW_NAME (fs (Demo.world Demo.two_files)))
                         [] [] (spawned (Demo.world Demo.two_files))).
Proof.
  apply (C7_unsupported_platform_escapes_as_exception Demo.on_linux
           (Demo.world Demo.two_files)).
  - vm_compute; discriminate.
  - vm_compute; reflexivity.
  - vm_compute; reflexivity.
Defined.

(** X23. The other way the query can fail.  On win32, when the query
    command reports an error, getAvailableDiskSpace logs the ERROR entry
    and returns 0; with the target directory there and the ledger out of
    the way, [main] then logs its CRITICAL entry and returns, having
    started no transcoder. *)
Theorem query_command_error_stops_the_run (env : Env) (w : World) (err : string) :
  platform env = "win32" ->
  ss_error (fsutil env) = Some err ->
  Fs.existsSync (fs w) TARGET_DIR = true ->
  ledger_reset_succeeds env w = true ->
  (forall dir w0,
      getAvailableDiskSpace env dir w0
      = (Js.Ret (Js.of_Z 0),
         mkWorld (fs w0) (log w0 ++ [(ERROR, MsgDiskQueryError dir err)])
                 (review w0) (spawned w0)))
  /\ main env w
     = Returned (mkWorld (drop_entry MANUAL_REVIEW_NAME (fs w))
                         [(ERROR, MsgDiskQueryError OUTPUT_DIR err);
                          (CRITICAL, MsgDiskSpaceLow OUTPUT_DIR)]
                         [] (spawned w)).
Proof.
  intros P E T L.
  assert (G : forall dir w0,
             getAvailableDiskSpace env dir w0
             = (Js.Ret (Js.of_Z 0),
                mkWorld (fs w0) (log w0 ++ [(ERROR, MsgDiskQueryError dir err)])
                        (review w0) (spawned w0))).
  { intros dir w0. unfold getAvailableDiskSpace. rewrite P, E. reflexivity. }
  split; [exact G|].
  unfold main. rewrite (prepare_after_ledger env w T L), G, zero_below_threshold.
  reflexivity.
Qed.

Lemma query_command_error_witness :
  (forall dir w0,
      getAvailableDiskSpace Demo.fsutil_broken dir w0
      = (Js.Ret (Js.of_Z 0),
         mkWorld (fs w0) (log w0 ++ [(ERROR, MsgDiskQueryError dir "spawnSync fsutil ENOENT")])
                 (review w0) (spawned w0)))
  /\ main Demo.fsutil_broken (Demo.world Demo.two_files)
     = Returned (mkWorld (drop_entry MANUAL_REVIEW_NAME (fs (Demo.world Demo.two_files)))
                         [(ERROR, MsgDiskQueryError OUTPUT_DIR "spawnSync fsutil ENOENT");
                          (CRITICAL, MsgDiskSpaceLow OUTPUT_DIR)]
                         [] (spawned (Demo.world Demo.two_files))).
Proof.
  apply (query_command_error_stops_the_run Demo.fsutil_broken (Demo.world Demo.two_files)
           "spawnSync fsutil ENOENT").
  - reflexivity.
  - reflexivity.
  - vm_compute; reflexivity.
  - vm_compute; reflexivity.
Defined.

End DiskGuard.

(** *** An output that fails validation with its reasons listed *)

Section Quarantine.

Import Fs Rt Spec.

Ltac find_logged :=
  solve [ repeat first [ apply in_or_app; right; left; reflexivity
                       | apply in_or_app; left ] ].

(** When the validator does return its list of reasons, the space-aware
    worker does what is expected of it: the output is unlinked (gone
    unless the unlink fails), the ledger gets the source path with the
    joined reasons, a WARNING is logged and the source stays. *)
Lemma space_aware_quarantine
      (env : Env) (t : SpaceAware.FileTask) (w : World) (wrote : bool)
      (v : Probe.Validation) (l : list string) :
  let input := SpaceAware.fullPath t in
  let output := SpaceAware.outputPath input in
  Fs.existsSync (fs w) output = false -> input <> output ->
  ffmpeg env input = Closed 0 wrote ->
  SpaceAware.validateMp4ByFfprobe (probe_doc (ffprobe env input)) (SpaceAware.size t)
  = Js.Ret v ->
  Probe.ok v = false -> Probe.reasons v = Some l ->
  exists w', SpaceAware.convertFlvToMp4 env t w = Resolved w'
             /\ review w' = review w ++ [mkReviewLine input (Js.join ", " l) false]
             /\ logged WARNING (MsgManualReview input) w'
             /\ stat (fs w') input = stat (fs w) input
             /\ (unlink_error env input output = None ->
                 Fs.existsSync (fs w') output = false).
Proof.
  intros input output. subst input output.
  rewrite outputPath_top. set (n := (stem (SpaceAware.fullPath t) ++ ".mp4")%string).
  intros Ex Hne F V Hok Hrs.
  destruct (written_then_removed n (ffmpeg_stat env (SpaceAware.fullPath t)) (fs w) Ex)
    as (W & P1 & R & P2 & S).
  destruct (S _ Hne) as [S1 S2].
  unfold SpaceAware.convertFlvToMp4. rewrite outputPath_top. fold n. rewrite Ex.
  unfold await_handler, SpaceAware.convert_new, SpaceAware.on_close,
    SpaceAware.on_exit_zero, SpaceAware.on_invalid, SpaceAware.runFfprobeJson,
    SpaceAware.join_reasons, SpaceAware.lift, bind, writeLog, append_review, spawn_ffmpeg,
    Rt.existsSync, when, try_catch, unlinkSync, ret, throw, logged.
  rewrite F. cbn [Z.eqb fs log review spawned fst snd].
  destruct (ffprobe env (SpaceAware.fullPath t)) as [err|doc]; cbn [probe_doc] in V;
    rewrite V; cbn [fs log review spawned fst snd]; rewrite Hok, Hrs;
    cbn [fs log review spawned fst snd];
    (destruct wrote;
     [ rewrite W, P1; cbn [fs log review spawned fst snd];
       destruct (unlink_error env (SpaceAware.fullPath t) [n]) as [e|];
       [ eexists; split; [reflexivity|]; cbn [fs log review spawned];
         split; [reflexivity|]; split; [find_logged|]; split; [exact S1 | discriminate]
       | rewrite R; eexists; split; [reflexivity|]; cbn [fs log review spawned];
         split; [reflexivity|]; split; [find_logged|];
         split; [exact S2 | intros _; exact P2] ]
     | rewrite Ex; eexists; split; [reflexivity|]; cbn [fs log review spawned];
       split; [reflexivity|]; split; [find_logged|];
       split; [reflexivity | intros _; exact Ex] ]).
Qed.

(** The same for the validation-aware worker, whose ledger entries end
    with a line break. *)
Lemma validation_aware_quarantine
      (env : Env) (input : path) (w : World) (wrote : bool) (l : list string) :
  let output := ValidationAware.outputPath input in
  let v := ValidationAware.validateMp4ByFfprobe (probe_doc (ffprobe env input)) in
  Fs.existsSync (fs w) output = false -> input <> output ->
  ffmpeg env input = Closed 0 wrote ->
  Probe.ok v = false -> Probe.reasons v = Some l ->
  exists w', ValidationAware.convertFlvToMp4 env input w = Resolved w'
             /\ review w' = review w ++ [mkReviewLine input (Js.join ", " l) true]
             /\ logged WARNING (MsgManualReview input) w'
             /\ stat (fs w') input = stat (fs w) input
             /\ (unlink_error env input output = None ->
                 Fs.existsSync (fs w') output = false).
Proof.
  intros output v. subst output v.
  change (ValidationAware.outputPath input) with [(stem input ++ ".mp4")%string].
  set (n := (stem input ++ ".mp4")%string).
  intros Ex Hne F Hok Hrs.
  destruct (written_then_removed n (ffmpeg_stat env input) (fs w) Ex)
    as (W & P1 & R & P2 & S).
  destruct (S _ Hne) as [S1 S2].
  unfold ValidationAware.convertFlvToMp4.
  change (ValidationAware.outputPath input) with [n]. rewrite Ex.
  unfold await_handler, ValidationAware.convert_new, ValidationAware.on_close,
    ValidationAware.on_exit_zero, ValidationAware.on_invalid,
    ValidationAware.runFfprobeJson, ValidationAware.join_reasons, ValidationAware.statSync,
    bind, writeLog, append_review, spawn_ffmpeg, Rt.existsSync, when, try_catch,
    unlinkSync, get_fs, ret, throw, logged.
  rewrite F. cbn [Z.eqb fs log review spawned fst snd].
  destruct (lookup input (Dir (fs w))) as [[st|sub]|]; cbn [fs log review spawned fst snd];
    (destruct (ffprobe env input) as [err|doc]; cbn [probe_doc] in Hok, Hrs;
     cbn [fs log review spawned fst snd]; rewrite Hok, Hrs;
     cbn [fs log review spawned fst snd];
     (destruct wrote;
      [ rewrite W, P1; cbn [fs log review spawned fst snd];
        destruct (unlink_error env input [n]) as [e|];
        [ eexists; split; [reflexivity|]; cbn [fs log review spawned];
          split; [reflexivity|]; split; [find_logged|]; split; [exact S1 | discriminate]
        | rewrite R; eexists; split; [reflexivity|]; cbn [fs log review spawned];
          split; [reflexivity|]; split; [find_logged|];
          split; [exact S2 | intros _; exact P2] ]
      | rewrite Ex; eexists; split; [reflexivity|]; cbn [fs log review spawned];
        split; [reflexivity|]; split; [find_logged|];
        split; [reflexivity | intros _; exact Ex] ])).
Qed.

(** The probe reports a single stream: the validation-aware worker
    removes [a.mp4], keeps [a.flv] and writes the ledger line. *)
Example one_stream_is_quarantined :
  exists w', ValidationAware.convertFlvToMp4 Demo.audio_lost Demo.a_flv
               (Demo.world Demo.two_files) = Resolved w'
             /\ review w' = [mkReviewLine Demo.a_flv
                               "audio_stream_not_aac_mp4a, nb_streams_lt_2" true]
             /\ Fs.existsSync (fs w') ["a.mp4"] = false
             /\ stat (fs w') Demo.a_flv = Some (mkStat 5000000 200 200).
Proof.
  eexists. split; [vm_compute; reflexivity|].
  split; [reflexivity|]. split; vm_compute; reflexivity.
Qed.

End Quarantine.

(* ================================================================== *)
(** ** Further properties of the collectors *)
(* ================================================================== *)

Section CollectMore.

Import Fs Rt Spec SpaceAware.

Lemma lookup_app (p q : path) :
  forall n n', lookup p n = Some n' -> lookup (p ++ q) n = lookup q n'.
Proof.
  induction p as [|name p IH]; intros n n' L; simpl in *.
  - inversion L; reflexivity.
  - destruct n as [st|es]; [discriminate|].
    destruct (find_entry name es) as [c|]; [|discriminate].
    apply IH; exact L.
Qed.

Lemma filename_join (dir : path) (name : string) : filename (join dir name) = name.
Proof. unfold filename, join. apply last_last. Qed.

Lemma in_names_find (n : string) (es : entries) :
  existsb (String.eqb n) (Tree.names es) = false -> find_entry n es = None.
Proof.
  induction es as [|m c rest IH]; simpl; [reflexivity|].
  intros H. apply orb_false_iff in H. destruct H as [H1 H2].
  rewrite String.eqb_sym, H1. apply IH; exact H2.
Qed.

(** In a tree without repeated names, every candidate is found again
    by its path, with the stat the task carries. *)
Lemma candidates_sound (files : entries) :
  forall dir t,
    Tree.distinct_names files = true ->
    In t (candidates dir files) ->
    exists k rest,
      fullPath t = dir ++ k :: rest
      /\ (exists c, find_entry k files = Some c)
      /\ lookup (k :: rest) (Dir files) = Some (File (mkStat (size t) (mtime t) (atime t)))
      /\ is_candidate (filename (fullPath t)) = true.
Proof.
  induction files using entries_mut with
    (P := fun n =>
            match n with
            | Dir sub =>
                forall dir t,
                  Tree.distinct_names sub = true ->
                  In t (candidates dir sub) ->
                  exists k rest,
                    fullPath t = dir ++ k :: rest
                    /\ (exists c, find_entry k sub = Some c)
                    /\ lookup (k :: rest) (Dir sub)
                       = Some (File (mkStat (size t) (mtime t) (atime t)))
                    /\ is_candidate (filename (fullPath t)) = true
            | File _ => True
            end).
  - exact I.
  - exact IHfiles.
  - intros dir t _ [].
  - intros dir t Hd Hin. simpl in Hd.
    apply andb_true_iff in Hd. destruct Hd as [Hd Hrest].
    apply andb_true_iff in Hd. destruct Hd as [Hfresh Hsub].
    apply negb_true_iff in Hfresh.
    assert (Later : forall t0, In t0 (candidates dir files) ->
              exists k rest,
                fullPath t0 = dir ++ k :: rest
                /\ (exists c, find_entry k (ECons name n files) = Some c)
                /\ lookup (k :: rest) (Dir (ECons name n files))
                   = Some (File (mkStat (size t0) (mtime t0) (atime t0)))
                /\ is_candidate (filename (fullPath t0)) = true).
    { intros t0 H0.
      destruct (IHfiles0 dir t0 Hrest H0) as (k & rest & E & [c F] & L & C).
      exists k, rest. split; [exact E|].
      assert (Hk : String.eqb name k = false).
      { destruct (String.eqb name k) eqn:Ek; [|reflexivity].
        apply String.eqb_eq in Ek; subst k.
        rewrite (in_names_find _ _ Hfresh) in F. discriminate. }
      simpl. rewrite Hk. split; [eauto|]. split; [exact L | exact C]. }
    destruct n as [stat|sub]; simpl in Hin.
    + destruct (is_candidate name) eqn:Cn; [|apply Later; exact Hin].
      destruct Hin as [<- | Hin]; [|apply Later; exact Hin].
      exists name, []. simpl. rewrite String.eqb_refl.
      split; [reflexivity|]. split; [eauto|].
      split; [destruct stat; reflexivity|].
      rewrite filename_join. exact Cn.
    + apply in_app_or in Hin. destruct Hin as [Hin | Hin]; [|apply Later; exact Hin].
      destruct (IHfiles (join dir name) t Hsub Hin) as (k & rest & E & F & L & C).
      exists name, (k :: rest).
      split; [rewrite E; unfold join; rewrite <- app_assoc; reflexivity|].
      simpl. rewrite String.eqb_refl. split; [eauto|]. split; [exact L | exact C].
Qed.

Lemma batch_incl_candidates (dir : path) (files : entries) (t : FileTask) :
  In t (sort_by by_mtime (snd (fst (walk dir files [] 0%N)))) ->
  In t (candidates dir files).
Proof.
  intros Hin.
  apply (Permutation_in _ (Permutation_sym (sort_by_perm _))) in Hin.
  rewrite walk_spec in Hin.
  destruct (take_fitting MAX_BATCH_SIZE_BYTES (candidates dir files) 0) as [[s l] tot] eqn:T.
  simpl in Hin. eapply take_fitting_incl; eauto.
Qed.

Lemma collectFiles_value (dir : path) (w : World) (files : entries) (batch : list FileTask) :
  lookup dir (Dir (fs w)) = Some (Dir files) ->
  fst (collectFiles dir w) = Js.Ret batch ->
  batch = sort_by by_mtime (snd (fst (walk dir files [] 0%N))).
Proof.
  intros L E. destruct (collectFiles_returns dir w files L) as [w' [E' _]].
  rewrite E' in E. simpl in E. inversion E; reflexivity.
Qed.

(** X1. In a tree in which no directory lists a name twice, every task
    of the batch names a regular file that exists strictly below the
    walked directory, has one of the convertible extensions (compared in
    lower case), and carries the size and times that file has. *)
Theorem batch_tasks_are_existing_candidates
        (dir : path) (w : World) (files : entries) (batch : list FileTask) (t : FileTask) :
  lookup dir (Dir (fs w)) = Some (Dir files) ->
  Tree.distinct_names files = true ->
  fst (collectFiles dir w) = Js.Ret batch ->
  In t batch ->
  below dir (fullPath t)
  /\ is_candidate (filename (fullPath t)) = true
  /\ stat (fs w) (fullPath t) = Some (mkStat (size t) (mtime t) (atime t)).
Proof.
  intros L Hd E Hin.
  rewrite (collectFiles_value dir w files batch L E) in Hin.
  apply batch_incl_candidates in Hin.
  destruct (candidates_sound files dir t Hd Hin) as (k & rest & Ep & _ & Lk & C).
  split; [exists (k :: rest); split; [discriminate | exact Ep]|].
  split; [exact C|].
  unfold stat. rewrite Ep, (lookup_app dir (k :: rest) _ _ L), Lk. reflexivity.
Qed.

Lemma batch_tasks_witness :
  below TARGET_DIR (fullPath Demo.task_a)
  /\ is_candidate (filename (fullPath Demo.task_a)) = true
  /\ stat (fs (Demo.world Demo.two_files)) (fullPath Demo.task_a)
     = Some (mkStat (size Demo.task_a) (mtime Demo.task_a) (atime Demo.task_a)).
Proof.
  apply (batch_tasks_are_existing_candidates TARGET_DIR (Demo.world Demo.two_files)
           (ECons "a.flv" (Demo.file 5000000 200) (ECons "b.flv" (Demo.file 6000000 100) ENil))
           [SpaceAware.mkFileTask Demo.b_flv 6000000 100 100; Demo.task_a] Demo.task_a).
  - reflexivity.
  - reflexivity.
  - vm_compute; reflexivity.
  - right; left; reflexivity.
Defined.

Lemma take_fitting_firstn (limit : N) (cands : list FileTask) :
  forall total stop l t,
    take_fitting limit cands total = (stop, l, t) ->
    exists k, l = firstn k cands /\ (stop = false -> l = cands).
Proof.
  induction cands as [|c cands IH]; intros total stop l t; simpl.
  - intros H; inversion H. exists 0%nat. split; reflexivity.
  - destruct (limit <? total + size c)%N.
    + intros H; inversion H. exists 0%nat. split; [reflexivity | discriminate].
    + destruct (take_fitting limit cands (total + size c)) as [[s' l'] t'] eqn:T.
      intros H; inversion H; subst.
      destruct (IH _ _ _ _ T) as [k [E Hall]].
      exists (S k). split; [simpl; rewrite <- E; reflexivity|].
      intros Hs. rewrite (Hall Hs). reflexivity.
Qed.

Lemma take_fitting_all (limit : N) (cands : list FileTask) :
  forall total,
    (total + sum_sizes cands <= limit)%N ->
    take_fitting limit cands total = (false, cands, (total + sum_sizes cands)%N).
Proof.
  induction cands as [|c cands IH]; intros total H; simpl in *.
  - rewrite N.add_0_r. reflexivity.
  - assert (E : (limit <? total + size c)%N = false) by (apply N.ltb_ge; lia).
    rewrite E, IH by lia. f_equal. lia.
Qed.

(** X2. The batch is a rearrangement of an initial segment of the matching
    files in traversal order: nothing is accepted after a file that was
    left out.  It is a rearrangement of all of them, unless together
    they exceed MAX_BATCH_SIZE_BYTES. *)
Theorem batch_is_prefix_of_candidates
        (dir : path) (w : World) (files : entries) (batch : list FileTask) :
  lookup dir (Dir (fs w)) = Some (Dir files) ->
  fst (collectFiles dir w) = Js.Ret batch ->
  (exists k, Permutation batch (firstn k (candidates dir files)))
  /\ (Permutation batch (candidates dir files)
      \/ (MAX_BATCH_SIZE_BYTES < sum_sizes (candidates dir files))%N).
Proof.
  intros L E. rewrite (collectFiles_value dir w files batch L E). split.
  - rewrite walk_spec.
    destruct (take_fitting MAX_BATCH_SIZE_BYTES (candidates dir files) 0) as [[s l] t] eqn:T.
    destruct (take_fitting_firstn _ _ _ _ _ _ T) as [k [Ek _]].
    exists k. simpl. rewrite <- Ek. apply Permutation_sym, sort_by_perm.
  - destruct (N.le_gt_cases (sum_sizes (candidates dir files)) MAX_BATCH_SIZE_BYTES)
      as [Hfit | Hover]; [left | right; exact Hover].
    rewrite walk_spec, take_fitting_all by (rewrite N.add_0_l; exact Hfit).
    simpl. apply Permutation_sym, sort_by_perm.
Qed.

Lemma batch_is_prefix_witness :
  (exists k, Permutation [SpaceAware.mkFileTask Demo.b_flv 6000000 100 100; Demo.task_a]
                         (firstn k (candidates TARGET_DIR
                                      (ECons "a.flv" (Demo.file 5000000 200)
                                         (ECons "b.flv" (Demo.file 6000000 100) ENil)))))
  /\ (Permutation [SpaceAware.mkFileTask Demo.b_flv 6000000 100 100; Demo.task_a]
                  (candidates TARGET_DIR
                     (ECons "a.flv" (Demo.file 5000000 200)
                        (ECons "b.flv" (Demo.file 6000000 100) ENil)))
      \/ (MAX_BATCH_SIZE_BYTES
          < sum_sizes (candidates TARGET_DIR
                         (ECons "a.flv" (Demo.file 5000000 200)
                            (ECons "b.flv" (Demo.file 6000000 100) ENil))))%N).
Proof.
  apply (batch_is_prefix_of_candidates TARGET_DIR (Demo.world Demo.two_files)).
  - reflexivity.
  - vm_compute; reflexivity.
Defined.

Lemma length_sort_by (l : list FileTask) : List.length (sort_by by_mtime l) = List.length l.
Proof. symmetry. apply Permutation_length, sort_by_perm. Qed.

(** X3. The summary collectFiles writes to the log tells the truth about
    the batch it returns: the count is the length of the batch and the
    size is the sum of the sizes of its files.  Apart from the two log
    entries, collectFiles changes nothing. *)
Theorem collectFiles_summary_matches_batch (dir : path) (w : World) (files : entries) :
  lookup dir (Dir (fs w)) = Some (Dir files) ->
  exists batch,
    collectFiles dir w
    = (Js.Ret batch,
       mkWorld (fs w)
               (log w ++ [(INFO, MsgBatchSummary (List.length batch) (sum_sizes batch));
                          (INFO, MsgBlank)])
               (review w) (spawned w)).
Proof.
  intros L. unfold collectFiles, bind, get_fs, writeLog, ret. cbn [fst snd fs]. rewrite L.
  pose proof (walk_spec files dir [] 0%N) as W.
  destruct (walk dir files [] 0%N) as [[stop fileList] totalSize].
  destruct (take_fitting MAX_BATCH_SIZE_BYTES (candidates dir files) 0) as [[s l] t] eqn:T.
  inversion W; subst. simpl app.
  destruct (take_fitting_total _ _ _ _ _ T) as [Ht _].
  exists (sort_by by_mtime l). cbn [fs log review spawned].
  rewrite length_sort_by, sum_sizes_sort, Ht, N.add_0_l, <- app_assoc. reflexivity.
Qed.

Lemma collectFiles_summary_witness :
  exists batch,
    collectFiles TARGET_DIR (Demo.world Demo.big_tree)
    = (Js.Ret batch,
       mkWorld (fs (Demo.world Demo.big_tree))
               (log (Demo.world Demo.big_tree)
                  ++ [(INFO, MsgBatchSummary (List.length batch) (sum_sizes batch));
                      (INFO, MsgBlank)])
               (review (Demo.world Demo.big_tree)) (spawned (Demo.world Demo.big_tree))).
Proof.
  eapply (collectFiles_summary_matches_batch TARGET_DIR (Demo.world Demo.big_tree)).
  reflexivity.
Defined.

Lemma with_mtime_insert (k : Z) (x : FileTask) (l : list FileTask) :
  Tree.with_mtime k (insert_by by_mtime x l) = Tree.with_mtime k (x :: l).
Proof.
  induction l as [|y l IH]; [reflexivity|].
  simpl insert_by. destruct (by_mtime x y <=? 0)%Z eqn:E; [reflexivity|].
  apply Z.leb_gt in E. unfold by_mtime in E.
  unfold Tree.with_mtime in *. simpl in *. rewrite IH.
  destruct (mtime x =? k)%Z eqn:Ex; destruct (mtime y =? k)%Z eqn:Ey; try reflexivity.
  apply Z.eqb_eq in Ex, Ey. lia.
Qed.

(** X4. The sort is stable: among the files of the batch that have the
    same modification time, the order is the order in which the
    traversal met them. *)
Theorem batch_keeps_traversal_order_among_equal_mtime
        (dir : path) (files : entries) (k : Z) :
  Tree.with_mtime k (sort_by by_mtime (snd (fst (walk dir files [] 0%N))))
  = Tree.with_mtime k (snd (fst (walk dir files [] 0%N))).
Proof.
  generalize (snd (fst (walk dir files [] 0%N))). intros l.
  induction l as [|x l IH]; [reflexivity|].
  simpl sort_by. rewrite with_mtime_insert.
  unfold Tree.with_mtime in *. simpl. rewrite IH. reflexivity.
Qed.

(** The collectors without a size limit return the list they were
    given, followed by the matching files in traversal order. *)
Lemma unbounded_collect_spec (files : entries) :
  forall dir fileList,
    ValidationAwareRun.collectFiles dir files fileList
    = fileList ++ map fullPath (candidates dir files).
Proof.
  induction files using entries_mut with
    (P := fun n => match n with
                   | Dir sub => forall dir fileList,
                       ValidationAwareRun.collectFiles dir sub fileList
                       = fileList ++ map fullPath (candidates dir sub)
                   | File _ => True
                   end).
  - exact I.
  - exact IHfiles.
  - intros; simpl; rewrite app_nil_r; reflexivity.
  - intros dir fileList. destruct n as [stat|sub]; simpl.
    + change (ValidationAwareRun.is_candidate name) with (is_candidate name).
      destruct (is_candidate name); simpl.
      * rewrite IHfiles0, <- app_assoc. reflexivity.
      * apply IHfiles0.
    + rewrite IHfiles0, IHfiles, map_app, app_assoc. reflexivity.
Qed.

Lemma simple_collect_agrees (files : entries) :
  forall dir fileList,
    SimpleRun.collectFiles dir files fileList
    = ValidationAwareRun.collectFiles dir files fileList.
Proof.
  induction files using entries_mut with
    (P := fun n => match n with
                   | Dir sub => forall dir fileList,
                       SimpleRun.collectFiles dir sub fileList
                       = ValidationAwareRun.collectFiles dir sub fileList
                   | File _ => True
                   end).
  - exact I.
  - exact IHfiles.
  - reflexivity.
  - intros dir fileList. destruct n as [stat|sub]; simpl.
    + change (SimpleRun.is_candidate name) with (ValidationAwareRun.is_candidate name).
      destruct (ValidationAwareRun.is_candidate name); apply IHfiles0.
    + rewrite IHfiles, IHfiles0. reflexivity.
Qed.

(** X5. The collectors of the validation-aware script and of
    src/convert.js return the same list: the list they were handed
    followed by the paths of all matching files, each once per place in
    the tree, in traversal order; files of sub-directories come where the
    sub-directory is listed. *)
Theorem unbounded_collectors_list_all_candidates
        (dir : path) (files : entries) (fileList : list path) :
  ValidationAwareRun.collectFiles dir files fileList
  = fileList ++ map fullPath (candidates dir files)
  /\ SimpleRun.collectFiles dir files fileList
     = fileList ++ map fullPath (candidates dir files).
Proof.
  split; [|rewrite simple_collect_agrees]; apply unbounded_collect_spec.
Qed.

(** X6. What the size-bounded traversal accepts is an initial segment
    of what the collector without a limit returns on the same tree, and
    all of it unless the stop signal was raised. *)
Theorem bounded_walk_is_prefix_of_unbounded (dir : path) (files : entries) :
  exists k,
    map fullPath (snd (fst (walk dir files [] 0%N)))
    = firstn k (ValidationAwareRun.collectFiles dir files [])
    /\ (fst (fst (walk dir files [] 0%N)) = true
        \/ map fullPath (snd (fst (walk dir files [] 0%N)))
           = ValidationAwareRun.collectFiles dir files []).
Proof.
  rewrite walk_spec, unbounded_collect_spec. simpl app.
  destruct (take_fitting MAX_BATCH_SIZE_BYTES (candidates dir files) 0) as [[s l] t] eqn:T.
  destruct (take_fitting_firstn _ _ _ _ _ _ T) as [k [Ek Hall]].
  exists k. simpl. split.
  - rewrite Ek. symmetry. apply firstn_map.
  - destruct s; [left; reflexivity | right].
    rewrite (Hall eq_refl). reflexivity.
Qed.

End CollectMore.

(* ================================================================== *)
(** ** Further properties of the validators *)
(* ================================================================== *)

Section ValidateMore.

Import Fs Rt Spec.

Lemma in_push_unless (flag : bool) (code c : string) (acc : list string) :
  In c (Probe.push_unless flag code acc) <-> In c acc \/ (flag = false /\ c = code).
Proof.
  unfold Probe.push_unless. destruct flag; split.
  - auto.
  - intros [H | [H _]]; [exact H | discriminate].
  - intros H. apply in_app_or in H. destruct H as [H | [H | []]]; auto.
  - intros [H | [_ ->]]; apply in_or_app; [left; exact H | right; left; reflexivity].
Qed.

Lemma five_flags (a b c d e : bool) (ca cb cc cd ce : string) :
  a && b && c && d && e
  = match Probe.push_unless e ce (Probe.push_unless d cd (Probe.push_unless c cc
            (Probe.push_unless b cb (Probe.push_unless a ca [])))) with
    | [] => true
    | _ :: _ => false
    end.
Proof. destruct a, b, c, d, e; reflexivity. Qed.

Lemma six_flags (a b c d e f : bool) (ca cb cc cd ce cf : string) :
  a && b && c && d && e && f
  = match Probe.push_unless f cf (Probe.push_unless e ce (Probe.push_unless d cd
            (Probe.push_unless c cc (Probe.push_unless b cb
               (Probe.push_unless a ca []))))) with
    | [] => true
    | _ :: _ => false
    end.
Proof. destruct a, b, c, d, e, f; reflexivity. Qed.

(** X7. In both validators the verdict and the list of reasons agree:
    [ok] is true exactly when the result carries an empty list of
    reasons.  (For a document without [format] or [streams] there is no
    list at all, and [ok] is false.) *)
Theorem ok_iff_no_reasons :
  (forall ffinfo,
      Probe.ok (ValidationAware.validateMp4ByFfprobe ffinfo)
      = Tree.no_reasons (ValidationAware.validateMp4ByFfprobe ffinfo))
  /\ (forall ffinfo originSize,
         match SpaceAware.validateMp4ByFfprobe ffinfo originSize with
         | Js.Ret v => Probe.ok v = Tree.no_reasons v
         | Js.Thrown _ => True
         end).
Proof.
  split.
  - intros [[[fmt|] [ss|]]|]; unfold ValidationAware.validateMp4ByFfprobe, Tree.no_reasons;
      cbn [Probe.ok Probe.reasons]; try reflexivity.
    apply five_flags.
  - intros [[[fmt|] [ss|]]|] originSize;
      unfold SpaceAware.validateMp4ByFfprobe, Tree.no_reasons;
      cbn [Probe.ok Probe.reasons]; try reflexivity.
    destruct (SpaceAware.a_ok fmt) as [a|e]; [|exact I].
    cbn [Probe.ok Probe.reasons]. apply six_flags.
Qed.

(** X8. A document whose [format] has no string [format_name] (the
    property is missing, null, a number or a boolean) makes the
    space-aware validator throw a TypeError, where the validation-aware
    one reports [container_not_mp4] among its reasons with [ok] false. *)
Theorem format_name_not_a_string
        (fmt : Probe.Format) (streams : list Probe.Stream) (originSize : N) :
  (forall s, Probe.format_name fmt <> Js.VStr s) ->
  (exists msg,
      SpaceAware.validateMp4ByFfprobe (Some (Probe.mkMediaInfo (Some fmt) (Some streams)))
                                      originSize
      = Js.Thrown (Js.TypeError msg))
  /\ Probe.ok (ValidationAware.validateMp4ByFfprobe
                 (Some (Probe.mkMediaInfo (Some fmt) (Some streams)))) = false
  /\ names_reason "container_not_mp4"
       (ValidationAware.validateMp4ByFfprobe
          (Some (Probe.mkMediaInfo (Some fmt) (Some streams)))).
Proof.
  intros Hns. unfold names_reason. simpl.
  unfold SpaceAware.a_ok, ValidationAware.a_ok.
  destruct (Probe.format_name fmt) as [| |b|n|s] eqn:E;
    try (split; [eexists; reflexivity|]; split; [reflexivity|];
         eexists; split; [reflexivity|];
         do 4 (apply in_push_unless; left);
         apply in_push_unless; right; split; reflexivity).
  destruct (Hns s eq_refl).
Qed.

Lemma format_name_not_a_string_witness :
  (exists msg,
      SpaceAware.validateMp4ByFfprobe
        (Some (Probe.mkMediaInfo
                 (Some (Probe.mkFormat Js.VUndefined (Js.VNum (Js.of_Z 2))
                          (Js.VStr "300.0") (Js.VStr "4000000")))
                 (Some Demo.streams_ok)))
        4000000
      = Js.Thrown (Js.TypeError msg))
  /\ Probe.ok (ValidationAware.validateMp4ByFfprobe
                 (Some (Probe.mkMediaInfo
                          (Some (Probe.mkFormat Js.VUndefined (Js.VNum (Js.of_Z 2))
                                   (Js.VStr "300.0") (Js.VStr "4000000")))
                          (Some Demo.streams_ok)))) = false
  /\ names_reason "container_not_mp4"
       (ValidationAware.validateMp4ByFfprobe
          (Some (Probe.mkMediaInfo
                   (Some (Probe.mkFormat Js.VUndefined (Js.VNum (Js.of_Z 2))
                            (Js.VStr "300.0") (Js.VStr "4000000")))
                   (Some Demo.streams_ok)))).
Proof.
  apply (format_name_not_a_string
           (Probe.mkFormat Js.VUndefined (Js.VNum (Js.of_Z 2)) (Js.VStr "300.0")
                           (Js.VStr "4000000"))
           Demo.streams_ok 4000000).
  intros s. discriminate.
Defined.

End ValidateMore.

(* ================================================================== *)
(** ** Further properties of the workers *)
(* ================================================================== *)

Section WorkerMore.

Import Fs Rt Spec.

Ltac find_logged :=
  solve [ repeat first [ apply in_or_app; right; left; reflexivity
                       | apply in_or_app; left ] ].

Lemma stat_exists (es : entries) (p : path) (st : Stat) :
  stat es p = Some st -> Fs.existsSync es p = true.
Proof.
  unfold stat, Fs.existsSync. destruct (lookup p (Dir es)); [reflexivity | discriminate].
Qed.

Lemma stat_lookup (es : entries) (p : path) (st : Stat) :
  stat es p = Some st -> lookup p (Dir es) = Some (File st).
Proof.
  unfold stat. destruct (lookup p (Dir es)) as [[s|sub]|]; intros H; inversion H; reflexivity.
Qed.

Lemma stat_set_same (n : string) (st : Stat) (es : entries) :
  stat (set_entry n (File st) es) [n] = Some st.
Proof. unfold stat; simpl. rewrite find_set_same. reflexivity. Qed.

(** Unlinking some other file leaves the stat of a top-level file. *)
Lemma remove_stat_top (q : path) (es es' : entries) (n : string) :
  remove_file q es = Some es' -> q <> [n] -> stat es' [n] = stat es [n].
Proof.
  intros R Hne. unfold stat; simpl.
  destruct q as [|m q']; simpl in R; [discriminate|].
  destruct (find_entry m es) as [[st|sub]|] eqn:F; destruct q' as [|k q'']; try discriminate.
  - inversion R; subst es'. assert (n <> m) by congruence.
    rewrite find_drop_other by assumption. reflexivity.
  - destruct (remove_file (k :: q'') sub) as [sub'|]; [|discriminate].
    inversion R; subst es'.
    destruct (string_dec n m) as [->|Hnm].
    + rewrite find_set_same, F. reflexivity.
    + rewrite find_set_other by assumption. reflexivity.
Qed.

(** X9. The good case of the space-aware worker.  The destination is
    free, the source is a regular file, the transcoder exits with code 0
    having written its output, validation passes and neither utimes nor
    unlink fails.  Then the promise resolves, the output is there with
    the size the transcoder gave it and the modification and access
    times of the task, the source is gone, and the ledger is as it was. *)
Theorem valid_output_takes_times_and_source_is_removed
        (env : Env) (t : SpaceAware.FileTask) (w : World)
        (v : Probe.Validation) (st_in : Stat) :
  Fs.existsSync (fs w) (SpaceAware.outputPath (SpaceAware.fullPath t)) = false ->
  stat (fs w) (SpaceAware.fullPath t) = Some st_in ->
  ffmpeg env (SpaceAware.fullPath t) = Closed 0 true ->
  SpaceAware.validateMp4ByFfprobe (probe_doc (ffprobe env (SpaceAware.fullPath t)))
                                  (SpaceAware.size t) = Js.Ret v ->
  Probe.ok v = true ->
  utimes_error env (SpaceAware.outputPath (SpaceAware.fullPath t)) = None ->
  unlink_error env (SpaceAware.fullPath t) (SpaceAware.fullPath t) = None ->
  exists w',
    SpaceAware.convertFlvToMp4 env t w = Resolved w'
    /\ stat (fs w') (SpaceAware.outputPath (SpaceAware.fullPath t))
       = Some (mkStat (st_size (ffmpeg_stat env (SpaceAware.fullPath t)))
                      (SpaceAware.mtime t) (SpaceAware.atime t))
    /\ stat (fs w') (SpaceAware.fullPath t) = None
    /\ review w' = review w
    /\ logged INFO (MsgValidated (SpaceAware.outputPath (SpaceAware.fullPath t))) w'
    /\ logged INFO (MsgSourceDeleted (SpaceAware.fullPath t)) w'.
Proof.
  rewrite outputPath_top. set (n := (stem (SpaceAware.fullPath t) ++ ".mp4")%string).
  set (input := SpaceAware.fullPath t).
  intros Ex Hin F V Hok Hut Hun.
  assert (Hne : input <> [n]).
  { intros E. rewrite E in Hin. apply stat_exists in Hin. congruence. }
  set (st1 := ffmpeg_stat env input).
  set (st2 := mkStat (st_size st1) (SpaceAware.mtime t) (SpaceAware.atime t)).
  set (fs1 := set_entry n (File st1) (fs w)).
  set (fs2 := set_entry n (File st2) fs1).
  assert (W1 : write_file [n] st1 (fs w) = Some fs1) by (apply write_top_succeeds; exact Ex).
  assert (L1 : lookup [n] (Dir fs1) = Some (File st1)).
  { apply stat_lookup. apply stat_set_same. }
  assert (W2 : write_file [n] st2 fs1 = Some fs2).
  { simpl. unfold fs1 at 1. rewrite find_set_same. reflexivity. }
  assert (Hin2 : stat fs2 input = Some st_in).
  { rewrite (write_top_stat _ _ _ _ input W2 Hne), (write_top_stat _ _ _ _ input W1 Hne).
    exact Hin. }
  destruct (remove_file_spec input fs2 st_in (stat_lookup _ _ _ Hin2)) as [fs3 [R L3]].
  assert (Hout : stat fs3 [n] = Some st2).
  { rewrite (remove_stat_top _ _ _ n R Hne). apply stat_set_same. }
  assert (Hgone : stat fs3 input = None) by (unfold stat; rewrite L3; reflexivity).
  unfold SpaceAware.convertFlvToMp4. rewrite outputPath_top. fold n input. rewrite Ex.
  unfold await_handler, SpaceAware.convert_new, SpaceAware.on_close,
    SpaceAware.on_exit_zero, SpaceAware.on_valid, SpaceAware.delete_source,
    SpaceAware.runFfprobeJson, SpaceAware.lift, SpaceAware.isDel, bind, writeLog,
    spawn_ffmpeg, utimesSync, when, try_catch, unlinkSync, ret, throw, logged.
  fold input. rewrite F. cbn [Z.eqb fs log review spawned fst snd].
  fold st1. rewrite W1.
  destruct (ffprobe env input) as [err|doc]; cbn [probe_doc] in V; rewrite V;
    cbn [fs log review spawned fst snd]; rewrite Hok, Hut;
    cbn [fs log review spawned fst snd]; rewrite L1;
    cbn [fs log review spawned fst snd st_size]; fold st2; rewrite W2;
    cbn [fs log review spawned fst snd]; rewrite Hun, R;
    cbn [fs log review spawned fst snd];
    (eexists; split; [reflexivity|]; cbn [fs log review spawned];
     split; [exact Hout|]; split; [exact Hgone|]; split; [reflexivity|];
     split; find_logged).
Qed.

Lemma valid_output_witness :
  exists w',
    SpaceAware.convertFlvToMp4 Demo.all_fine Demo.task_a (Demo.world Demo.two_files)
    = Resolved w'
    /\ stat (fs w') (SpaceAware.outputPath (SpaceAware.fullPath Demo.task_a))
       = Some (mkStat (st_size (ffmpeg_stat Demo.all_fine (SpaceAware.fullPath Demo.task_a)))
                      (SpaceAware.mtime Demo.task_a) (SpaceAware.atime Demo.task_a))
    /\ stat (fs w') (SpaceAware.fullPath Demo.task_a) = None
    /\ review w' = review (Demo.world Demo.two_files)
    /\ logged INFO (MsgValidated (SpaceAware.outputPath (SpaceAware.fullPath Demo.task_a))) w'
    /\ logged INFO (MsgSourceDeleted (SpaceAware.fullPath Demo.task_a)) w'.
Proof.
  eapply (valid_output_takes_times_and_source_is_removed Demo.all_fine Demo.task_a
            (Demo.world Demo.two_files)).
  - vm_compute; reflexivity.
  - vm_compute; reflexivity.
  - reflexivity.
  - vm_compute; reflexivity.
  - reflexivity.
  - reflexivity.
  - reflexivity.
Defined.

End WorkerMore.

(** *** When a worker fails to settle *)

Section Settling.

Import Fs Rt Spec.

Lemma fst_bind {A B} (m : M A) (k : A -> M B) (w : World) :
  fst (bind m k w) = match fst (m w) with
                     | Js.Ret a => fst (k a (snd (m w)))
                     | Js.Thrown e => Js.Thrown e
                     end.
Proof. unfold bind. destruct (m w) as [[a|e] w']; reflexivity. Qed.

Lemma always_ret {A} (a : A) : Tree.returns_always (ret a).
Proof. intros w; exists a; reflexivity. Qed.

Lemma always_writeLog (m : Msg) (l : Level) : Tree.returns_always (writeLog m l).
Proof. intros w; exists tt; reflexivity. Qed.

Lemma always_bind {A B} (m : M A) (k : A -> M B) :
  Tree.returns_always m -> (forall a, Tree.returns_always (k a)) ->
  Tree.returns_always (bind m k).
Proof.
  intros Hm Hk w. rewrite fst_bind. destruct (Hm w) as [a E]. rewrite E. apply Hk.
Qed.

(** A try whose handler returns always returns. *)
Lemma always_try {A} (body : M A) (handler : Js.Exn -> M A) :
  (forall e, Tree.returns_always (handler e)) -> Tree.returns_always (try_catch body handler).
Proof.
  intros Hh w. unfold try_catch.
  destruct (body w) as [[a|e] w']; [exists a; reflexivity | apply Hh].
Qed.

Lemma always_when (b : bool) (m : M unit) :
  Tree.returns_always m -> Tree.returns_always (when b m).
Proof. destruct b; simpl; [auto | intros _; apply always_ret]. Qed.



Lemma always_spawn (env : Env) (i o : path) : Tree.returns_always (spawn_ffmpeg env i o).
Proof. intros w; eexists; reflexivity. Qed.




(** **** The space-aware worker *)











(** **** The validation-aware worker *)








End Settling.

(* ================================================================== *)
(** ** What a run of the space-aware script leaves alone *)
(* ================================================================== *)

Section RunSafety.

Import Fs Rt Spec SpaceAware.

(** Unlinking a file changes the stat of no other path. *)
Lemma remove_stat_frame (q : path) :
  forall es es' p, remove_file q es = Some es' -> p <> q -> stat es' p = stat es p.
Proof.
  induction q as [|m q' IH]; intros es es' p R Hne; simpl in R; [discriminate|].
  destruct p as [|k p']; [reflexivity|].
  unfold stat. simpl lookup.
  destruct (find_entry m es) as [[st|sub]|] eqn:F; destruct q' as [|j q'']; try discriminate.
  - inversion R; subst es'.
    destruct (string_dec k m) as [->|Hkm].
    + rewrite find_drop_same, F.
      destruct p' as [|i p'']; [congruence | reflexivity].
    + rewrite find_drop_other by assumption. reflexivity.
  - destruct (remove_file (j :: q'') sub) as [sub'|] eqn:R'; [|discriminate].
    inversion R; subst es'.
    destruct (string_dec k m) as [->|Hkm].
    + rewrite find_set_same, F.
      assert (Hp : p' <> j :: q'') by congruence.
      exact (IH sub sub' p' R' Hp).
    + rewrite find_set_other by assumption. reflexivity.
Qed.

Lemma candidates_are_candidates (files : entries) :
  forall dir t, In t (candidates dir files) -> is_candidate (filename (fullPath t)) = true.
Proof.
  induction files using entries_mut with
    (P := fun n => match n with
                   | Dir sub => forall dir t, In t (candidates dir sub) ->
                                              is_candidate (filename (fullPath t)) = true
                   | File _ => True
                   end).
  - exact I.
  - exact IHfiles.
  - intros dir t [].
  - intros dir t Hin. destruct n as [stat|sub]; simpl in Hin.
    + destruct (is_candidate name) eqn:C; [|eapply IHfiles0; eauto].
      destruct Hin as [<- | Hin]; [|eapply IHfiles0; eauto].
      simpl. rewrite filename_join. exact C.
    + apply in_app_or in Hin. destruct Hin; [eapply IHfiles | eapply IHfiles0]; eauto.
Qed.

Lemma collectFiles_collected (w : World) (batch : list FileTask) :
  fst (collectFiles TARGET_DIR w) = Js.Ret batch -> Forall Tree.collected batch.
Proof.
  intros E. apply Forall_forall. intros t Hin. split.
  - pose proof (collectFiles_below _ _ _ E) as B. rewrite Forall_forall in B. auto.
  - destruct (lookup TARGET_DIR (Dir (fs w))) as [[st|files]|] eqn:L.
    + revert E. unfold collectFiles, bind, get_fs. cbn [fst snd fs]. rewrite L. discriminate.
    + rewrite (collectFiles_value _ _ _ _ L E) in Hin.
      apply batch_incl_candidates in Hin.
      eapply candidates_are_candidates; eauto.
    + revert E. unfold collectFiles, bind, get_fs. cbn [fst snd fs]. rewrite L. discriminate.
Qed.

Lemma prepare_collected (env : Env) (w : World) (batch : list FileTask) :
  fst (prepare env w) = Js.Ret (Some batch) -> Forall Tree.collected batch.
Proof.
  set (Q := fun r : option (list FileTask) =>
              match r with Some b => Forall Tree.collected b | None => True end).
  assert (R : forall w0 r, fst (prepare env w0) = Js.Ret r -> Q r).
  { unfold prepare.
    apply (returns_bind _ _ (fun _ => True)); [auto | intros _ _].
    apply (returns_bind _ _ (fun _ => True)); [auto | intros target _].
    destruct (negb target).
    { apply (returns_bind _ _ (fun _ => True)); [auto | intros _ _].
      intros w0 b E; inversion E; exact I. }
    apply (returns_bind _ _ (fun _ => True)); [auto | intros _ _].
    apply (returns_bind _ _ (fun _ => True)); [auto | intros availableSpace _].
    destruct (Js.lt availableSpace (Js.of_Z SPACE_THRESHOLD)).
    { apply (returns_bind _ _ (fun _ => True)); [auto | intros _ _].
      intros w0 b E; inversion E; exact I. }
    apply (returns_bind _ _ (fun l => Forall Tree.collected l)).
    + intros w0 a. apply collectFiles_collected.
    + intros a Ha w0 b E; inversion E; subst; exact Ha. }
  intros E. exact (R w (Some batch) E).
Qed.

(** An invariant that [prepare] and the closing log entry keep, and that
    the worker keeps for every collected file, holds when [main] ends. *)
Lemma main_keeps_collected (P : World -> Prop) (env : Env) (w : World) :
  P (snd (prepare env w)) ->
  (forall t w', Tree.collected t -> P w' -> P (settled_world (convertFlvToMp4 env t w'))) ->
  (forall k, keeps P (writeLog (MsgDone k) INFO)) ->
  P (final (main env w)).
Proof.
  intros Hprep Hstep Hdone. unfold main.
  pose proof (prepare_collected env w) as Hc.
  destruct (prepare env w) as [[[batch|]|e] w1]; simpl in *; try exact Hprep.
  specialize (Hc batch eq_refl). rewrite Forall_forall in Hc.
  pose proof (for_await_keeps P env batch) as Hloop.
  specialize (Hloop (fun t w' Hin => Hstep t w' (Hc t Hin)) w1 Hprep).
  destruct (for_await (convertFlvToMp4 env) batch w1) as [w2 | e w2]; simpl in *.
  - apply Hdone; exact Hloop.
  - exact Hloop.
Qed.

(** X12. Apart from the ledger, which [main] unlinks when it starts, a
    run never removes a file that lies directly in BASE_DIR: an output
    of an earlier run, or any other top-level file but
    [manual_review.txt], that is there when [main] starts is there when
    [main] ends, however it ends. *)
Theorem run_keeps_top_level_files (env : Env) (w : World) (n : string) :
  n <> MANUAL_REVIEW_NAME ->
  Fs.existsSync (fs w) [n] = true ->
  Fs.existsSync (fs (final (main env w))) [n] = true.
Proof.
  intros Hled Hp. apply (main_keeps (present n)).
  - destruct (prepare_world env w) as ((Hpres & _) & _). apply Hpres; assumption.
  - intros t w' Hb. apply worker_keeps_present. apply below_target_not_top; exact Hb.
  - intros k w' H; exact H.
Qed.

Lemma run_keeps_top_level_witness :
  Fs.existsSync
    (fs (final (main Demo.exit_one
                     (final (main Demo.all_fine (Demo.world Demo.two_files))))))
    ["a.mp4"] = true.
Proof.
  apply (run_keeps_top_level_files Demo.exit_one
           (final (main Demo.all_fine (Demo.world Demo.two_files))) "a.mp4").
  - discriminate.
  - vm_compute; reflexivity.
Defined.

(** Stat of [p] is [s]. *)
Lemma stat_keeps_writeLog p s m l : keeps (fun w => stat (fs w) p = s) (writeLog m l).
Proof. intros w H; exact H. Qed.

Lemma stat_keeps_review p s r : keeps (fun w => stat (fs w) p = s) (append_review r).
Proof. intros w H; exact H. Qed.

Lemma stat_keeps_unlink p s env src q :
  p <> q -> keeps (fun w => stat (fs w) p = s) (unlinkSync env src q).
Proof.
  intros Hne w H.
  destruct (unlinkSync_world env src q w) as (_ & _ & _ & [E | R]).
  - rewrite E; exact H.
  - rewrite (remove_stat_frame _ _ _ p R Hne); exact H.
Qed.

Lemma stat_keeps_utimes p s env n a m :
  p <> [n] -> keeps (fun w => stat (fs w) p = s) (utimesSync env [n] a m).
Proof.
  intros Hne w H.
  destruct (utimesSync_world env [n] a m w) as (_ & _ & _ & [E | [st W]]).
  - rewrite E; exact H.
  - rewrite (write_top_stat _ _ _ _ p W Hne); exact H.
Qed.

Lemma stat_keeps_spawn p s env i n :
  p <> [n] -> keeps (fun w => stat (fs w) p = s) (spawn_ffmpeg env i [n]).
Proof.
  intros Hne w H.
  destruct (spawn_world env i [n] w) as (_ & _ & _ & _ & [E | [st W]]).
  - rewrite E; exact H.
  - rewrite (write_top_stat _ _ _ _ p W Hne); exact H.
Qed.

(** A worker changes the stat of no path other than its source and its
    destination. *)
Lemma worker_keeps_stat (env : Env) (t : FileTask) (p : path) (s : option Stat) (w : World) :
  p <> fullPath t -> p <> outputPath (fullPath t) ->
  stat (fs w) p = s -> stat (fs (settled_world (convertFlvToMp4 env t w))) p = s.
Proof.
  intros Hsrc Hout H. rewrite worker_world. rewrite outputPath_top in *.
  destruct (Fs.existsSync (fs w) [(stem (fullPath t) ++ ".mp4")%string]).
  - apply (keeps_skip_existing (fun w' => stat (fs w') p = s));
      auto using stat_keeps_writeLog, stat_keeps_unlink.
  - apply (keeps_convert_new (fun w' => stat (fs w') p = s));
      auto using stat_keeps_writeLog, stat_keeps_review, stat_keeps_unlink,
                 stat_keeps_utimes, stat_keeps_spawn.
Qed.

(** X13. A run leaves alone every path at least two levels below
    BASE_DIR whose name does not have a convertible extension: whatever
    the transcoder, the probe and the system calls report, the file (or
    its absence) is the same when [main] ends.  (The transcoder writes
    at its output path only, see [spawn_ffmpeg].) *)
Theorem run_leaves_other_files_alone (env : Env) (w : World) (p : path) :
  (2 <= List.length p)%nat ->
  is_candidate (filename p) = false ->
  stat (fs (final (main env w))) p = stat (fs w) p.
Proof.
  intros Hlen Hnc.
  apply (main_keeps_collected (fun w' => stat (fs w') p = stat (fs w) p)).
  - destruct (prepare_world env w) as ((_ & Hstat) & _). apply Hstat.
    intros E. rewrite E in Hlen. simpl in Hlen. lia.
  - intros t w' [_ Hc]. apply worker_keeps_stat.
    + intros E. rewrite E in Hnc. congruence.
    + rewrite outputPath_top. intros E. rewrite E in Hlen. simpl in Hlen. lia.
  - intros k w' H; exact H.
Qed.

Lemma run_leaves_other_files_witness :
  stat (fs (final (main Demo.all_fine (Demo.world Demo.big_tree)))) ["快手直播"; "notes.txt"]
  = stat (fs (Demo.world Demo.big_tree)) ["快手直播"; "notes.txt"].
Proof.
  apply (run_leaves_other_files_alone Demo.all_fine (Demo.world Demo.big_tree)
           ["快手直播"; "notes.txt"]).
  - simpl; lia.
  - vm_compute; reflexivity.
Defined.

Lemma spawns_keeps_spawn (P : Spawn -> Prop) env i o :
  P (mkSpawn i o) ->
  keeps (fun w => forall s, In s (spawned w) -> P s) (spawn_ffmpeg env i o).
Proof.
  intros Hp w H.
  destruct (spawn_world env i o w) as (_ & _ & _ & E & _). rewrite E.
  intros s Hin. apply in_app_or in Hin. destruct Hin as [Hin | [<- | []]]; auto.
Qed.

Lemma spawns_keeps_unlink (P : Spawn -> Prop) env src q :
  keeps (fun w => forall s, In s (spawned w) -> P s) (unlinkSync env src q).
Proof.
  intros w H. destruct (unlinkSync_world env src q w) as (_ & _ & E & _).
  rewrite E; exact H.
Qed.

Lemma spawns_keeps_utimes (P : Spawn -> Prop) env q a m :
  keeps (fun w => forall s, In s (spawned w) -> P s) (utimesSync env q a m).
Proof.
  intros w H. destruct (utimesSync_world env q a m w) as (_ & _ & E & _).
  rewrite E; exact H.
Qed.

(** X14. Every transcoder a run starts is for a file of the batch: its
    input lies strictly below TARGET_DIR and has a convertible
    extension, and its output is the top-level path derived from the
    input's name.  No transcoder is started for anything else. *)
Theorem run_spawns_only_for_collected_files (env : Env) (w : World) (s : Spawn) :
  In s (spawned (final (main env w))) ->
  In s (spawned w)
  \/ (below TARGET_DIR (sp_input s)
      /\ is_candidate (filename (sp_input s)) = true
      /\ sp_output s = outputPath (sp_input s)).
Proof.
  set (P := fun s0 : Spawn =>
              In s0 (spawned w)
              \/ (below TARGET_DIR (sp_input s0)
                  /\ is_candidate (filename (sp_input s0)) = true
                  /\ sp_output s0 = outputPath (sp_input s0))).
  intros Hin. revert s Hin.
  apply (main_keeps_collected (fun w' => forall s0, In s0 (spawned w') -> P s0)).
  - destruct (prepare_world env w) as (_ & Hsp & _). rewrite Hsp.
    intros s0 H0. left; exact H0.
  - intros t w' [Hb Hc] H. rewrite worker_world.
    destruct (Fs.existsSync (fs w') (outputPath (fullPath t))).
    + apply (keeps_skip_existing (fun w0 => forall s0, In s0 (spawned w0) -> P s0));
        auto using spawns_keeps_unlink.
      intros m l _ w0 H0; exact H0.
    + apply (keeps_convert_new (fun w0 => forall s0, In s0 (spawned w0) -> P s0));
        auto using spawns_keeps_unlink, spawns_keeps_utimes.
      * intros m l _ w0 H0; exact H0.
      * intros r w0 H0; exact H0.
      * intros w0 H0; exact H0.
      * apply spawns_keeps_spawn. right. simpl. auto.
  - intros k w' H; exact H.
Qed.

Lemma run_spawns_witness :
  In (mkSpawn Demo.a_flv ["a.mp4"]) (spawned (Demo.world Demo.two_files))
  \/ (below TARGET_DIR (sp_input (mkSpawn Demo.a_flv ["a.mp4"]))
      /\ is_candidate (filename (sp_input (mkSpawn Demo.a_flv ["a.mp4"]))) = true
      /\ sp_output (mkSpawn Demo.a_flv ["a.mp4"])
         = outputPath (sp_input (mkSpawn Demo.a_flv ["a.mp4"]))).
Proof.
  apply (run_spawns_only_for_collected_files Demo.all_fine (Demo.world Demo.two_files)).
  vm_compute. right; left; reflexivity.
Defined.

End RunSafety.

(* ================================================================== *)
(** ** The free-space figure and the names of the outputs *)
(* ================================================================== *)

Section FiguresAndNames.

Import Fs Rt Spec.

Lemma take_number_class_app (run post : string) :
  Tree.all_number_class run = true -> Tree.ends_number post = true ->
  SpaceAware.take_number_class (run ++ post) = run.
Proof.
  induction run as [|c r IH]; simpl; intros Hr Hp.
  - destruct post as [|c p]; [reflexivity|]. simpl in *.
    apply negb_true_iff in Hp. rewrite Hp. reflexivity.
  - apply andb_true_iff in Hr. destruct Hr as [Hc Hr].
    rewrite Hc, IH by assumption. reflexivity.
Qed.

(** The regular expression picks the first run of digits and commas. *)
Lemma match_number_first (pre run post : string) :
  Tree.no_number_class pre = true ->
  Tree.all_number_class run = true -> run <> "" ->
  Tree.ends_number post = true ->
  SpaceAware.match_number (pre ++ run ++ post) = Some run.
Proof.
  intros Hpre Hrun Hne Hpost.
  induction pre as [|c p IH]; simpl in *.
  - destruct run as [|c r]; [congruence|].
    simpl in *. apply andb_true_iff in Hrun. destruct Hrun as [Hc Hr].
    rewrite Hc. rewrite take_number_class_app by assumption. reflexivity.
  - apply andb_true_iff in Hpre. destruct Hpre as [Hc Hp].
    apply negb_true_iff in Hc. rewrite Hc. apply IH; exact Hp.
Qed.

(** X15. On win32, when fsutil runs without error, the free space is
    read from the first run of digits and commas in its output, with the
    commas dropped; the text before it and whatever follows do not
    matter, and nothing is logged. *)
Theorem free_space_is_first_number
        (env : Env) (pre run post : string) (dir : path) (w : World) :
  platform env = "win32" ->
  ss_error (fsutil env) = None ->
  ss_stdout (fsutil env) = (pre ++ run ++ post)%string ->
  Tree.no_number_class pre = true ->
  Tree.all_number_class run = true -> run <> "" ->
  Tree.ends_number post = true ->
  SpaceAware.getAvailableDiskSpace env dir w
  = (Js.Ret (Js.parseInt (SpaceAware.remove_commas run)), w).
Proof.
  intros P E S Hpre Hrun Hne Hpost.
  pose proof (match_number_first pre run post Hpre Hrun Hne Hpost) as Mn.
  unfold SpaceAware.getAvailableDiskSpace.
  rewrite P, E, S, Mn. reflexivity.
Qed.

Lemma free_space_witness :
  SpaceAware.getAvailableDiskSpace Demo2.low_disk SpaceAware.OUTPUT_DIR
                                   (Demo.world Demo.two_files)
  = (Js.Ret (Js.parseInt (SpaceAware.remove_commas "1,234,567")), Demo.world Demo.two_files).
Proof.
  apply (free_space_is_first_number Demo2.low_disk
           "Total free bytes        :  " "1,234,567" " (1.2 MB)").
  - reflexivity.
  - reflexivity.
  - reflexivity.
  - vm_compute; reflexivity.
  - vm_compute; reflexivity.
  - discriminate.
  - vm_compute; reflexivity.
Defined.

(** X16. When the target directory exists, the ledger is out of the
    way and the free space that getAvailableDiskSpace returns is below
    SPACE_THRESHOLD, [main] logs its CRITICAL entry and returns.  By
    then it has rewritten the log and removed the ledger; every other
    file is as it was, and no transcoder is started. *)
Theorem low_free_space_stops_the_run (env : Env) (w : World) (v : Js.num) (p : path) :
  Fs.existsSync (fs w) SpaceAware.TARGET_DIR = true ->
  ledger_reset_succeeds env w = true ->
  (forall w0, fst (SpaceAware.getAvailableDiskSpace env SpaceAware.OUTPUT_DIR w0) = Js.Ret v) ->
  Js.lt v (Js.of_Z SpaceAware.SPACE_THRESHOLD) = true ->
  p <> LOG_FILE ->
  p <> MANUAL_REVIEW_FILE ->
  exists w', SpaceAware.main env w = Returned w'
             /\ stat (fs w') p = stat (fs w) p
             /\ Fs.existsSync (fs w') MANUAL_REVIEW_FILE = false
             /\ review w' = []
             /\ spawned w' = spawned w
             /\ logged CRITICAL (MsgDiskSpaceLow SpaceAware.OUTPUT_DIR) w'.
Proof.
  intros T L G Hlt _ Hled.
  unfold SpaceAware.main. rewrite (prepare_after_ledger env w T L).
  pose proof (G (mkWorld (drop_entry MANUAL_REVIEW_NAME (fs w)) [] [] (spawned w))) as G0.
  destruct (getAvailableDiskSpace_world env SpaceAware.OUTPUT_DIR
              (mkWorld (drop_entry MANUAL_REVIEW_NAME (fs w)) [] [] (spawned w)))
    as (Hfs & Hrv & Hsp).
  destruct (SpaceAware.getAvailableDiskSpace env SpaceAware.OUTPUT_DIR
              (mkWorld (drop_entry MANUAL_REVIEW_NAME (fs w)) [] [] (spawned w)))
    as [r w2].
  simpl in G0, Hfs, Hrv, Hsp. subst r. rewrite Hlt.
  eexists. split; [reflexivity|]. cbn [writeLog snd fs log review spawned].
  rewrite Hfs, Hrv, Hsp.
  split; [apply drop_top_stat; [apply (ledger_reset_not_dir env w L) | exact Hled]|].
  split; [apply drop_top_gone|].
  split; [reflexivity|]. split; [reflexivity|].
  unfold logged. cbn [log]. apply in_or_app. right. left. reflexivity.
Qed.

Lemma low_free_space_witness :
  exists w', SpaceAware.main Demo2.low_disk (Demo.world Demo2.with_ledger) = Returned w'
             /\ stat (fs w') Demo.a_flv = stat (fs (Demo.world Demo2.with_ledger)) Demo.a_flv
             /\ Fs.existsSync (fs w') MANUAL_REVIEW_FILE = false
             /\ review w' = []
             /\ spawned w' = spawned (Demo.world Demo2.with_ledger)
             /\ logged CRITICAL (MsgDiskSpaceLow SpaceAware.OUTPUT_DIR) w'.
Proof.
  apply (low_free_space_stops_the_run Demo2.low_disk (Demo.world Demo2.with_ledger)
           (Js.of_Z 1234567) Demo.a_flv).
  - vm_compute; reflexivity.
  - vm_compute; reflexivity.
  - intros w0. reflexivity.
  - vm_compute; reflexivity.
  - discriminate.
  - discriminate.
Defined.

(** **** Names *)

Lemma append_cancel (a x y : string) : (a ++ x = a ++ y)%string -> x = y.
Proof.
  induction a as [|c a IH]; simpl; intros H; [exact H|].
  inversion H. apply IH; assumption.
Qed.

Lemma substring_prefix (pre e : string) :
  substring 0 (String.length pre) (pre ++ e) = pre.
Proof.
  induction pre as [|c p IH]; simpl.
  - destruct e; reflexivity.
  - rewrite IH. reflexivity.
Qed.

Lemma length_append (a b : string) :
  String.length (a ++ b) = (String.length a + String.length b)%nat.
Proof. induction a as [|c a IH]; simpl; [reflexivity | rewrite IH; reflexivity]. Qed.

Lemma last_dot_suffix_is_suffix (s e : string) :
  last_dot_suffix s = Some e -> exists pre, s = (pre ++ e)%string.
Proof.
  revert e. induction s as [|c r IH]; intros e; simpl; [discriminate|].
  destruct (last_dot_suffix r) as [e'|].
  - intros H; inversion H; subst e'.
    destruct (IH e eq_refl) as [pre E]. exists (String c pre). simpl. rewrite <- E. reflexivity.
  - destruct (Ascii.eqb c "."); [|discriminate].
    intros H; inversion H. exists ""%string. reflexivity.
Qed.

Lemma extname_is_suffix (name : string) :
  exists pre, name = (pre ++ extname name)%string.
Proof.
  unfold extname. destruct name as [|c r].
  - exists ""%string; reflexivity.
  - destruct (String.eqb (String c r) "..").
    + exists (String c r). symmetry. clear. induction (String c r); simpl; congruence.
    + destruct (last_dot_suffix r) as [e|] eqn:L.
      * destruct (last_dot_suffix_is_suffix r e L) as [pre E].
        exists (String c pre). simpl. rewrite <- E. reflexivity.
      * exists (String c r). clear. induction (String c r); simpl; congruence.
Qed.

(** Splitting a file name gives it back: the name without its
    extension, followed by the extension, is the name. *)
Lemma stem_extname (p : path) : (stem p ++ extname (filename p))%string = filename p.
Proof.
  unfold stem. destruct (extname_is_suffix (filename p)) as [pre E].
  set (e := extname (filename p)) in *. rewrite E at 1 2.
  rewrite length_append, Nat.add_sub, substring_prefix. symmetry; exact E.
Qed.

(** A name ending in [.mp4] is not the name of a convertible file. *)
Lemma mp4_name_differs (p dir : path) :
  SpaceAware.is_candidate (filename p) = true -> join dir (stem p ++ ".mp4") <> p.
Proof.
  intros C E.
  assert (F : filename (join dir (stem p ++ ".mp4")) = filename p) by (rewrite E; reflexivity).
  rewrite filename_join in F.
  assert (F' : (stem p ++ ".mp4")%string = (stem p ++ extname (filename p))%string)
    by (rewrite stem_extname; exact F).
  apply append_cancel in F'.
  unfold SpaceAware.is_candidate in C. rewrite <- F' in C.
  vm_compute in C. discriminate.
Qed.

(** X17. For every file with a convertible extension, the output path
    differs from the input path in all three scripts: the transcoder is
    never asked to write onto its own source. *)
Theorem output_never_is_the_source (p : path) :
  SpaceAware.is_candidate (filename p) = true ->
  SpaceAware.outputPath p <> p
  /\ ValidationAware.outputPath p <> p
  /\ Simple.outputPath p <> p.
Proof.
  intros C.
  split; [apply mp4_name_differs; exact C|].
  split; apply mp4_name_differs; exact C.
Qed.

Lemma output_never_is_the_source_witness :
  SpaceAware.outputPath ["x.mp4.FLV"] <> ["x.mp4.FLV"]
  /\ ValidationAware.outputPath ["x.mp4.FLV"] <> ["x.mp4.FLV"]
  /\ Simple.outputPath ["x.mp4.FLV"] <> ["x.mp4.FLV"].
Proof.
  apply (output_never_is_the_source ["x.mp4.FLV"]). vm_compute; reflexivity.
Defined.

End FiguresAndNames.

(* ================================================================== *)
(** ** The plain script as a whole, and runs that find their work done *)
(* ================================================================== *)

Section PlainScript.

Import Fs Rt Spec.







Lemma plain_always_convert_new env i o : Tree.returns_always (Simple.convert_new env i o).
Proof.
  unfold Simple.convert_new.
  apply always_bind.
  { apply always_try. intros e.
    apply always_bind; [apply always_writeLog | intros _; apply always_ret]. }
  intros times.
  apply always_bind.
  { unfold Simple.getDuration. destruct (ffmpeg_info env i); try apply always_ret. }
  intros d.
  apply always_bind; [apply always_when; apply always_writeLog | intros _].
  apply always_bind; [apply always_writeLog | intros _].
  apply always_bind; [apply always_spawn | intros r].
  destruct r as [enoent err | code wrote].
  - unfold Simple.on_error. destruct enoent; apply always_writeLog.
  - unfold Simple.on_close. destruct (code =? 0)%Z; [|apply always_writeLog].
    apply always_bind; [|intros _; apply always_writeLog].
    destruct times as [st|]; [|apply always_ret].
    apply always_try. intros e. apply always_writeLog.
Qed.

(** The promise of convertVideoStreamCopy always resolves. *)
Lemma plain_worker_resolves env i w :
  exists w', Simple.convertVideoStreamCopy env i w = Resolved w'.
Proof.
  unfold Simple.convertVideoStreamCopy.
  destruct (Fs.existsSync (fs w) (Simple.outputPath i)).
  - eexists; reflexivity.
  - unfold await_handler.
    destruct (plain_always_convert_new env i (Simple.outputPath i) w) as [a E].
    destruct (Simple.convert_new env i (Simple.outputPath i) w) as [[u|e] w'];
      simpl in E; [eexists; reflexivity | discriminate].
Qed.


(** A loop over workers that always resolve resolves, and keeps what
    they keep. *)
Lemma for_await_resolves {T} (worker : T -> World -> Settled) (P : World -> Prop) :
  (forall t w, P w -> exists w', worker t w = Resolved w' /\ P w') ->
  forall tasks w, P w -> exists w', for_await worker tasks w = Resolved w' /\ P w'.
Proof.
  intros Hw. induction tasks as [|t rest IH]; intros w Hp; simpl.
  - exists w; auto.
  - destruct (Hw t w Hp) as (w1 & E & Hp1). rewrite E. apply IH; exact Hp1.
Qed.

Lemma plain_prepare_value (w : World) :
  SimpleRun.prepare w
  = match lookup SimpleRun.TARGET_DIR (Dir (fs w)) with
    | Some (Dir files) =>
        (Js.Ret (Some (SimpleRun.collectFiles SimpleRun.TARGET_DIR files [])),
         mkWorld (fs w) [] (review w) (spawned w))
    | Some (File _) =>
        (Js.Thrown (Js.SystemError "ENOTDIR"), mkWorld (fs w) [] (review w) (spawned w))
    | None =>
        (Js.Ret None,
         mkWorld (fs w) [(CRITICAL, MsgTargetMissing SimpleRun.TARGET_DIR)]
                 (review w) (spawned w))
    end.
Proof.
  unfold SimpleRun.prepare, SimpleRun.collect, bind, reset_log, Rt.existsSync, get_fs,
    writeLog, ret, throw, Fs.existsSync.
  cbn [fs log review spawned fst snd].
  destruct (lookup SimpleRun.TARGET_DIR (Dir (fs w))) as [[st|files]|] eqn:L;
    cbn [negb fs]; rewrite ?L; reflexivity.
Qed.

(** X18. The promise of [main] in src/convert.js is always fulfilled: no
    failure of stat, the duration query, the transcoder or utimes makes
    it stall or reject.  It ends with the CRITICAL entry about a missing
    target directory, with the CRITICAL entry of the [catch] when the
    target is not a directory, or with the closing entry that counts the
    files collectFiles found. *)
Theorem plain_script_always_completes (env : Env) (w : World) :
  exists w', SimpleRun.main env w = Returned w'
             /\ match lookup SimpleRun.TARGET_DIR (Dir (fs w)) with
                | Some (Dir files) =>
                    logged INFO
                      (MsgDone (List.length
                                  (SimpleRun.collectFiles SimpleRun.TARGET_DIR files []))) w'
                | Some (File _) =>
                    logged CRITICAL (MsgInterrupted (Js.SystemError "ENOTDIR")) w'
                | None => logged CRITICAL (MsgTargetMissing SimpleRun.TARGET_DIR) w'
                end.
Proof.
  unfold SimpleRun.main, SimpleRun.run. rewrite plain_prepare_value.
  destruct (lookup SimpleRun.TARGET_DIR (Dir (fs w))) as [[st|files]|].
  - eexists. split; [reflexivity|]. unfold logged. simpl. left. reflexivity.
  - destruct (for_await_resolves (Simple.convertVideoStreamCopy env) (fun _ => True)
                (fun t w0 _ => match plain_worker_resolves env t w0 with
                               | ex_intro _ w1 E => ex_intro _ w1 (conj E I)
                               end)
                (SimpleRun.collectFiles SimpleRun.TARGET_DIR files [])
                (mkWorld (fs w) [] (review w) (spawned w)) I) as (w2 & E & _).
    rewrite E. eexists. split; [reflexivity|].
    unfold logged, writeLog. cbn [snd log]. apply in_or_app. right. left. reflexivity.
  - eexists. split; [reflexivity|]. left. reflexivity.
Qed.



End PlainScript.

(* ================================================================== *)
(** ** Outputs that fail validation, and runs that find their work done *)
(* ================================================================== *)

Section QuarantineAndReruns.

Import Fs Rt Spec.

(** X20. The space-aware worker on an output that fails validation with
    a list of reasons.  For a file with a convertible extension whose
    destination was free: the promise resolves, the ledger gets the
    source path with the reasons joined by a comma and a blank (without
    a line break), the WARNING is logged, the source keeps its stat, and
    the rejected output is gone unless its unlink failed. *)
Theorem space_aware_invalid_output_is_quarantined
        (env : Env) (t : SpaceAware.FileTask) (w : World) (wrote : bool)
        (v : Probe.Validation) (l : list string) :
  SpaceAware.is_candidate (filename (SpaceAware.fullPath t)) = true ->
  Fs.existsSync (fs w) (SpaceAware.outputPath (SpaceAware.fullPath t)) = false ->
  ffmpeg env (SpaceAware.fullPath t) = Closed 0 wrote ->
  SpaceAware.validateMp4ByFfprobe (probe_doc (ffprobe env (SpaceAware.fullPath t)))
                                  (SpaceAware.size t) = Js.Ret v ->
  Probe.ok v = false ->
  Probe.reasons v = Some l ->
  exists w', SpaceAware.convertFlvToMp4 env t w = Resolved w'
             /\ review w' = review w
                            ++ [mkReviewLine (SpaceAware.fullPath t) (Js.join ", " l) false]
             /\ logged WARNING (MsgManualReview (SpaceAware.fullPath t)) w'
             /\ stat (fs w') (SpaceAware.fullPath t) = stat (fs w) (SpaceAware.fullPath t)
             /\ (unlink_error env (SpaceAware.fullPath t)
                              (SpaceAware.outputPath (SpaceAware.fullPath t)) <> None
                 \/ Fs.existsSync (fs w') (SpaceAware.outputPath (SpaceAware.fullPath t))
                    = false).
Proof.
  intros C Ex F V Hok Hrs.
  assert (Hne : SpaceAware.fullPath t <> SpaceAware.outputPath (SpaceAware.fullPath t)).
  { intros E. apply (mp4_name_differs (SpaceAware.fullPath t) SpaceAware.OUTPUT_DIR C).
    symmetry; exact E. }
  destruct (space_aware_quarantine env t w wrote v l Ex Hne F V Hok Hrs)
    as (w' & E & R & L & S & U).
  exists w'. split; [exact E|]. split; [exact R|]. split; [exact L|]. split; [exact S|].
  destruct (unlink_error env (SpaceAware.fullPath t)
                         (SpaceAware.outputPath (SpaceAware.fullPath t))) as [code|].
  - left; discriminate.
  - right; apply U; reflexivity.
Qed.

Lemma space_aware_quarantine_witness :
  exists w', SpaceAware.convertFlvToMp4 Demo.audio_lost Demo.task_a
               (Demo.world Demo.two_files) = Resolved w'
             /\ review w' = review (Demo.world Demo.two_files)
                            ++ [mkReviewLine (SpaceAware.fullPath Demo.task_a)
                                  (Js.join ", " ["audio_stream_not_aac_mp4a";
                                                 "nb_streams_lt_2"]) false]
             /\ logged WARNING (MsgManualReview (SpaceAware.fullPath Demo.task_a)) w'
             /\ stat (fs w') (SpaceAware.fullPath Demo.task_a)
                = stat (fs (Demo.world Demo.two_files)) (SpaceAware.fullPath Demo.task_a)
             /\ (unlink_error Demo.audio_lost (SpaceAware.fullPath Demo.task_a)
                              (SpaceAware.outputPath (SpaceAware.fullPath Demo.task_a))
                 <> None
                 \/ Fs.existsSync (fs w')
                      (SpaceAware.outputPath (SpaceAware.fullPath Demo.task_a)) = false).
Proof.
  eapply (space_aware_invalid_output_is_quarantined Demo.audio_lost Demo.task_a
            (Demo.world Demo.two_files) true _
            ["audio_stream_not_aac_mp4a"; "nb_streams_lt_2"]).
  - vm_compute; reflexivity.
  - vm_compute; reflexivity.
  - reflexivity.
  - reflexivity.
  - vm_compute; reflexivity.
  - vm_compute; reflexivity.
Defined.

(** X21. The same for the validation-aware worker, whose ledger entries
    end with a line break. *)
Theorem validation_aware_invalid_output_is_quarantined
        (env : Env) (input : path) (w : World) (wrote : bool) (l : list string) :
  SpaceAware.is_candidate (filename input) = true ->
  Fs.existsSync (fs w) (ValidationAware.outputPath input) = false ->
  ffmpeg env input = Closed 0 wrote ->
  Probe.ok (ValidationAware.validateMp4ByFfprobe (probe_doc (ffprobe env input))) = false ->
  Probe.reasons (ValidationAware.validateMp4ByFfprobe (probe_doc (ffprobe env input)))
  = Some l ->
  exists w', ValidationAware.convertFlvToMp4 env input w = Resolved w'
             /\ review w' = review w ++ [mkReviewLine input (Js.join ", " l) true]
             /\ logged WARNING (MsgManualReview input) w'
             /\ stat (fs w') input = stat (fs w) input
             /\ (unlink_error env input (ValidationAware.outputPath input) <> None
                 \/ Fs.existsSync (fs w') (ValidationAware.outputPath input) = false).
Proof.
  intros C Ex F Hok Hrs.
  assert (Hne : input <> ValidationAware.outputPath input).
  { intros E. apply (mp4_name_differs input ValidationAware.OUTPUT_DIR C).
    symmetry; exact E. }
  destruct (validation_aware_quarantine env input w wrote l Ex Hne F Hok Hrs)
    as (w' & E & R & L & S & U).
  exists w'. split; [exact E|]. split; [exact R|]. split; [exact L|]. split; [exact S|].
  destruct (unlink_error env input (ValidationAware.outputPath input)) as [code|].
  - left; discriminate.
  - right; apply U; reflexivity.
Qed.

Lemma validation_aware_quarantine_witness :
  exists w', ValidationAware.convertFlvToMp4 Demo.audio_lost Demo.a_flv
               (Demo.world Demo.two_files) = Resolved w'
             /\ review w' = review (Demo.world Demo.two_files)
                            ++ [mkReviewLine Demo.a_flv
                                  (Js.join ", " ["audio_stream_not_aac_mp4a";
                                                 "nb_streams_lt_2"]) true]
             /\ logged WARNING (MsgManualReview Demo.a_flv) w'
             /\ stat (fs w') Demo.a_flv = stat (fs (Demo.world Demo.two_files)) Demo.a_flv
             /\ (unlink_error Demo.audio_lost Demo.a_flv (ValidationAware.outputPath Demo.a_flv)
                 <> None
                 \/ Fs.existsSync (fs w') (ValidationAware.outputPath Demo.a_flv) = false).
Proof.
  apply (validation_aware_invalid_output_is_quarantined Demo.audio_lost Demo.a_flv
           (Demo.world Demo.two_files) true
           ["audio_stream_not_aac_mp4a"; "nb_streams_lt_2"]).
  - vm_compute; reflexivity.
  - vm_compute; reflexivity.
  - reflexivity.
  - vm_compute; reflexivity.
  - vm_compute; reflexivity.
Defined.

Lemma va_prepare_value (w : World) :
  ValidationAwareRun.prepare w
  = match lookup ValidationAware.TARGET_DIR (Dir (fs w)) with
    | Some (Dir files) =>
        (Js.Ret (Some (ValidationAwareRun.collectFiles ValidationAware.TARGET_DIR files [])),
         mkWorld (fs w) [] (review w) (spawned w))
    | Some (File _) =>
        (Js.Thrown (Js.SystemError "ENOTDIR"), mkWorld (fs w) [] (review w) (spawned w))
    | None =>
        (Js.Ret None,
         mkWorld (fs w) [(CRITICAL, MsgTargetMissing ValidationAware.TARGET_DIR)]
                 (review w) (spawned w))
    end.
Proof.
  unfold ValidationAwareRun.prepare, ValidationAwareRun.collect, bind, reset_log,
    Rt.existsSync, get_fs, writeLog, ret, throw, Fs.existsSync.
  cbn [fs log review spawned fst snd].
  destruct (lookup ValidationAware.TARGET_DIR (Dir (fs w))) as [[st|files]|] eqn:L;
    cbn [negb fs]; rewrite ?L; reflexivity.
Qed.

(** A loop over files whose destinations all exist only logs. *)
Lemma va_loop_all_skipped (env : Env) (tasks : list path) :
  forall w,
    Forall (fun p => Fs.existsSync (fs w) (ValidationAware.outputPath p) = true) tasks ->
    for_await (ValidationAware.convertFlvToMp4 env) tasks w
    = Resolved (mkWorld (fs w)
                        (log w ++ map (fun p => (WARNING,
                                                 MsgSkipExists (ValidationAware.outputPath p)))
                                      tasks)
                        (review w) (spawned w)).
Proof.
  induction tasks as [|p rest IH]; intros w H; simpl.
  - rewrite app_nil_r. destruct w; reflexivity.
  - inversion H as [|? ? Hp Hrest]; subst.
    unfold ValidationAware.convertFlvToMp4 at 1. rewrite Hp.
    unfold await_handler, writeLog.
    rewrite IH by exact Hrest. cbn [fs log review spawned].
    rewrite <- app_assoc. reflexivity.
Qed.

(** X22. A run of the validation-aware script that finds the output of
    every collected file in place changes nothing: it starts no
    transcoder, removes no source, leaves the tree and the ledger as
    they are, and its log holds one skip WARNING per file followed by
    the closing entry. *)
Theorem validation_aware_rerun_changes_nothing
        (env : Env) (w : World) (files : entries) :
  lookup ValidationAware.TARGET_DIR (Dir (fs w)) = Some (Dir files) ->
  Forall (fun p => Fs.existsSync (fs w) (ValidationAware.outputPath p) = true)
         (ValidationAwareRun.collectFiles ValidationAware.TARGET_DIR files []) ->
  exists w', ValidationAwareRun.main env w = Returned w'
             /\ fs w' = fs w /\ review w' = review w /\ spawned w' = spawned w
             /\ log w'
                = map (fun p => (WARNING, MsgSkipExists (ValidationAware.outputPath p)))
                      (ValidationAwareRun.collectFiles ValidationAware.TARGET_DIR files [])
                  ++ [(INFO,
                       MsgDone (List.length
                                  (ValidationAwareRun.collectFiles
                                     ValidationAware.TARGET_DIR files [])))].
Proof.
  intros L H. unfold ValidationAwareRun.main. rewrite va_prepare_value, L.
  rewrite va_loop_all_skipped by exact H.
  eexists. split; [reflexivity|]. cbn [writeLog snd fs log review spawned].
  repeat split; reflexivity.
Qed.

Lemma validation_aware_rerun_witness :
  exists w', ValidationAwareRun.main Demo.all_fine (Demo.world Demo2.converted_tree)
             = Returned w'
             /\ fs w' = fs (Demo.world Demo2.converted_tree)
             /\ review w' = review (Demo.world Demo2.converted_tree)
             /\ spawned w' = spawned (Demo.world Demo2.converted_tree)
             /\ log w'
                = map (fun p => (WARNING, MsgSkipExists (ValidationAware.outputPath p)))
                      (ValidationAwareRun.collectFiles ValidationAware.TARGET_DIR
                         (ECons "a.flv" (Demo.file 5000000 200)
                            (ECons "b.flv" (Demo.file 6000000 100) ENil)) [])
                  ++ [(INFO,
                       MsgDone (List.length
                                  (ValidationAwareRun.collectFiles
                                     ValidationAware.TARGET_DIR
                                     (ECons "a.flv" (Demo.file 5000000 200)
                                        (ECons "b.flv" (Demo.file 6000000 100) ENil)) [])))].
Proof.
  apply (validation_aware_rerun_changes_nothing Demo.all_fine
           (Demo.world Demo2.converted_tree)).
  - reflexivity.
  - vm_compute. repeat constructor.
Defined.

End QuarantineAndReruns.
